(** * The energy-progression engine of the Qigong energy tracker

    A shallow embedding of the handlers of the [QigongCalculator] React
    component (the version with Supabase persistence and retroactive
    editing of a practice day's minutes).

    The component keeps a log of per-day entries and a running energy;
    every handler reads the state of the render it was created in and
    queues [setX] updates, so a handler is modelled as a function from the
    state before to the state after (with the list of effects it
    performed).  What the outside world answers - the clock, the
    confirmation dialog, the result of a persistence call - is an
    argument of the handler.  [handleEndPractice] and [logSkippedDay]
    wait for the collaborator while the page stays in use: they are
    given run to their end and in their two halves, with the page and
    the saves it waits for. *)

From Stdlib Require Import ZArith QArith Qcanon Qround Qabs Floats Lia Lqa.
From Stdlib Require Import String Ascii DecimalString.
From stdpp Require Import base option list.

Set Default Proof Using "Type".
Open Scope Z_scope.

(** ** Numbers

    The energy arithmetic uses JavaScript Numbers: [*], [+], [-], decimal
    literals and [parseFloat(x.toFixed(f))].  The handlers are written
    once, over any implementation of these operations; what is proved
    about the shape of the log holds for all of them.  Two
    implementations are given: IEEE 754 binary64, which is what the
    program runs on, and exact rational arithmetic, in which the numeric
    facts (monotonicity, the 10% decay) are stated. *)

Class JsNumber (num : Type) := {
  (** the Number with the value of an integer *)
  ofZ : Z -> num;
  (** the Number a decimal literal denotes: [decimal 995776 6] is [0.995776] *)
  decimal : Z -> nat -> num;
  add : num -> num -> num;
  sub : num -> num -> num;
  mul : num -> num -> num;
  (** [toFixed x f] is [parseFloat(x.toFixed(f))] *)
  toFixed : num -> nat -> num;
}.

Declare Scope num_scope.
Delimit Scope num_scope with num.
Notation "x + y" := (add x y) : num_scope.
Notation "x - y" := (sub x y) : num_scope.
Notation "x * y" := (mul x y) : num_scope.

(** *** Exact rational arithmetic *)

Module Exact.

(** [x.toFixed(f)]: the integer [n] for which [n / 10^f] is closest to
    [|x|], the larger one of two, with the sign of [x] put back. *)
Definition toFixed (x : Qc) (f : nat) : Qc :=
  let s := 10 ^ Z.of_nat f in
  let n := Qfloor (Qabs x * inject_Z s + (1 # 2)) in
  Q2Qc (Qmake (if Qle_bool 0 x then n else - n) (Z.to_pos s)).

Definition decimal (d : Z) (p : nat) : Qc :=
  Q2Qc (Qmake d (Z.to_pos (10 ^ Z.of_nat p))).

Definition ofZ (z : Z) : Qc := Q2Qc (inject_Z z).

#[global] Instance number : JsNumber Qc :=
  Build_JsNumber Qc ofZ decimal Qcplus Qcminus Qcmult toFixed.

End Exact.

(** *** IEEE 754 binary64 *)

Module Binary64.

(** The double nearest to an integer (ties to even). *)
Definition ofZ (z : Z) : float :=
  SF2Prim (binary_normalize prec emax z 0 false).

(** A decimal literal with at most 15 significant digits: both integers
    are exact doubles and the division is correctly rounded, so the
    quotient is the double nearest to [d / 10^p], which is what the
    literal denotes. *)
Definition decimal (d : Z) (p : nat) : float :=
  PrimFloat.div (ofZ d) (ofZ (10 ^ Z.of_nat p)).

(** The integer [n] of [Number.prototype.toFixed] for [|x| = m * 2^e]:
    [n / 10^f] is as close to [|x|] as possible, the larger [n] of two. *)
Definition toFixedDigits (m : positive) (e : Z) (f : nat) : Z :=
  let s := 10 ^ Z.of_nat f in
  if 0 <=? e then Z.pos m * 2 ^ e * s
  else (2 * Z.pos m * s + 2 ^ (- e)) / 2 ^ (1 - e).

(** [parseFloat(x.toFixed(f))].  NaN and the infinities print as
    themselves; a zero prints as ["0.00"]; once [n] reaches [2^53] the
    printed decimal is less than half an ulp away from [x] and parses
    back to [x]. *)
Definition toFixed (x : float) (f : nat) : float :=
  match Prim2SF x with
  | S754_zero _ => ofZ 0
  | S754_finite sg m e =>
      let n := toFixedDigits m e f in
      if 2 ^ 53 <=? n then x
      else
        let q := PrimFloat.div (ofZ n) (ofZ (10 ^ Z.of_nat f)) in
        if sg then PrimFloat.opp q else q
  | _ => x
  end.

#[global] Instance number : JsNumber float :=
  Build_JsNumber float ofZ decimal
    PrimFloat.add PrimFloat.sub PrimFloat.mul toFixed.

End Binary64.

(** ** Arrays and strings

    The [Array.prototype] methods the handlers call, on lists; the
    callbacks are boolean functions.  [findIndex] answers [None] where
    JavaScript answers [-1], [find] and [findLast] answer [None] for
    [undefined]. *)

Module Array.
Section Array.

Context {A : Type}.

Fixpoint find (p : A -> bool) (l : list A) : option A :=
  match l with
  | [] => None
  | x :: l' => if p x then Some x else find p l'
  end.

Fixpoint findIndex (p : A -> bool) (l : list A) : option nat :=
  match l with
  | [] => None
  | x :: l' => if p x then Some O else S <$> findIndex p l'
  end.

Definition findLast (p : A -> bool) (l : list A) : option A :=
  find p (rev l).

Definition some (p : A -> bool) (l : list A) : bool := existsb p l.

End Array.
End Array.

(** [parseInt(s, 10)] on an ASCII string: leading white space is skipped,
    then comes an optional sign and the longest run of decimal digits,
    whatever follows them; [None] is [NaN] (no digit at all).  The result
    is the integer itself, which a Number holds exactly below [2^53];
    from there on JavaScript answers the nearest Number, which this
    definition does not follow: it is the program's [parseInt] for
    strings of fewer than sixteen digits. *)

Definition isWhiteSpace (c : ascii) : bool :=
  let n := Z.of_nat (nat_of_ascii c) in
  (n =? 32) || ((9 <=? n) && (n <=? 13)).

Fixpoint skipWhiteSpace (s : string) : string :=
  match s with
  | String c s' => if isWhiteSpace c then skipWhiteSpace s' else s
  | EmptyString => s
  end.

Definition digitValue (c : ascii) : option Z :=
  let n := Z.of_nat (nat_of_ascii c) in
  if (48 <=? n) && (n <=? 57) then Some (n - 48) else None.

Fixpoint parseDigits (acc : option Z) (s : string) : option Z :=
  match s with
  | String c s' =>
      match digitValue c with
      | Some d => parseDigits (Some (10 * default 0 acc + d)) s'
      | None => acc
      end
  | EmptyString => acc
  end.

Definition parseInt (s : string) : option Z :=
  match skipWhiteSpace s with
  | String "-" s' => Z.opp <$> parseDigits None s'
  | String "+" s' => parseDigits None s'
  | s' => parseDigits None s'
  end.

(** [Math.round(n / d)] for integers [n] and [d > 0]: the nearest
    integer, the larger one of two, that is [floor(n/d + 1/2)]. *)
Definition Math_round_div (n d : Z) : Z := (2 * n + d) / (2 * d).

(** A value is truthy unless it is [null] or [0]. *)
Definition truthy (v : option Z) : bool :=
  match v with
  | Some t => negb (t =? 0)
  | None => false
  end.

Notation "s |> f" := (f s) (at level 45, left associativity, only parsing).

(** ** The engine *)

(** What a persistence call answers: success, an [error] in the
    response, or an exception. *)
Inductive DbResult := DbOk | DbError | DbThrow.

Section Engine.

Context {num : Type} `{JsNumber num}.

(** *** Data model *)

(** A row of the log.  [gain], [loss] and [growthFactor] are [null]
    (or missing) where they do not apply. *)
Record DayEntry := {
  day : Z;
  energy : num;
  practice : bool;
  minutes : Z;
  gain : option num;
  growthFactor : option num;
  loss : option num;
}.

(** The [useState] cells of the component. *)
Record State := {
  dailyLog : list DayEntry;
  currentDay : Z;
  currentEnergy : num;
  isPracticing : bool;
  startTime : option Z;
  elapsedTime : Z;
  accumulatedSecondsToday : Z;
  isLoading : bool;
  editingDay : option Z;
}.

(** What a handler does to the outside: persistence requests, dialogs
    and console messages ([console.log] is left out), and a
    [TypeError] that nothing catches. *)
Inductive Effect :=
| Upsert (rows : list DayEntry)
| Insert (row : DayEntry)
| DeleteAll
| Alert (msg : string)
| ConsoleError (msg : string)
| ConsoleWarn (msg : string)
| Uncaught (msg : string).

Definition setDailyLog (v : list DayEntry) (s : State) : State :=
  {| dailyLog := v; currentDay := currentDay s;
     currentEnergy := currentEnergy s; isPracticing := isPracticing s;
     startTime := startTime s; elapsedTime := elapsedTime s;
     accumulatedSecondsToday := accumulatedSecondsToday s;
     isLoading := isLoading s; editingDay := editingDay s |}.

Definition setCurrentDay (v : Z) (s : State) : State :=
  {| dailyLog := dailyLog s; currentDay := v;
     currentEnergy := currentEnergy s; isPracticing := isPracticing s;
     startTime := startTime s; elapsedTime := elapsedTime s;
     accumulatedSecondsToday := accumulatedSecondsToday s;
     isLoading := isLoading s; editingDay := editingDay s |}.

Definition setCurrentEnergy (v : num) (s : State) : State :=
  {| dailyLog := dailyLog s; currentDay := currentDay s;
     currentEnergy := v; isPracticing := isPracticing s;
     startTime := startTime s; elapsedTime := elapsedTime s;
     accumulatedSecondsToday := accumulatedSecondsToday s;
     isLoading := isLoading s; editingDay := editingDay s |}.

Definition setIsPracticing (v : bool) (s : State) : State :=
  {| dailyLog := dailyLog s; currentDay := currentDay s;
     currentEnergy := currentEnergy s; isPracticing := v;
     startTime := startTime s; elapsedTime := elapsedTime s;
     accumulatedSecondsToday := accumulatedSecondsToday s;
     isLoading := isLoading s; editingDay := editingDay s |}.

Definition setStartTime (v : option Z) (s : State) : State :=
  {| dailyLog := dailyLog s; currentDay := currentDay s;
     currentEnergy := currentEnergy s; isPracticing := isPracticing s;
     startTime := v; elapsedTime := elapsedTime s;
     accumulatedSecondsToday := accumulatedSecondsToday s;
     isLoading := isLoading s; editingDay := editingDay s |}.

Definition setElapsedTime (v : Z) (s : State) : State :=
  {| dailyLog := dailyLog s; currentDay := currentDay s;
     currentEnergy := currentEnergy s; isPracticing := isPracticing s;
     startTime := startTime s; elapsedTime := v;
     accumulatedSecondsToday := accumulatedSecondsToday s;
     isLoading := isLoading s; editingDay := editingDay s |}.

Definition setAccumulatedSecondsToday (v : Z) (s : State) : State :=
  {| dailyLog := dailyLog s; currentDay := currentDay s;
     currentEnergy := currentEnergy s; isPracticing := isPracticing s;
     startTime := startTime s; elapsedTime := elapsedTime s;
     accumulatedSecondsToday := v;
     isLoading := isLoading s; editingDay := editingDay s |}.

Definition setIsLoading (v : bool) (s : State) : State :=
  {| dailyLog := dailyLog s; currentDay := currentDay s;
     currentEnergy := currentEnergy s; isPracticing := isPracticing s;
     startTime := startTime s; elapsedTime := elapsedTime s;
     accumulatedSecondsToday := accumulatedSecondsToday s;
     isLoading := v; editingDay := editingDay s |}.

Definition setEditingDay (v : option Z) (s : State) : State :=
  {| dailyLog := dailyLog s; currentDay := currentDay s;
     currentEnergy := currentEnergy s; isPracticing := isPracticing s;
     startTime := startTime s; elapsedTime := elapsedTime s;
     accumulatedSecondsToday := accumulatedSecondsToday s;
     isLoading := isLoading s; editingDay := v |}.

(** The state of the first render. *)
Definition initialState : State :=
  {| dailyLog := []; currentDay := 1; currentEnergy := ofZ 1;
     isPracticing := false; startTime := None; elapsedTime := 0;
     accumulatedSecondsToday := 0; isLoading := true;
     editingDay := None |}.

(** *** Constants *)

Definition targetEnergy : num := ofZ 100.
(** 10% loss on skipped days *)
Definition dailyEnergyLoss : num := decimal 1 1.

(** *** Growth factor *)

Definition baseValue : num := decimal 995776 6.
Definition minuteMultiplier : num := decimal 1418 6.

Definition calculateGrowthFactor (minutes : num) : num :=
  (baseValue + minutes * minuteMultiplier)%num.

(** *** Loading the log *)

(** What the initial [select ... order by day] answers. *)
Inductive FetchResult :=
| Fetched (data : list DayEntry)
| FetchError
| FetchThrow.

Definition fetchLog (s : State) (r : FetchResult) : State * list Effect :=
  match r with
  | Fetched (item :: data) =>
      let fetchedLog := item :: data in
      let lastLog := List.last fetchedLog item in
      (s |> setIsLoading true
         |> setDailyLog fetchedLog
         |> setCurrentEnergy (energy lastLog)
         |> setCurrentDay (day lastLog + 1)
         |> setIsLoading false,
       [])
  | Fetched [] =>
      (s |> setIsLoading true
         |> setDailyLog [] |> setCurrentDay 1 |> setCurrentEnergy (ofZ 1)
         |> setIsLoading false,
       [])
  | FetchError =>
      (s |> setIsLoading true
         |> setDailyLog [] |> setCurrentDay 1 |> setCurrentEnergy (ofZ 1)
         |> setIsLoading false,
       [ConsoleError "Error fetching calculation log:";
        ConsoleError "Failed to initialize from Supabase:"])
  | FetchThrow =>
      (s |> setIsLoading true
         |> setDailyLog [] |> setCurrentDay 1 |> setCurrentEnergy (ofZ 1)
         |> setIsLoading false,
       [ConsoleError "Failed to initialize from Supabase:"])
  end.

(** *** Reset *)

Definition resetSimulation (s : State) (confirmed : bool) (db : DbResult)
  : State * list Effect :=
  if negb confirmed then (s, [])
  else
    match db with
    | DbError =>
        (s |> setIsLoading true |> setIsLoading false,
         [DeleteAll;
          ConsoleError "Error clearing Supabase data:";
          Alert "Failed to clear practice history. Please try again."])
    | DbThrow =>
        (s |> setIsLoading true |> setIsLoading false,
         [DeleteAll;
          ConsoleError "Unexpected error during Supabase delete:";
          Alert "An unexpected error occurred while clearing history."])
    | DbOk =>
        (s |> setIsLoading true |> setIsLoading false
           |> setDailyLog [] |> setCurrentDay 1 |> setCurrentEnergy (ofZ 1)
           |> setIsPracticing false |> setStartTime None
           |> setElapsedTime 0 |> setAccumulatedSecondsToday 0,
         [DeleteAll])
    end.

(** *** The stopwatch *)

(** One firing of the one-second interval of the timer effect. *)
Definition timerTick (s : State) (now : Z) : State :=
  if isPracticing s && truthy (startTime s)
  then s |> setElapsedTime ((now - default 0 (startTime s)) / 1000)
  else s.

Definition handleStartPractice (s : State) (now : Z) : State :=
  if isPracticing s then s
  else
    s |> setStartTime (Some (now - elapsedTime s * 1000))
      |> setIsPracticing true.

(** *** End of a practice interval: the practice entry of the day *)

Definition newAccumulatedSeconds (s : State) (endTime : Z) : Z :=
  let currentIntervalSeconds :=
    (endTime - default 0 (startTime s)) / 1000 in
  accumulatedSecondsToday s + currentIntervalSeconds.

Definition totalMinutesToday (s : State) (endTime : Z) : Z :=
  Z.max 1 (Math_round_div (newAccumulatedSeconds s endTime) 60).

(** The energy at the start of the current day. *)
Definition startOfDayEnergy (s : State) : num :=
  from_option energy (ofZ 1)
    (Array.find (fun log => day log =? currentDay s - 1) (dailyLog s)).

Definition logEntryData (s : State) (endTime : Z) : DayEntry :=
  let growthFactor := calculateGrowthFactor (ofZ (totalMinutesToday s endTime)) in
  let newTotalEnergyToday := (startOfDayEnergy s * growthFactor)%num in
  let totalGainToday := (newTotalEnergyToday - startOfDayEnergy s)%num in
  {| day := currentDay s;
     energy := toFixed newTotalEnergyToday 2;
     practice := true;
     minutes := totalMinutesToday s endTime;
     gain := Some (toFixed totalGainToday 2);
     growthFactor := Some (toFixed growthFactor 6);
     loss := None |}.

(** The handler also computes [previousDayEnergy],
    [startingEnergyForToday], [startEnergy] and [previousEnergyLevel],
    which it never uses; they are left out.  The energy, the seconds of
    the day and the log are set before the upsert is awaited, the
    stopwatch is cleared after it, and the answer of the upsert only
    decides what is written to the console.  This is the handler run to
    its end with nothing happening while it waits; its two halves are
    [handleEndPracticeBeforeAwait] and [handleEndPracticeAfterAwait]. *)
Definition handleEndPractice (s : State) (endTime : Z) (db : DbResult)
  : State * list Effect :=
  if negb (isPracticing s) || negb (truthy (startTime s)) then (s, [])
  else
    let growthFactor :=
      calculateGrowthFactor (ofZ (totalMinutesToday s endTime)) in
    let newTotalEnergyToday := (startOfDayEnergy s * growthFactor)%num in
    let logEntryData := logEntryData s endTime in
    let updatedLog :=
      match Array.findIndex (fun log => day log =? currentDay s) (dailyLog s) with
      | Some logIndex => <[logIndex := logEntryData]> (dailyLog s)
      | None => dailyLog s ++ [logEntryData]
      end in
    (s |> setCurrentEnergy newTotalEnergyToday
       |> setAccumulatedSecondsToday (newAccumulatedSeconds s endTime)
       |> setDailyLog updatedLog
       |> setIsPracticing false |> setStartTime None |> setElapsedTime 0,
     Upsert [logEntryData]
     :: match db with
        | DbError => [ConsoleError "Error saving practice log to Supabase:"]
        | _ => []
        end).

(** *** Skipped days and the end of a day *)

Definition skipLogData (s : State) : DayEntry :=
  let energyLoss := (currentEnergy s * dailyEnergyLoss)%num in
  let newEnergy := (currentEnergy s - energyLoss)%num in
  {| day := currentDay s;
     energy := toFixed newEnergy 2;
     practice := false;
     minutes := 0;
     gain := None;
     growthFactor := None;
     loss := Some (toFixed energyLoss 2) |}.

(** The log and the energy are set before the insert is awaited, the
    day advances and the stopwatch is cleared after it.  This is the
    handler run to its end with nothing happening while it waits; its
    two halves are [logSkippedDayBeforeAwait] and
    [logSkippedDayAfterAwait]. *)
Definition logSkippedDay (s : State) (db : DbResult) : State * list Effect :=
  if isPracticing s then (s, [])
  else if accumulatedSecondsToday s >? 0 then (s, [])
  else
    let energyLoss := (currentEnergy s * dailyEnergyLoss)%num in
    let newEnergy := (currentEnergy s - energyLoss)%num in
    let newLog := dailyLog s ++ [skipLogData s] in
    (s |> setDailyLog newLog
       |> setCurrentEnergy newEnergy
       |> setCurrentDay (currentDay s + 1)
       |> setIsPracticing false |> setStartTime None
       |> setElapsedTime 0 |> setAccumulatedSecondsToday 0,
     Insert (skipLogData s)
     :: match db with
        | DbError => [ConsoleError "Error saving skipped day log to Supabase:"]
        | _ => []
        end).

(** The implicit skip entry is written without the [gain] and
    [growthFactor] keys, which reads the same as [null]. *)
Definition advanceToNextDay (s : State) : State :=
  if isPracticing s then s
  else
    let todayLogExists :=
      Array.some (fun log => day log =? currentDay s) (dailyLog s) in
    let s1 :=
      if negb todayLogExists then
        let energyLoss := (currentEnergy s * dailyEnergyLoss)%num in
        let newEnergy := (currentEnergy s - energyLoss)%num in
        let skipLog := skipLogData s in
        s |> setDailyLog (dailyLog s ++ [skipLog])
          |> setCurrentEnergy newEnergy
      else s in
    s1 |> setCurrentDay (currentDay s + 1)
       |> setIsPracticing false |> setStartTime None
       |> setElapsedTime 0 |> setAccumulatedSecondsToday 0.

(** *** Recalculation from an edited day on *)

(** The body of the loop: the entry of a day recomputed from the
    energy the day starts with. *)
Definition recalcEntry (startEnergyForDay : num) (currentEntry : DayEntry)
  : DayEntry :=
  if practice currentEntry then
    let growthFactor := calculateGrowthFactor (ofZ (minutes currentEntry)) in
    let newEnergy := (startEnergyForDay * growthFactor)%num in
    let energyGain := (newEnergy - startEnergyForDay)%num in
    {| day := day currentEntry;
       energy := toFixed newEnergy 2;
       practice := practice currentEntry;
       minutes := minutes currentEntry;
       gain := Some (toFixed energyGain 2);
       growthFactor := Some (toFixed growthFactor 6);
       loss := None |}
  else
    let energyLoss := (startEnergyForDay * dailyEnergyLoss)%num in
    let newEnergy := (startEnergyForDay - energyLoss)%num in
    {| day := day currentEntry;
       energy := toFixed newEnergy 2;
       practice := practice currentEntry;
       minutes := minutes currentEntry;
       gain := None;
       growthFactor := None;
       loss := Some (toFixed energyLoss 2) |}.

(** [for (let i = startIndex; i < recalculatedLog.length; i++)], with
    the number of iterations left as the structural argument; the pair
    is [recalculatedLog] and [updatesForSupabase]. *)
Fixpoint recalcLoop (iterations i : nat) (previousDayEnergy : num)
    (recalculatedLog updatesForSupabase : list DayEntry)
  : list DayEntry * list DayEntry :=
  match iterations with
  | O => (recalculatedLog, updatesForSupabase)
  | S iterations' =>
      match recalculatedLog !! i with
      | None => (recalculatedLog, updatesForSupabase)
      | Some entry =>
          let currentEntry := recalcEntry previousDayEnergy entry in
          recalcLoop iterations' (S i) (energy currentEntry)
            (<[i := currentEntry]> recalculatedLog)
            (updatesForSupabase ++ [currentEntry])
      end
  end.

(** The energy of the day before [startIndex]; [None] where
    [recalculatedLog[startIndex - 1]] is [undefined] and reading its
    [energy] throws. *)
Definition previousDayEnergy (startIndex : nat) (logData : list DayEntry)
  : option num :=
  match startIndex with
  | O => Some (ofZ 1)
  | S before => energy <$> logData !! before
  end.

(** The recalculated log and the rows to upsert. *)
Definition recalculate (startIndex : nat) (logData : list DayEntry)
  : option (list DayEntry * list DayEntry) :=
  previousDayEnergy startIndex logData ≫= fun previousDayEnergy =>
  Some (recalcLoop (length logData - startIndex) startIndex
          previousDayEnergy logData []).

(** [currentEnergy] after a recalculation: the energy of the entry of
    the current day if there is one, else of the last entry of an
    earlier day, else 1. *)
Definition energyAfterRecalculation (s : State)
    (recalculatedLog : list DayEntry) : num :=
  let lastCalculatedDayBeforeCurrent :=
    Array.findLast (fun log => day log <? currentDay s) recalculatedLog in
  let energyBeforeCurrentDay :=
    from_option energy (ofZ 1) lastCalculatedDayBeforeCurrent in
  let currentDayLog :=
    Array.find (fun log => day log =? currentDay s) recalculatedLog in
  from_option energy energyBeforeCurrentDay currentDayLog.

Definition recalculateEnergyFromDay (s : State) (startIndex : nat)
    (logData : list DayEntry) (db : DbResult) : State * list Effect :=
  match recalculate startIndex logData with
  | None =>
      (s |> setIsLoading true,
       [Uncaught "TypeError: Cannot read properties of undefined"])
  | Some (recalculatedLog, updatesForSupabase) =>
      let commit :=
        s |> setIsLoading true
          |> setDailyLog recalculatedLog
          |> setCurrentEnergy (energyAfterRecalculation s recalculatedLog)
          |> setIsLoading false in
      match updatesForSupabase with
      | [] => (commit, [])
      | _ :: _ =>
          match db with
          | DbOk => (commit, [Upsert updatesForSupabase])
          | DbError =>
              (s |> setIsLoading true |> setIsLoading false,
               [Upsert updatesForSupabase;
                ConsoleError "Error batch updating Supabase after edit:";
                Alert "Failed to save recalculations to the database. Please check console and refresh."])
          | DbThrow =>
              (s |> setIsLoading true |> setIsLoading false,
               [Upsert updatesForSupabase;
                ConsoleError "Unexpected error during Supabase batch update:";
                Alert "An unexpected error occurred while saving recalculations."])
          end
      end
  end.

Definition isUncaught (e : Effect) : bool :=
  match e with Uncaught _ => true | _ => false end.

Definition withMinutes (newMinutes : Z) (log : DayEntry) : DayEntry :=
  {| day := day log; energy := energy log; practice := practice log;
     minutes := newMinutes;
     gain := gain log; growthFactor := growthFactor log; loss := loss log |}.

(** The copy of the log handed to the recalculation: the entry at
    [targetIndex] with its new minutes. *)
Definition logCopyWithEdit (dailyLog : list DayEntry) (targetIndex : nat)
    (newMinutes : Z) : list DayEntry :=
  imap (fun index log =>
          if (index =? targetIndex)%nat
          then withMinutes newMinutes log
          else log)
       dailyLog.

(** [findIndex] answers an index of the log, so [dailyLog[targetIndex]]
    is an entry; the branch without one is never taken
    ([findIndex_Some]). *)
Definition handleEditMinutes (s : State) (day' : Z) (newMinutesStr : string)
    (db : DbResult) : State * list Effect :=
  let invalid :=
    (s |> setEditingDay None, [ConsoleWarn "Invalid minutes entered:"]) in
  match parseInt newMinutesStr with
  | None => invalid
  | Some newMinutes =>
      if newMinutes <? 0 then invalid
      else
        match Array.findIndex (fun log => day log =? day') (dailyLog s) with
        | None =>
            (s |> setEditingDay None,
             [ConsoleError "Edited day not found in log:"])
        | Some targetIndex =>
            match dailyLog s !! targetIndex with
            | None => (s, [])
            | Some target =>
                if negb (practice target) then
                  (s |> setEditingDay None,
                   [ConsoleWarn "Cannot edit minutes for a skipped day."])
                else if minutes target =? newMinutes then
                  (s |> setEditingDay None, [])
                else
                  let logCopyWithEdit :=
                    logCopyWithEdit (dailyLog s) targetIndex newMinutes in
                  let '(s', effects) :=
                    recalculateEnergyFromDay s targetIndex logCopyWithEdit db in
                  if existsb isUncaught effects then (s', effects)
                  else (s' |> setEditingDay None, effects)
            end
        end
  end.

(** *** The component as a transition system *)

(** What can happen to the component: the initial fetch, the buttons,
    the timer, and an edit of a day's minutes. *)
Inductive Op :=
| OpFetchLog (r : FetchResult)
| OpResetSimulation (confirmed : bool) (db : DbResult)
| OpTimerTick (now : Z)
| OpStartPractice (now : Z)
| OpEndPractice (endTime : Z) (db : DbResult)
| OpSkipDay (db : DbResult)
| OpAdvance
| OpSetEditingDay (d : option Z)
| OpEditMinutes (day' : Z) (newMinutesStr : string) (db : DbResult).

Definition step (s : State) (op : Op) : State :=
  match op with
  | OpFetchLog r => (fetchLog s r).1
  | OpResetSimulation confirmed db => (resetSimulation s confirmed db).1
  | OpTimerTick now => timerTick s now
  | OpStartPractice now => handleStartPractice s now
  | OpEndPractice endTime db => (handleEndPractice s endTime db).1
  | OpSkipDay db => (logSkippedDay s db).1
  | OpAdvance => advanceToNextDay s
  | OpSetEditingDay d => s |> setEditingDay d
  | OpEditMinutes day' newMinutesStr db =>
      (handleEditMinutes s day' newMinutesStr db).1
  end.

Definition run (s : State) (ops : list Op) : State := fold_left step ops s.



(** *** Vocabulary of the properties *)

(** The loop of the recalculation as a recursion over the entries from
    [startIndex] on. *)
Fixpoint recalcSuffix (previousDayEnergy : num) (entries : list DayEntry)
  : list DayEntry :=
  match entries with
  | [] => []
  | entry :: entries' =>
      let currentEntry := recalcEntry previousDayEnergy entry in
      currentEntry :: recalcSuffix (energy currentEntry) entries'
  end.

(** The energy a day of the log starts with: the energy of the entry
    before it, 1 for the first entry. *)
Definition startEnergyAt (log : list DayEntry) (i : nat) : num :=
  match i with
  | O => ofZ 1
  | S before => from_option energy (ofZ 1) (log !! before)
  end.

(** [new] is [old] recomputed from the energy [start], with [mins]
    minutes: a practice day multiplies by the growth factor, a skipped
    day loses 10%; the values are stored as [toFixed] prints them. *)
Definition recomputed (start : num) (mins : Z) (old new : DayEntry) : Prop :=
  day new = day old /\ practice new = practice old /\ minutes new = mins /\
  if practice old then
    let factor := calculateGrowthFactor (ofZ mins) in
    energy new = toFixed (start * factor)%num 2
    /\ gain new = Some (toFixed (start * factor - start)%num 2)
    /\ growthFactor new = Some (toFixed factor 6)
    /\ loss new = None
  else
    energy new = toFixed (start - start * dailyEnergyLoss)%num 2
    /\ loss new = Some (toFixed (start * dailyEnergyLoss)%num 2)
    /\ gain new = None
    /\ growthFactor new = None.

(** An edit that passes every check of [handleEditMinutes]: the string
    parses to [m >= 0], the first entry of day [d] is at index [k], it is
    a practice day, and its minutes are not [m] already. *)
Definition acceptedEdit (s : State) (d : Z) (str : string) (m : Z) (k : nat)
  : Prop :=
  parseInt str = Some m /\ 0 <= m
  /\ Array.findIndex (fun e => day e =? d) (dailyLog s) = Some k
  /\ exists target,
       dailyLog s !! k = Some target
       /\ practice target = true /\ minutes target <> m.

(** An edit that [handleEditMinutes] rejects: the string does not parse
    to a number, or to a negative one, or the log has no entry of day
    [d], or its entry of day [d] is a skipped day. *)
Definition rejectedEdit (s : State) (d : Z) (str : string) : Prop :=
  parseInt str = None
  \/ (exists m, parseInt str = Some m /\ m < 0)
  \/ Array.findIndex (fun e => day e =? d) (dailyLog s) = None
  \/ (exists k target,
        Array.findIndex (fun e => day e =? d) (dailyLog s) = Some k
        /\ dailyLog s !! k = Some target /\ practice target = false).

(** The effects that reach the persistence collaborator. *)
Definition isPersistence (e : Effect) : bool :=
  match e with
  | Upsert _ | Insert _ | DeleteAll => true
  | _ => false
  end.

Definition isAlert (e : Effect) : bool :=
  match e with Alert _ => true | _ => false end.





(** Two states with the same log, day and energy. *)
Definition sameEngine (s1 s2 : State) : Prop :=
  dailyLog s1 = dailyLog s2 /\ currentDay s1 = currentDay s2
  /\ currentEnergy s1 = currentEnergy s2.


End Engine.

Arguments DayEntry num : clear implicits.
Arguments State num : clear implicits.
Arguments Effect num : clear implicits.

Arguments FetchResult num : clear implicits.
Arguments Op num : clear implicits.

(** ** What the component shows *)

(** *** The time of the stopwatch *)

(** [n.toString()] for an integer (below [1e21], where JavaScript turns
    to the exponent notation). *)
Definition toStringZ (z : Z) : string := NilZero.string_of_int (Z.to_int z).

(** [count] characters of [padString] repeated, [rest] being what is
    left of the copy in progress. *)
Fixpoint padding (count : nat) (padString rest : string) : string :=
  match count with
  | O => EmptyString
  | S count' =>
      match rest with
      | String c rest' => String c (padding count' padString rest')
      | EmptyString =>
          match padString with
          | String c rest' => String c (padding count' padString rest')
          | EmptyString => EmptyString
          end
      end
  end.

(** [s.padStart(targetLength, padString)] *)
Definition padStart (targetLength : nat) (padString s : string) : string :=
  String.append
    (padding (targetLength - String.length s) padString padString) s.

(** Seconds as [HH:MM:SS]; [%] is the remainder with the sign of the
    dividend. *)
Definition formatTime (totalSeconds : Z) : string :=
  let hours := totalSeconds / 3600 in
  let minutes := Z.rem totalSeconds 3600 / 60 in
  let seconds := Z.rem totalSeconds 60 in
  String.append (padStart 2 "0" (toStringZ hours))
    (String.append ":"
       (String.append (padStart 2 "0" (toStringZ minutes))
          (String.append ":" (padStart 2 "0" (toStringZ seconds))))).

(** *** Progress *)

(** Division and the comparisons of Numbers, which only the display
    uses. *)
Class JsNumberOrd (num : Type) := {
  numDiv : num -> num -> num;
  (** [x >= y] *)
  numGe : num -> num -> bool;
  (** [x > y] *)
  numGt : num -> num -> bool;
}.

Notation "x / y" := (numDiv x y) : num_scope.

#[global] Instance exactOrd : JsNumberOrd Qc :=
  Build_JsNumberOrd Qc Qcdiv
    (fun x y => Qle_bool y x) (fun x y => negb (Qle_bool x y)).

#[global] Instance binary64Ord : JsNumberOrd float :=
  Build_JsNumberOrd float PrimFloat.div
    (fun x y => PrimFloat.leb y x) (fun x y => PrimFloat.ltb y x).

Section Display.

Context {num : Type} `{JsNumber num} `{JsNumberOrd num}.

Definition percentComplete (s : State num) : num :=
  (currentEnergy s / targetEnergy * ofZ 100)%num.

Definition getProgressColor (s : State num) : string :=
  let percentComplete := percentComplete s in
  if numGe percentComplete (ofZ 100) then "bg-green-500"
  else if numGe percentComplete (ofZ 75) then "bg-green-400"
  else if numGe percentComplete (ofZ 50) then "bg-yellow-400"
  else if numGe percentComplete (ofZ 25) then "bg-yellow-500"
  else "bg-red-500".

Definition getProgressMessage (s : State num) : string :=
  let percentComplete := percentComplete s in
  if numGe percentComplete (ofZ 150) then "Extraordinary Mastery!"
  else if numGe percentComplete (ofZ 100) then "Goal Achieved!"
  else if numGe percentComplete (ofZ 75) then "Excellent Progress"
  else if numGe percentComplete (ofZ 50) then "Good Progress"
  else if numGe percentComplete (ofZ 25) then "Building Foundation"
  else if numGt percentComplete (ofZ 0) then "Beginning Journey"
  else "Start Your Practice".

End Display.

(** *** The buttons *)

Section Rendered.

Context {num : Type} `{JsNumber num}.

(** Whether any practice has happened today. *)
Definition hasPracticedToday (s : State num) : bool :=
  Array.some (fun log => (day log =? currentDay s) && practice log)
    (dailyLog s).

(** [editingDay === log.day] *)
Definition isEditing (s : State num) (d : Z) : bool :=
  match editingDay s with
  | Some d' => d' =? d
  | None => false
  end.

(** What the render of a state lets happen.  While the history loads
    nothing is shown.  The timer panel shows the pause button when a
    practice is running and the start button otherwise; the end-of-day
    panel shows the skip button (disabled while a practice is running
    or recorded) when no practice entry of the day exists, and the
    finish-day button (disabled while a practice is running) when one
    does; the minutes of a practice row are a text to click or, for the
    day being edited, an input.  The fetch on mount and the timer are
    not bound to a render. *)
Definition offered (s : State num) (op : Op num) : bool :=
  match op with
  | OpFetchLog _ => true
  | OpTimerTick _ => true
  | OpResetSimulation _ _ => negb (isLoading s)
  | OpStartPractice _ => negb (isLoading s) && negb (isPracticing s)
  | OpEndPractice _ _ => negb (isLoading s) && isPracticing s
  | OpSkipDay _ =>
      negb (isLoading s) && negb (hasPracticedToday s)
      && negb (isPracticing s || (accumulatedSecondsToday s >? 0))
  | OpAdvance =>
      negb (isLoading s) && hasPracticedToday s && negb (isPracticing s)
  | OpSetEditingDay (Some d) =>
      negb (isLoading s)
      && Array.some
           (fun log => practice log && (day log =? d) && negb (isEditing s d))
           (dailyLog s)
  | OpSetEditingDay None =>
      negb (isLoading s)
      && Array.some (fun log => practice log && isEditing s (day log))
           (dailyLog s)
  | OpEditMinutes d _ _ =>
      negb (isLoading s)
      && Array.some
           (fun log => practice log && (day log =? d) && isEditing s d)
           (dailyLog s)
  end.

(** A run in which every operation is offered by the render of the
    state it happens in. *)
Fixpoint offeredRun (s : State num) (ops : list (Op num)) : Prop :=
  match ops with
  | [] => True
  | op :: ops' => offered s op = true /\ offeredRun (step s op) ops'
  end.

(** The rows of the fetch have one row per day, in the order of the
    days. *)
Definition strictlyOrderedByDay (data : list (DayEntry num)) : Prop :=
  forall i j a b,
    (i < j)%nat -> data !! i = Some a -> data !! j = Some b -> day a < day b.

Definition uniqueOp (op : Op num) : Prop :=
  match op with
  | OpFetchLog (Fetched data) => strictlyOrderedByDay data
  | _ => True
  end.

(** What the runs through the rendered buttons keep: one entry per day
    in the order of the days, none of a later day than the current one,
    and for the current day a practice entry only. *)
Definition renderInvariant (s : State num) : Prop :=
  strictlyOrderedByDay (dailyLog s)
  /\ forall e, e ∈ dailyLog s ->
       day e <= currentDay s /\ (day e = currentDay s -> practice e = true).

(** The day and the practice flag of an entry, which no edit changes. *)
Definition dayPractice (e : DayEntry num) : Z * bool := (day e, practice e).

(** Two states that differ in the loading flag and the editing mode at
    most. *)
Definition sameButFlags (s1 s2 : State num) : Prop :=
  dailyLog s1 = dailyLog s2 /\ currentDay s1 = currentDay s2
  /\ currentEnergy s1 = currentEnergy s2
  /\ isPracticing s1 = isPracticing s2 /\ startTime s1 = startTime s2
  /\ elapsedTime s1 = elapsedTime s2
  /\ accumulatedSecondsToday s1 = accumulatedSecondsToday s2.


End Rendered.

(** Rows as the engine writes them: no negative energy, no negative
    minutes. *)
Definition wholesomeRow (e : DayEntry Qc) : Prop :=
  (0 <= energy e)%Qc /\ 0 <= minutes e.

Definition wholesomeOp (op : Op Qc) : Prop :=
  match op with
  | OpFetchLog (Fetched data) => Forall wholesomeRow data
  | _ => True
  end.

(** The running energy and the rows of the log are not negative. *)
Definition nonNegative (s : State Qc) : Prop :=
  (0 <= currentEnergy s)%Qc /\ Forall wholesomeRow (dailyLog s).

(** ** The two handlers that wait without a loading page

    [handleEndPractice] and [logSkippedDay] set part of the state, wait
    for the collaborator, and set the rest afterwards; the page is
    rendered in between, with its buttons.  [handleEndPractice] and
    [logSkippedDay] above are the two halves run one after the other
    ([handleEndPractice_halves], [logSkippedDay_halves]); here are the
    halves, and the page with the saves it waits for.  The fetch, the
    reset and the edit show the loading page while they wait, which
    offers nothing. *)

Section Awaits.

Context {num : Type} `{JsNumber num}.

(** [handleEndPractice] up to its [await]; [None] where it returns at
    once. *)
Definition handleEndPracticeBeforeAwait (s : State num) (endTime : Z)
  : option (State num * list (Effect num)) :=
  if negb (isPracticing s) || negb (truthy (startTime s)) then None
  else
    let growthFactor :=
      calculateGrowthFactor (ofZ (totalMinutesToday s endTime)) in
    let newTotalEnergyToday := (startOfDayEnergy s * growthFactor)%num in
    let logEntryData := logEntryData s endTime in
    let updatedLog :=
      match Array.findIndex (fun log => day log =? currentDay s) (dailyLog s) with
      | Some logIndex => <[logIndex := logEntryData]> (dailyLog s)
      | None => dailyLog s ++ [logEntryData]
      end in
    Some (s |> setCurrentEnergy newTotalEnergyToday
            |> setAccumulatedSecondsToday (newAccumulatedSeconds s endTime)
            |> setDailyLog updatedLog,
          [Upsert [logEntryData]]).

(** [handleEndPractice] after its [await], in the state of the moment:
    it reads nothing of the render it was started in. *)
Definition handleEndPracticeAfterAwait (s : State num) (db : DbResult)
  : State num * list (Effect num) :=
  (s |> setIsPracticing false |> setStartTime None |> setElapsedTime 0,
   match db with
   | DbError => [ConsoleError "Error saving practice log to Supabase:"]
   | _ => []
   end).

(** [logSkippedDay] up to its [await]; [None] where it returns at
    once. *)
Definition logSkippedDayBeforeAwait (s : State num)
  : option (State num * list (Effect num)) :=
  if isPracticing s then None
  else if accumulatedSecondsToday s >? 0 then None
  else
    let energyLoss := (currentEnergy s * dailyEnergyLoss)%num in
    let newEnergy := (currentEnergy s - energyLoss)%num in
    let newLog := dailyLog s ++ [skipLogData s] in
    Some (s |> setDailyLog newLog |> setCurrentEnergy newEnergy,
          [Insert (skipLogData s)]).

(** [logSkippedDay] after its [await], in the state of the moment;
    [currentDay'] is the [currentDay] of the render the handler was
    started in. *)
Definition logSkippedDayAfterAwait (currentDay' : Z) (s : State num)
    (db : DbResult) : State num * list (Effect num) :=
  (s |> setCurrentDay (currentDay' + 1)
     |> setIsPracticing false |> setStartTime None
     |> setElapsedTime 0 |> setAccumulatedSecondsToday 0,
   match db with
   | DbError => [ConsoleError "Error saving skipped day log to Supabase:"]
   | _ => []
   end).

(** A handler that waits for the collaborator, with what it keeps of
    the render it was started in. *)
Inductive Pending :=
| PendingUpsert
| PendingInsert (currentDay' : Z).

Definition resume (pending : Pending) (s : State num) (db : DbResult)
  : State num :=
  match pending with
  | PendingUpsert => (handleEndPracticeAfterAwait s db).1
  | PendingInsert currentDay' => (logSkippedDayAfterAwait currentDay' s db).1
  end.

(** The page: the state it renders and the handlers that wait. *)
Record Page := {
  rendered : State num;
  awaited : list Pending;
}.

Definition initialPage : Page := {| rendered := initialState; awaited := [] |}.

(** What happens to the page: an operation that runs to its end before
    anything else happens, a click on the pause button or on the skip
    button, whose handler runs up to its [await], and the answer of the
    collaborator to one of the handlers that wait. *)
Inductive Event :=
| EvOp (op : Op num)
| EvEndPractice (endTime : Z)
| EvSkipDay
| EvAnswer (i : nat) (db : DbResult).

Definition pageStep (p : Page) (ev : Event) : Page :=
  match ev with
  | EvOp op => {| rendered := step (rendered p) op; awaited := awaited p |}
  | EvEndPractice endTime =>
      match handleEndPracticeBeforeAwait (rendered p) endTime with
      | Some (s, _) =>
          {| rendered := s; awaited := awaited p ++ [PendingUpsert] |}
      | None => p
      end
  | EvSkipDay =>
      match logSkippedDayBeforeAwait (rendered p) with
      | Some (s, _) =>
          {| rendered := s;
             awaited := awaited p ++ [PendingInsert (currentDay (rendered p))] |}
      | None => p
      end
  | EvAnswer i db =>
      match awaited p !! i with
      | Some pending =>
          {| rendered := resume pending (rendered p) db;
             awaited := delete i (awaited p) |}
      | None => p
      end
  end.

Definition pageRun (p : Page) (evs : list Event) : Page :=
  fold_left pageStep evs p.

(** What the page lets happen: the operations and clicks its render
    offers, and the answers that are waited for. *)
Definition offeredEvent (p : Page) (ev : Event) : bool :=
  match ev with
  | EvOp op => offered (rendered p) op
  | EvEndPractice endTime => offered (rendered p) (OpEndPractice endTime DbOk)
  | EvSkipDay => offered (rendered p) (OpSkipDay DbOk)
  | EvAnswer i _ => bool_decide (i < length (awaited p))%nat
  end.

(** The page is left alone while a save is waited for: nothing but the
    answer happens then. *)
Definition patient (p : Page) (ev : Event) : bool :=
  match ev with
  | EvAnswer _ _ => true
  | _ => match awaited p with [] => true | _ :: _ => false end
  end.

(** A run in which every event is offered by the page, left alone
    while it waits. *)
Fixpoint patientRun (p : Page) (evs : list Event) : Prop :=
  match evs with
  | [] => True
  | ev :: evs' =>
      offeredEvent p ev = true /\ patient p ev = true
      /\ patientRun (pageStep p ev) evs'
  end.

Definition uniqueEvent (ev : Event) : Prop :=
  match ev with
  | EvOp op => uniqueOp op
  | _ => True
  end.

(** What the page keeps when it is left alone while it waits: the
    render invariant, and while a skipped day is being saved the state
    is the first half of [logSkippedDay] in a state with the
    invariant. *)
Definition pageInvariant (p : Page) : Prop :=
  match awaited p with
  | [] | [PendingUpsert] => renderInvariant (rendered p)
  | [PendingInsert currentDay'] =>
      exists s effects,
        renderInvariant s
        /\ offered s (OpSkipDay DbOk) = true
        /\ logSkippedDayBeforeAwait s = Some (rendered p, effects)
        /\ currentDay' = currentDay s
  | _ => False
  end.

End Awaits.

Arguments Page num : clear implicits.
Arguments Event num : clear implicits.

(** ** The first version: a simulator

    [index.jsx] is the tracker before the stopwatch and the database: a
    day is logged with the minutes chosen on a slider, and the running
    energy is compounded without the detour through the stored
    entries. *)

Module Simulator.

Section Simulator.

Context {num : Type} `{JsNumber num}.

Record State := {
  practiceMinutes : Z;
  dailyLog : list (DayEntry num);
  currentDay : Z;
  currentEnergy : num;
  didPracticeToday : bool;
}.

Definition setPracticeMinutes (v : Z) (s : State) : State :=
  {| practiceMinutes := v; dailyLog := dailyLog s;
     currentDay := currentDay s; currentEnergy := currentEnergy s;
     didPracticeToday := didPracticeToday s |}.

Definition setDidPracticeToday (v : bool) (s : State) : State :=
  {| practiceMinutes := practiceMinutes s; dailyLog := dailyLog s;
     currentDay := currentDay s; currentEnergy := currentEnergy s;
     didPracticeToday := v |}.

Definition initialState : State :=
  {| practiceMinutes := 40; dailyLog := []; currentDay := 1;
     currentEnergy := ofZ 1; didPracticeToday := false |}.

Definition dailyEnergyLoss : num := decimal 1 1.

Definition commonDurations : list Z := [10; 15; 20; 30; 40; 60; 90; 120].

Definition calculateGrowthFactor (minutes : num) : num :=
  let baseValue := decimal 995776 6 in
  let minuteMultiplier := decimal 1418 6 in
  (baseValue + minutes * minuteMultiplier)%num.

Definition resetSimulation (s : State) : State :=
  {| practiceMinutes := practiceMinutes s; dailyLog := [];
     currentDay := 1; currentEnergy := ofZ 1; didPracticeToday := false |}.

Definition practiceLog (s : State) : DayEntry num :=
  let growthFactor := calculateGrowthFactor (ofZ (practiceMinutes s)) in
  let newEnergy := (currentEnergy s * growthFactor)%num in
  let energyGain := (newEnergy - currentEnergy s)%num in
  {| day := currentDay s;
     energy := toFixed newEnergy 2;
     practice := true;
     minutes := practiceMinutes s;
     gain := Some (toFixed energyGain 2);
     growthFactor := Some (toFixed growthFactor 6);
     loss := None |}.

Definition logPracticeDay (s : State) : State :=
  if didPracticeToday s then s
  else
    let growthFactor := calculateGrowthFactor (ofZ (practiceMinutes s)) in
    let newEnergy := (currentEnergy s * growthFactor)%num in
    let newLog := dailyLog s ++ [practiceLog s] in
    {| practiceMinutes := practiceMinutes s; dailyLog := newLog;
       currentDay := currentDay s + 1; currentEnergy := newEnergy;
       didPracticeToday := true |}.

Definition skipLog (s : State) : DayEntry num :=
  let energyLoss := (currentEnergy s * dailyEnergyLoss)%num in
  let newEnergy := (currentEnergy s - energyLoss)%num in
  {| day := currentDay s;
     energy := toFixed newEnergy 2;
     practice := false;
     minutes := 0;
     gain := None;
     growthFactor := None;
     loss := Some (toFixed energyLoss 2) |}.

Definition logSkippedDay (s : State) : State :=
  if didPracticeToday s then s
  else
    let energyLoss := (currentEnergy s * dailyEnergyLoss)%num in
    let newEnergy := (currentEnergy s - energyLoss)%num in
    let newLog := dailyLog s ++ [skipLog s] in
    {| practiceMinutes := practiceMinutes s; dailyLog := newLog;
       currentDay := currentDay s + 1; currentEnergy := newEnergy;
       didPracticeToday := true |}.

Definition nextDay (s : State) : State := s |> setDidPracticeToday false.

Definition hexDigitValue (c : ascii) : option Z :=
  let n := Z.of_nat (nat_of_ascii c) in
  if (48 <=? n) && (n <=? 57) then Some (n - 48)
  else if (97 <=? n) && (n <=? 102) then Some (n - 87)
  else if (65 <=? n) && (n <=? 70) then Some (n - 55)
  else None.

Fixpoint parseHexDigits (acc : option Z) (s : string) : option Z :=
  match s with
  | String c s' =>
      match hexDigitValue c with
      | Some d => parseHexDigits (Some (16 * default 0 acc + d)) s'
      | None => acc
      end
  | EmptyString => acc
  end.

(** The digits after the sign: hexadecimal after [0x] or [0X], decimal
    otherwise. *)
Definition parseUnsigned (s : string) : option Z :=
  match s with
  | String c (String x s') =>
      if Ascii.eqb c "0" && (Ascii.eqb x "x" || Ascii.eqb x "X")
      then parseHexDigits None s'
      else parseDigits None s
  | _ => parseDigits None s
  end.

(** [parseInt(string)], as this version calls it: without a radix. *)
Definition parseInt (s : string) : option Z :=
  match skipWhiteSpace s with
  | String "-" s' => Z.opp <$> parseUnsigned s'
  | String "+" s' => parseUnsigned s'
  | s' => parseUnsigned s'
  end.

(** [parseInt(e.target.value) || 1]: what is not a number, and zero,
    count as one minute. *)
Definition inputMinutes (value : string) : Z :=
  match parseInt value with
  | Some n => if n =? 0 then 1 else n
  | None => 1
  end.

(** What can happen to the simulator: the slider or the number input
    changes, a quick-select button is pressed, and the four buttons. *)
Inductive Op :=
| OpInput (value : string)
| OpQuickSelect (duration : Z)
| OpLogPracticeDay
| OpLogSkippedDay
| OpNextDay
| OpResetSimulation.

Definition step (s : State) (op : Op) : State :=
  match op with
  | OpInput value => s |> setPracticeMinutes (inputMinutes value)
  | OpQuickSelect duration => s |> setPracticeMinutes duration
  | OpLogPracticeDay => logPracticeDay s
  | OpLogSkippedDay => logSkippedDay s
  | OpNextDay => nextDay s
  | OpResetSimulation => resetSimulation s
  end.

Definition run (s : State) (ops : list Op) : State := fold_left step ops s.

(** *** Vocabulary of the properties *)

(** The energy after a day of the log, from the energy before it. *)
Definition replayDay (E : num) (e : DayEntry num) : num :=
  if practice e
  then (E * calculateGrowthFactor (ofZ (minutes e)))%num
  else (E - E * dailyEnergyLoss)%num.

(** The energy the days of a log lead to, from the energy 1 of the
    first render. *)
Definition replay (log : list (DayEntry num)) : num :=
  fold_left replayDay log (ofZ 1).

(** The days of the log count up from 1, and the current day is the one
    after them. *)
Definition consecutiveDays (s : State) : Prop :=
  currentDay s = Z.of_nat (length (dailyLog s)) + 1
  /\ forall i e, dailyLog s !! i = Some e -> day e = Z.of_nat i + 1.

(** The running energy is the replay of the log, and each entry stores
    the rounding of the replay of the log up to it. *)
Definition energyReplaysLog (s : State) : Prop :=
  currentEnergy s = replay (dailyLog s)
  /\ forall i e,
       dailyLog s !! i = Some e ->
       energy e
       = toFixed (replay (take (S i) (dailyLog s))) 2.

(** The quick-select buttons are those of [commonDurations], and the
    minutes typed are not negative. *)
Definition offeredOp (op : Op) : Prop :=
  match op with
  | OpInput value => 0 <= inputMinutes value
  | OpQuickSelect duration => duration ∈ commonDurations
  | _ => True
  end.

End Simulator.

Arguments State : clear implicits.

End Simulator.

(** ** A session to replay

    An empty history is fetched, thirty minutes are practised on day 1,
    the day is finished, and day 2 is skipped; run on binary64, as the
    program computes. *)

Definition practiceThenSkip : list (Op float) :=
  [OpFetchLog (Fetched []); OpStartPractice 1000; OpEndPractice 1801000 DbOk;
   OpAdvance; OpSkipDay DbOk].

Definition practising : State float :=
  Eval vm_compute in run initialState (take 2 practiceThenSkip).

Definition afterPractice : State float :=
  Eval vm_compute in run initialState (take 3 practiceThenSkip).

Definition afterPracticeThenSkip : State float :=
  Eval vm_compute in run initialState practiceThenSkip.

(** The first three steps of the session in exact arithmetic. *)
Definition exactPractice : list (Op Qc) :=
  [OpFetchLog (Fetched []); OpStartPractice 1000; OpEndPractice 1801000 DbOk].

(** The state after the practice of day 1 and the end of the day. *)
Definition beforeSkip : State float :=
  Eval vm_compute in run initialState (take 4 practiceThenSkip).

(** The state after the fetch of an empty history. *)
Definition afterEmptyFetch : State float :=
  Eval vm_compute in run initialState [OpFetchLog (Fetched [])].

(** The session as the page sees it: each save is answered before
    anything else happens. *)
Definition patientSession : list (Event float) :=
  [EvOp (OpFetchLog (Fetched [])); EvOp (OpStartPractice 1000);
   EvEndPractice 1801000; EvAnswer 0 DbOk;
   EvOp OpAdvance; EvSkipDay; EvAnswer 0 DbThrow].

(** ** Properties *)

(** *** The model at work *)

Example parseInt_examples :
  parseInt "45" = Some 45 /\ parseInt " 12abc" = Some 12
  /\ parseInt "3.7" = Some 3 /\ parseInt "-5" = Some (-5)
  /\ parseInt "abc" = None /\ parseInt "" = None /\ parseInt "-" = None.
Proof. repeat split. Qed.

(** [1.005] is the double just below 1.005 and prints as ["1.00"];
    [0.125] is exact, a tie, and prints as ["0.13"]; [-0.001] prints as
    ["-0.00"], which parses as [-0]. *)
Example binary64_toFixed_examples :
  toFixed (decimal 1005 3 : float) 2 = ofZ 1
  /\ toFixed (decimal 125 3 : float) 2 = decimal 13 2
  /\ toFixed (decimal 1052496 6 : float) 2 = decimal 105 2
  /\ toFixed (decimal (-1) 3 : float) 2 = PrimFloat.opp (ofZ 0)
  /\ toFixed (decimal 9344844 7 : float) 6 = decimal 934484 6.
Proof. vm_compute. repeat split. Qed.

Example exact_toFixed_examples :
  toFixed (decimal 1005 3 : Qc) 2 = decimal 101 2
  /\ toFixed (decimal 125 3 : Qc) 2 = decimal 13 2
  /\ toFixed (decimal (-125) 3 : Qc) 2 = decimal (-13) 2
  /\ toFixed (decimal 1052496 6 : Qc) 2 = decimal 105 2.
Proof. repeat split; apply Qc_is_canon; reflexivity. Qed.

Example Math_round_div_examples :
  Math_round_div 0 60 = 0 /\ Math_round_div 29 60 = 0
  /\ Math_round_div 30 60 = 1 /\ Math_round_div 1800 60 = 30
  /\ Math_round_div (-30) 60 = 0 /\ Math_round_div (-31) 60 = -1.
Proof. repeat split. Qed.

(** The replayed session, state by state. *)
Example replayed_session :
  practising = run initialState (take 2 practiceThenSkip)
  /\ afterPractice = run initialState (take 3 practiceThenSkip)
  /\ afterPracticeThenSkip = run initialState practiceThenSkip
  /\ (minutes <$> dailyLog afterPracticeThenSkip) = [30; 0]
  /\ (energy <$> dailyLog afterPracticeThenSkip) = [decimal 104 2; decimal 93 2]
  /\ currentEnergy afterPractice = decimal 1038316 6
  /\ currentDay afterPracticeThenSkip = 3.
Proof. vm_compute. repeat split. Qed.

(** *** Array methods *)

Section ArrayFacts.

Context {A : Type}.
Implicit Types (p : A -> bool) (l : list A).

Lemma findIndex_Some p l i :
  Array.findIndex p l = Some i ->
  exists x, l !! i = Some x /\ p x = true
            /\ forall j y, (j < i)%nat -> l !! j = Some y -> p y = false.
Proof.
  revert i. induction l as [|a l IH]; intros i; simpl; [discriminate|].
  destruct (p a) eqn:Hpa.
  - intros [= <-]. exists a. split_and!; [done..|]. intros j y Hj. lia.
  - destruct (Array.findIndex p l) as [k|] eqn:Hk; [|discriminate].
    intros [= <-]. destruct (IH k eq_refl) as (x & Hx & Hpx & Hlt).
    exists x. split_and!; [done..|].
    intros [|j] y Hj; simpl; [congruence|]. apply Hlt. lia.
Qed.

Lemma findIndex_None p l :
  Array.findIndex p l = None -> forall i x, l !! i = Some x -> p x = false.
Proof.
  induction l as [|a l IH]; simpl; [by intros _ []|].
  destruct (p a) eqn:Hpa; [discriminate|].
  destruct (Array.findIndex p l); [discriminate|].
  intros _ [|i] x; simpl; [congruence|]. by apply IH.
Qed.

Lemma findIndex_first p l i x :
  l !! i = Some x -> p x = true ->
  (forall j y, (j < i)%nat -> l !! j = Some y -> p y = false) ->
  Array.findIndex p l = Some i.
Proof.
  revert i. induction l as [|a l IH]; intros i; [done|].
  destruct i as [|i]; simpl.
  - intros [= ->] -> _. done.
  - intros Hi Hpx Hfirst. rewrite (Hfirst O a) by (simpl; done || lia).
    rewrite (IH i Hi Hpx); [done|].
    intros j y Hj Hy. apply (Hfirst (S j) y); [lia|done].
Qed.

Lemma findIndex_absent p l :
  (forall x, x ∈ l -> p x = false) -> Array.findIndex p l = None.
Proof.
  induction l as [|a l IH]; simpl; [done|]. intros Hall.
  rewrite (Hall a) by left. rewrite IH; [done|].
  intros x Hx. apply Hall. by right.
Qed.

Lemma find_findIndex p l :
  Array.find p l = Array.findIndex p l ≫= fun i => l !! i.
Proof.
  induction l as [|a l IH]; simpl; [done|].
  destruct (p a); [done|]. rewrite IH.
  by destruct (Array.findIndex p l).
Qed.

Lemma find_app p l1 l2 :
  Array.find p (l1 ++ l2)
  = match Array.find p l1 with Some x => Some x | None => Array.find p l2 end.
Proof.
  induction l1 as [|a l1 IH]; simpl; [done|]. by destruct (p a).
Qed.

Lemma find_None p l :
  (forall x, x ∈ l -> p x = false) -> Array.find p l = None.
Proof.
  induction l as [|a l IH]; simpl; [done|]. intros Hall.
  rewrite (Hall a) by left. apply IH. intros x Hx. apply Hall. by right.
Qed.


Lemma some_false p l :
  Array.some p l = false -> forall x, x ∈ l -> p x = false.
Proof.
  unfold Array.some. induction l as [|a l IH]; simpl; [by intros _ x ?%elem_of_nil|].
  intros [Ha Hl]%orb_false_iff x [->|Hx]%elem_of_cons; auto.
Qed.

End ArrayFacts.

(** *** The recalculation loop *)

Section Recalculation.

Context {num : Type} `{JsNumber num}.
Implicit Types (log entries : list (DayEntry num)) (e : DayEntry num).

Lemma recalcLoop_eq iterations i prev log updates :
  (length log <= i + iterations)%nat ->
  recalcLoop iterations i prev log updates
  = (take i log ++ recalcSuffix prev (drop i log),
     updates ++ recalcSuffix prev (drop i log)).
Proof.
  revert i prev log updates.
  induction iterations as [|n IH]; intros i prev log updates Hlen; simpl.
  - rewrite drop_ge, take_ge by lia. simpl. by rewrite !app_nil_r.
  - destruct (log !! i) as [e|] eqn:Hi.
    + rewrite IH by (rewrite length_insert; lia).
      rewrite drop_insert_lt by lia.
      rewrite (take_S_r _ _ (recalcEntry prev e))
        by (apply list_lookup_insert_eq; by eapply lookup_lt_Some).
      rewrite take_insert_ge by lia.
      erewrite (drop_S log e i) by done. simpl.
      by rewrite <- !app_assoc.
    + apply lookup_ge_None in Hi.
      rewrite drop_ge, take_ge by lia. simpl. by rewrite !app_nil_r.
Qed.

Lemma recalculate_eq startIndex log prev :
  previousDayEnergy startIndex log = Some prev ->
  recalculate startIndex log
  = Some (take startIndex log ++ recalcSuffix prev (drop startIndex log),
          recalcSuffix prev (drop startIndex log)).
Proof.
  intros Hprev. unfold recalculate. rewrite Hprev. simpl.
  rewrite recalcLoop_eq by lia. done.
Qed.

Lemma length_recalcSuffix prev entries :
  length (recalcSuffix prev entries) = length entries.
Proof.
  revert prev. induction entries as [|e entries IH]; intros prev; simpl; [done|].
  by rewrite IH.
Qed.

Lemma recalcEntry_day prev e : day (recalcEntry prev e) = day e.
Proof. unfold recalcEntry. by destruct (practice e). Qed.

Lemma recalcEntry_practice prev e : practice (recalcEntry prev e) = practice e.
Proof. unfold recalcEntry. by destruct (practice e). Qed.

Lemma recalcEntry_minutes prev e : minutes (recalcEntry prev e) = minutes e.
Proof. unfold recalcEntry. by destruct (practice e). Qed.

Lemma recalcEntry_recomputed prev e :
  recomputed prev (minutes e) e (recalcEntry prev e).
Proof.
  unfold recomputed, recalcEntry. destruct (practice e) eqn:Hp; simpl; rewrite ?Hp; done.
Qed.

Lemma fmap_day_recalcSuffix prev entries :
  day <$> recalcSuffix prev entries = day <$> entries.
Proof.
  revert prev. induction entries as [|e entries IH]; intros prev; simpl; [done|].
  by rewrite IH, recalcEntry_day.
Qed.

End Recalculation.

Section RecalculationPointwise.

Context {num : Type} `{JsNumber num}.
Implicit Types (log entries : list (DayEntry num)) (e : DayEntry num).

Lemma recalcSuffix_lookup prev entries i old :
  entries !! i = Some old ->
  recalcSuffix prev entries !! i
  = Some (recalcEntry
            match i with
            | O => prev
            | S j => from_option energy (ofZ 1) (recalcSuffix prev entries !! j)
            end old).
Proof.
  revert prev i. induction entries as [|e entries IH]; intros prev i; [done|].
  destruct i as [|i]; simpl; [by intros [= ->]|].
  intros Hi. rewrite (IH _ _ Hi). destruct i as [|i]; simpl; [done|].
  done.
Qed.

Lemma previousDayEnergy_startEnergyAt startIndex log prev :
  previousDayEnergy startIndex log = Some prev ->
  prev = startEnergyAt log startIndex.
Proof.
  destruct startIndex as [|k]; simpl; [by intros [= <-]|].
  destruct (log !! k); simpl; by intros [= <-].
Qed.

Lemma previousDayEnergy_is_Some startIndex log :
  (startIndex <= length log)%nat -> is_Some (previousDayEnergy startIndex log).
Proof.
  destruct startIndex as [|k]; simpl; [by eexists|]. intros Hk.
  destruct (lookup_lt_is_Some_2 log k) as [e ->]; [lia|]. by eexists.
Qed.

(** What the recalculation leaves and what it rewrites. *)
Lemma recalculate_lookup startIndex log log' updates :
  recalculate startIndex log = Some (log', updates) ->
  length log' = length log
  /\ (forall i, (i < startIndex)%nat -> log' !! i = log !! i)
  /\ (forall i old, (startIndex <= i)%nat -> log !! i = Some old ->
        log' !! i = Some (recalcEntry (startEnergyAt log' i) old))
  /\ updates = drop startIndex log'.
Proof.
  destruct (previousDayEnergy startIndex log) as [prev|] eqn:Hprev;
    [|unfold recalculate; rewrite Hprev; discriminate].
  rewrite (recalculate_eq _ _ _ Hprev). intros [= <- <-].
  assert (Hk : (startIndex <= length log)%nat).
  { destruct startIndex as [|k]; simpl in Hprev; [lia|].
    destruct (log !! k) eqn:Hlk; [|discriminate].
    apply lookup_lt_Some in Hlk. lia. }
  assert (Hlen : length (take startIndex log) = startIndex)
    by (rewrite length_take; lia).
  split_and!.
  - rewrite length_app, length_recalcSuffix, length_take, length_drop. lia.
  - intros i Hi. rewrite lookup_app_l by lia. by apply lookup_take_lt.
  - intros i old Hi Hold.
    rewrite lookup_app_r by lia. rewrite Hlen.
    assert (Hd : drop startIndex log !! (i - startIndex)%nat = Some old).
    { rewrite lookup_drop. by replace (startIndex + (i - startIndex))%nat with i by lia. }
    rewrite (recalcSuffix_lookup _ _ _ _ Hd). do 2 f_equal.
    destruct (i - startIndex)%nat as [|j] eqn:Hj.
    + assert (i = startIndex) as -> by lia.
      rewrite (previousDayEnergy_startEnergyAt _ _ _ Hprev).
      destruct startIndex as [|k]; simpl; [done|].
      rewrite lookup_app_l by lia. by rewrite lookup_take_lt by lia.
    + destruct i as [|i]; [lia|]. simpl.
      rewrite lookup_app_r by lia. rewrite Hlen.
      by replace (i - startIndex)%nat with j by lia.
  - rewrite drop_app_length'; done.
Qed.

Lemma imap_edit_lookup log k f i :
  imap (fun index e => if (index =? k)%nat then f e else e) log !! i
  = (if (i =? k)%nat then f else id) <$> log !! i.
Proof. rewrite list_lookup_imap. by destruct (i =? k)%nat. Qed.

End RecalculationPointwise.

(** *** Editing the minutes of a day *)

Section Edit.

Context {num : Type} `{JsNumber num}.
Implicit Types (s : State num) (log : list (DayEntry num)) (e : DayEntry num).

Lemma handleEditMinutes_accepted s d str m k db :
  acceptedEdit s d str m k ->
  exists log' updates,
    recalculate k (logCopyWithEdit (dailyLog s) k m) = Some (log', updates)
    /\ updates <> []
    /\ handleEditMinutes s d str db
       = match db with
         | DbOk =>
             (s |> setIsLoading true |> setDailyLog log'
                |> setCurrentEnergy (energyAfterRecalculation s log')
                |> setIsLoading false |> setEditingDay None,
              [Upsert updates])
         | DbError =>
             (s |> setIsLoading true |> setIsLoading false
                |> setEditingDay None,
              [Upsert updates;
               ConsoleError "Error batch updating Supabase after edit:";
               Alert "Failed to save recalculations to the database. Please check console and refresh."])
         | DbThrow =>
             (s |> setIsLoading true |> setIsLoading false
                |> setEditingDay None,
              [Upsert updates;
               ConsoleError "Unexpected error during Supabase batch update:";
               Alert "An unexpected error occurred while saving recalculations."])
         end.
Proof.
  intros (Hparse & Hm & Hk & target & Htarget & Hpractice & Hminutes).
  assert (Hlt : (k < length (dailyLog s))%nat) by by eapply lookup_lt_Some.
  destruct (previousDayEnergy_is_Some k (logCopyWithEdit (dailyLog s) k m))
    as [prev Hprev].
  { unfold logCopyWithEdit. rewrite length_imap. lia. }
  pose proof (recalculate_eq _ _ _ Hprev) as Hrec.
  set (copy := logCopyWithEdit (dailyLog s) k m) in *.
  assert (Hcopy : copy !! k = Some (withMinutes m target)).
  { unfold copy, logCopyWithEdit. rewrite imap_edit_lookup, Htarget.
    by rewrite Nat.eqb_refl. }
  destruct (recalcSuffix prev (drop k copy)) as [|u updates] eqn:Hups.
  { apply (f_equal length) in Hups. rewrite length_recalcSuffix, length_drop in Hups.
    unfold copy, logCopyWithEdit in Hups. rewrite length_imap in Hups.
    simpl in Hups. lia. }
  eexists _, _. split; [exact Hrec|]. split; [done|].
  unfold handleEditMinutes. rewrite Hparse.
  replace (m <? 0) with false by lia.
  rewrite Hk, Htarget, Hpractice. simpl.
  replace (minutes target =? m) with false by lia.
  fold copy.
  unfold recalculateEnergyFromDay. rewrite Hrec.
  by destruct db.
Qed.

End Edit.

Section EditPostcondition.

Context {num : Type} `{JsNumber num}.
Implicit Types (s : State num) (log : list (DayEntry num)) (e : DayEntry num).

Lemma recomputed_withMinutes start m old :
  recomputed start m old (recalcEntry start (withMinutes m old)).
Proof.
  pose proof (recalcEntry_recomputed start (withMinutes m old)) as Hr.
  unfold recomputed in *. simpl in *. exact Hr.
Qed.

(** C1 - Suffix recompute postcondition.  For every log and every
    accepted edit of a practice day's minutes (the persistence call
    succeeding), the log keeps its length, every entry before the edited
    one is unchanged, and the edited entry and every later one is
    recomputed in log order: the edited entry starts from the energy of
    the entry before it in the log (1 if it is the first), every later
    entry from the freshly recomputed energy of its predecessor; a
    practice entry becomes start * growthFactor(minutes) and a skip entry
    start - start * 0.1, stored as [toFixed(2)] prints them. *)
Theorem edit_recomputes_suffix s d str m k :
  acceptedEdit s d str m k ->
  let log := dailyLog s in
  let log' := dailyLog (handleEditMinutes s d str DbOk).1 in
  length log' = length log
  /\ (forall i, (i < k)%nat -> log' !! i = log !! i)
  /\ startEnergyAt log' k = startEnergyAt log k
  /\ (forall i old, (k <= i)%nat -> log !! i = Some old ->
        exists new,
          log' !! i = Some new
          /\ recomputed (startEnergyAt log' i)
               (if (i =? k)%nat then m else minutes old) old new).
Proof.
  intros Hacc log log'. subst log.
  destruct (handleEditMinutes_accepted s d str m k DbOk Hacc)
    as (rlog & updates & Hrec & _ & Hedit).
  assert (log' = rlog) as -> by (unfold log'; by rewrite Hedit).
  destruct (recalculate_lookup _ _ _ _ Hrec) as (Hlen & Hbefore & Hfrom & _).
  unfold logCopyWithEdit in Hlen. rewrite length_imap in Hlen.
  assert (Hprefix : forall i, (i < k)%nat -> rlog !! i = dailyLog s !! i).
  { intros i Hi. rewrite (Hbefore i Hi). unfold logCopyWithEdit.
    rewrite imap_edit_lookup. destruct (Nat.eqb_spec i k); [lia|].
    by destruct (dailyLog s !! i). }
  split_and!; [done|done| |].
  - destruct k as [|k]; simpl; [done|]. by rewrite Hprefix by lia.
  - intros i old Hi Hold.
    assert (Hcopy : logCopyWithEdit (dailyLog s) k m !! i
                    = Some (if (i =? k)%nat then withMinutes m old else old)).
    { unfold logCopyWithEdit. rewrite imap_edit_lookup. rewrite Hold.
      by destruct (i =? k)%nat. }
    eexists. split; [exact (Hfrom i _ Hi Hcopy)|].
    destruct (i =? k)%nat.
    + apply recomputed_withMinutes.
    + apply recalcEntry_recomputed.
Qed.

End EditPostcondition.

Lemma edit_recomputes_suffix_witness :
  acceptedEdit afterPracticeThenSkip 1 "45" 45 0
  /\ length (dailyLog (handleEditMinutes afterPracticeThenSkip 1 "45" DbOk).1)
     = length (dailyLog afterPracticeThenSkip).
Proof.
  assert (Hacc : acceptedEdit afterPracticeThenSkip 1 "45" 45 0).
  { split; [vm_compute; reflexivity|]. split; [lia|].
    split; [vm_compute; reflexivity|].
    eexists. split; [vm_compute; reflexivity|]. split; [reflexivity|].
    vm_compute. discriminate. }
  split; [exact Hacc|].
  exact (proj1 (edit_recomputes_suffix afterPracticeThenSkip 1 "45" 45 0 Hacc)).
Defined.

(** *** Appending a practice day *)

Section AppendPractice.

Context {num : Type} `{JsNumber num}.
Implicit Types (s : State num) (e : DayEntry num).

Lemma handleEndPractice_running s endTime db :
  isPracticing s = true -> truthy (startTime s) = true ->
  handleEndPractice s endTime db
  = (s |> setCurrentEnergy
            (startOfDayEnergy s
             * calculateGrowthFactor (ofZ (totalMinutesToday s endTime)))%num
       |> setAccumulatedSecondsToday (newAccumulatedSeconds s endTime)
       |> setDailyLog
            match Array.findIndex (fun e => day e =? currentDay s) (dailyLog s) with
            | Some logIndex => <[logIndex := logEntryData s endTime]> (dailyLog s)
            | None => dailyLog s ++ [logEntryData s endTime]
            end
       |> setIsPracticing false |> setStartTime None |> setElapsedTime 0,
     Upsert [logEntryData s endTime]
     :: match db with
        | DbError => [ConsoleError "Error saving practice log to Supabase:"]
        | _ => []
        end).
Proof. intros Hp Ht. unfold handleEndPractice. by rewrite Hp, Ht. Qed.

(** C2 - Append practice day.  For every state in which a practice
    interval is running, ending it with [m] total minutes for the day
    writes the entry of [currentDay] with energy
    startEnergy * growthFactor(m) and gain that energy minus startEnergy
    (both stored as [toFixed(2)] prints them), where startEnergy is the
    energy of the entry of the previous day, 1 when there is none (as on
    day 1); an entry of [currentDay] that exists already is replaced in
    place, otherwise the entry is appended; [currentEnergy] becomes
    startEnergy * growthFactor(m), and [currentDay] stays. *)
Theorem end_practice_writes_practice_day s endTime db :
  isPracticing s = true -> truthy (startTime s) = true ->
  let m := totalMinutesToday s endTime in
  let start := startOfDayEnergy s in
  let factor := calculateGrowthFactor (ofZ m) in
  let entry :=
    {| day := currentDay s;
       energy := toFixed (start * factor)%num 2;
       practice := true;
       minutes := m;
       gain := Some (toFixed (start * factor - start)%num 2);
       growthFactor := Some (toFixed factor 6);
       loss := None |} in
  let s' := (handleEndPractice s endTime db).1 in
  (forall i e,
      dailyLog s !! i = Some e -> day e = currentDay s - 1 ->
      (forall j e', (j < i)%nat -> dailyLog s !! j = Some e' ->
                    day e' <> currentDay s - 1) ->
      start = energy e)
  /\ ((forall e, e ∈ dailyLog s -> day e <> currentDay s - 1) -> start = ofZ 1)
  /\ (forall i e,
        dailyLog s !! i = Some e -> day e = currentDay s ->
        (forall j e', (j < i)%nat -> dailyLog s !! j = Some e' ->
                      day e' <> currentDay s) ->
        dailyLog s' = <[i := entry]> (dailyLog s))
  /\ ((forall e, e ∈ dailyLog s -> day e <> currentDay s) ->
      dailyLog s' = dailyLog s ++ [entry])
  /\ currentEnergy s' = (start * factor)%num
  /\ currentDay s' = currentDay s.
Proof.
  intros Hp Ht m start factor entry s'.
  unfold s'. rewrite (handleEndPractice_running s endTime db Hp Ht). simpl.
  change (logEntryData s endTime) with entry.
  split_and!; [| | | |done|done].
  - intros i e Hi Hday Hfirst. unfold start, startOfDayEnergy.
    rewrite find_findIndex.
    rewrite (findIndex_first _ _ i e Hi); simpl; [by rewrite Hi|lia|].
    intros j e' Hj He'. specialize (Hfirst j e' Hj He'). lia.
  - intros Hnone. unfold start, startOfDayEnergy.
    rewrite find_None; [done|]. intros e He. specialize (Hnone e He). lia.
  - intros i e Hi Hday Hfirst.
    rewrite (findIndex_first _ _ i e Hi); [done|lia|].
    intros j e' Hj He'. specialize (Hfirst j e' Hj He'). lia.
  - intros Hnone. rewrite findIndex_absent; [done|].
    intros e He. specialize (Hnone e He). lia.
Qed.

End AppendPractice.

Lemma end_practice_writes_practice_day_witness :
  isPracticing practising = true /\ truthy (startTime practising) = true
  /\ currentDay (handleEndPractice practising 1801000 DbOk).1
     = currentDay practising.
Proof.
  split; [reflexivity|]. split; [reflexivity|].
  apply (end_practice_writes_practice_day practising 1801000 DbOk);
    reflexivity.
Defined.

(** *** Exact arithmetic *)

Section ExactFacts.

Implicit Types (x y E : Qc).

Lemma this_plus x y : (this (x + y)%Qc == this x + this y)%Q.
Proof. apply Qred_correct. Qed.

Lemma this_minus x y : (this (x - y)%Qc == this x - this y)%Q.
Proof.
  unfold Qcminus, Qcopp. rewrite this_plus. simpl this. by rewrite Qred_correct.
Qed.

Lemma this_mult x y : (this (x * y)%Qc == this x * this y)%Q.
Proof. apply Qred_correct. Qed.

Lemma this_decimal d p :
  (this (Exact.decimal d p) == d # Z.to_pos (10 ^ Z.of_nat p))%Q.
Proof. apply Qred_correct. Qed.

Lemma this_toFixed2 x :
  (this (Exact.toFixed x 2)
   == inject_Z (if Qle_bool 0 x
                then Qfloor (Qabs x * 100 + (1 # 2))
                else - Qfloor (Qabs x * 100 + (1 # 2))) / 100)%Q.
Proof.
  unfold Exact.toFixed. simpl this. rewrite Qred_correct.
  change (Z.to_pos (10 ^ Z.of_nat 2)) with 100%positive.
  change (inject_Z (10 ^ Z.of_nat 2)) with (100 : Q).
  rewrite Qmake_Qdiv. reflexivity.
Qed.

(** Two decimals are at most 0.005 away. *)
Lemma exact_toFixed2_close x :
  (x - Exact.decimal 5 3 <= Exact.toFixed x 2)%Qc
  /\ (Exact.toFixed x 2 <= x + Exact.decimal 5 3)%Qc.
Proof.
  unfold Qcle. rewrite this_minus, this_plus, this_decimal, this_toFixed2.
  set (y := (Qabs x * 100 + (1 # 2))%Q).
  pose proof (Qfloor_le y) as Hlo. pose proof (Qlt_floor y) as Hhi.
  rewrite inject_Z_plus in Hhi. change (inject_Z 1) with 1%Q in Hhi.
  subst y.
  change (5 # Z.to_pos (10 ^ Z.of_nat 3)) with (5 # 1000)%Q.
  unfold Qdiv. change (/ 100)%Q with (1 # 100)%Q.
  destruct (Qle_bool 0 x) eqn:Hs.
  - apply Qle_bool_iff in Hs. pose proof (Qabs_pos _ Hs) as Ha.
    set (a := Qabs x) in *. clearbody a.
    set (n := inject_Z (Qfloor _)) in *. clearbody n.
    split; lra.
  - assert (Hneg : (x <= 0)%Q).
    { apply Qlt_le_weak, Qnot_le_lt. intros Hle.
      apply Qle_bool_iff in Hle. congruence. }
    pose proof (Qabs_neg _ Hneg) as Ha.
    set (a := Qabs x) in *. clearbody a.
    rewrite inject_Z_opp.
    set (n := inject_Z (Qfloor _)) in *. clearbody n.
    split; lra.
Qed.

(** Losing a tenth is keeping nine tenths. *)
Lemma exact_skip_factor E :
  (E - E * dailyEnergyLoss)%num = (E * decimal 9 1)%num.
Proof.
  change (E - E * Exact.decimal 1 1 = E * Exact.decimal 9 1)%Qc.
  apply Qc_is_canon.
  rewrite this_minus, !this_mult, !this_decimal.
  change (Z.to_pos (10 ^ Z.of_nat 1)) with 10%positive.
  unfold Qeq; simpl; lia.
Qed.

Lemma exact_growthFactor_eq x :
  calculateGrowthFactor x
  = (Exact.decimal 995776 6 + x * Exact.decimal 1418 6)%Qc.
Proof. reflexivity. Qed.

Lemma exact_growthFactor_lt x y :
  (x < y)%Qc -> (calculateGrowthFactor x < calculateGrowthFactor y)%Qc.
Proof.
  intros Hxy. rewrite !exact_growthFactor_eq.
  rewrite !(Qcplus_comm (Exact.decimal 995776 6)).
  apply Qcplus_lt_mono_r.
  apply Qcmult_lt_compat_r; [reflexivity | exact Hxy].
Qed.

Lemma exact_growthFactor_ofZ (m : Z) :
  calculateGrowthFactor (ofZ m : Qc) = decimal (995776 + 1418 * m) 6.
Proof.
  rewrite exact_growthFactor_eq.
  change (decimal (995776 + 1418 * m) 6)
    with (Exact.decimal (995776 + 1418 * m) 6).
  change (ofZ m) with (Exact.ofZ m).
  apply Qc_is_canon.
  rewrite this_plus, this_mult, !this_decimal.
  unfold Exact.ofZ. simpl this. rewrite Qred_correct.
  change (Z.to_pos (10 ^ Z.of_nat 6)) with 1000000%positive.
  unfold Qeq, inject_Z; simpl. lia.
Qed.

(** [Math_round_div n 60] is [Math.round] of the quotient [n / 60]. *)
Lemma Math_round_div_60 (n : Z) :
  Math_round_div n 60 = Qfloor (inject_Z n / 60 + (1 # 2)).
Proof.
  assert (Heq : (inject_Z n / 60 + (1 # 2) == (2 * n + 60) # 120)%Q).
  { unfold Qdiv. change (/ 60)%Q with (1 # 60)%Q.
    unfold Qeq, inject_Z; simpl. lia. }
  rewrite (Qfloor_comp _ _ Heq). reflexivity.
Qed.

End ExactFacts.

(** *** The growth factor *)

(** On binary64 every further minute raises the factor, up to the
    minutes of a whole day. *)
Lemma binary64_growthFactor_next_minute (m : Z) :
  0 <= m < 1440 ->
  PrimFloat.ltb (calculateGrowthFactor (Binary64.ofZ m))
                (calculateGrowthFactor (Binary64.ofZ (m + 1))) = true.
Proof.
  intros Hm.
  assert (Hall : forallb
                   (fun m => PrimFloat.ltb
                               (calculateGrowthFactor (Binary64.ofZ m))
                               (calculateGrowthFactor (Binary64.ofZ (m + 1))))
                   (seqZ 0 1440) = true)
    by (vm_compute; reflexivity).
  rewrite forallb_forall in Hall. apply Hall.
  apply list_elem_of_In, elem_of_seqZ. lia.
Qed.

(** C4, as amended - The growth factor is the function
    minutes |-> 0.995776 + minutes * 0.001418 (in any arithmetic); in
    exact arithmetic it is strictly increasing in the minutes (over all
    of them, the non-negative ones in particular), with
    growthFactor(0) = 0.995776, growthFactor(40) = 1.052496 and
    growthFactor(120) = 1.165936; on binary64 growthFactor(0) is the
    double 0.995776 and the other two values are within 1e-15 of
    1.052496 and 1.165936. *)
Theorem growthFactor_linear_increasing :
  (forall (num : Type) (N : JsNumber num) (minutes : num),
      calculateGrowthFactor minutes
      = (decimal 995776 6 + minutes * decimal 1418 6)%num)
  /\ (forall x y : Qc,
        (x < y)%Qc -> (calculateGrowthFactor x < calculateGrowthFactor y)%Qc)
  /\ calculateGrowthFactor (ofZ 0 : Qc) = decimal 995776 6
  /\ calculateGrowthFactor (ofZ 40 : Qc) = decimal 1052496 6
  /\ calculateGrowthFactor (ofZ 120 : Qc) = decimal 1165936 6
  /\ calculateGrowthFactor (ofZ 0 : float) = decimal 995776 6
  /\ PrimFloat.leb
       (PrimFloat.abs (calculateGrowthFactor (ofZ 40 : float)
                       - decimal 1052496 6)%num)
       (decimal 1 15) = true
  /\ PrimFloat.leb
       (PrimFloat.abs (calculateGrowthFactor (ofZ 120 : float)
                       - decimal 1165936 6)%num)
       (decimal 1 15) = true.
Proof.
  split_and!.
  - reflexivity.
  - exact exact_growthFactor_lt.
  - exact (exact_growthFactor_ofZ 0).
  - exact (exact_growthFactor_ofZ 40).
  - exact (exact_growthFactor_ofZ 120).
  - vm_compute. reflexivity.
  - vm_compute. reflexivity.
  - vm_compute. reflexivity.
Qed.

Lemma growthFactor_linear_increasing_witness :
  (Q2Qc 40 < Q2Qc 120)%Qc
  /\ (calculateGrowthFactor (Q2Qc 40) < calculateGrowthFactor (Q2Qc 120))%Qc.
Proof.
  split; [reflexivity|].
  apply (proj1 (proj2 growthFactor_linear_increasing)). reflexivity.
Defined.

(** C4, as stated, fails at 120 minutes: the factor is 1.165936, a
    thousandth below the 1.166936 of the claim (exactly so in exact
    arithmetic, by more than 0.000999 on binary64). *)
Lemma growthFactor_120_is_not_1_166936 :
  (decimal 1166936 6 - calculateGrowthFactor (ofZ 120 : Qc))%num = decimal 1 3
  /\ PrimFloat.ltb
       (decimal 999 6)
       (decimal 1166936 6 - calculateGrowthFactor (ofZ 120 : float))%num
     = true.
Proof.
  split.
  - rewrite (exact_growthFactor_ofZ 120). apply Qc_is_canon. reflexivity.
  - vm_compute. reflexivity.
Qed.

(** *** Appending a skip day *)

Section AppendSkip.

Context {num : Type} `{JsNumber num}.
Implicit Types (s : State num) (e : DayEntry num).

Lemma logSkippedDay_idle s db :
  isPracticing s = false -> accumulatedSecondsToday s <= 0 ->
  logSkippedDay s db
  = (s |> setDailyLog (dailyLog s ++ [skipLogData s])
       |> setCurrentEnergy
            (currentEnergy s - currentEnergy s * dailyEnergyLoss)%num
       |> setCurrentDay (currentDay s + 1)
       |> setIsPracticing false |> setStartTime None
       |> setElapsedTime 0 |> setAccumulatedSecondsToday 0,
     Insert (skipLogData s)
     :: match db with
        | DbError => [ConsoleError "Error saving skipped day log to Supabase:"]
        | _ => []
        end).
Proof.
  intros Hp Hacc. unfold logSkippedDay. rewrite Hp.
  destruct (Z.gtb_spec (accumulatedSecondsToday s) 0); [lia|done].
Qed.

End AppendSkip.

(** C3 - Append skip day.  For every state with [currentEnergy] E in
    which no practice is running or recorded for the day, logging a skip
    appends an entry with practice = false, minutes = 0, loss = E * 0.1,
    energy E - E * 0.1 (both stored as [toFixed(2)] prints them) and
    gain and growthFactor cleared, and sets [currentEnergy] to
    E - E * 0.1, in any arithmetic; in exact arithmetic E - E * 0.1 is
    E * 0.9, and the stored energy is within 0.005 of it. *)
Theorem skip_day_appends_decayed_entry :
  (forall (num : Type) (N : JsNumber num) (s : State num) (db : DbResult),
      isPracticing s = false -> accumulatedSecondsToday s <= 0 ->
      let E := currentEnergy s in
      let s' := (logSkippedDay s db).1 in
      dailyLog s'
      = dailyLog s
        ++ [ {| day := currentDay s;
                energy := toFixed (E - E * decimal 1 1)%num 2;
                practice := false;
                minutes := 0;
                gain := None;
                growthFactor := None;
                loss := Some (toFixed (E * decimal 1 1)%num 2) |} ]
      /\ currentEnergy s' = (E - E * decimal 1 1)%num)
  /\ (forall E : Qc,
        (E - E * decimal 1 1)%num = (E * decimal 9 1)%num
        /\ (E * decimal 9 1 - decimal 5 3 <= toFixed (E - E * decimal 1 1)%num 2)%Qc
        /\ (toFixed (E - E * decimal 1 1)%num 2 <= E * decimal 9 1 + decimal 5 3)%Qc).
Proof.
  split.
  - intros num N s db Hp Hacc E s'. unfold s'.
    rewrite (logSkippedDay_idle s db Hp Hacc). done.
  - intros E. pose proof (exact_skip_factor E) as Hfactor.
    unfold dailyEnergyLoss in Hfactor. split; [exact Hfactor|].
    rewrite Hfactor. exact (exact_toFixed2_close _).
Qed.

Lemma skip_day_appends_decayed_entry_witness :
  isPracticing (initialState : State float) = false
  /\ accumulatedSecondsToday (initialState : State float) <= 0
  /\ currentEnergy (logSkippedDay (initialState : State float) DbOk).1
     = (ofZ 1 - ofZ 1 * decimal 1 1)%num.
Proof.
  split; [reflexivity|]. split; [simpl; lia|].
  apply (proj1 skip_day_appends_decayed_entry float _ initialState DbOk);
    [reflexivity | simpl; lia].
Defined.

(** *** Minutes of a practice entry *)

(** C10 - Every practice entry written at the end of a practice
    interval records minutes = max(1, round(accumulatedSeconds / 60)),
    where accumulatedSeconds are the seconds accumulated for the day
    with the interval that ends; the minutes are at least 1 whatever the
    seconds, so this path never writes a 0-minute practice entry; and
    the growth factor of 1 and of 2 minutes is below 1 (that of 3
    minutes is above), in exact arithmetic and on binary64. *)
Theorem end_practice_records_at_least_one_minute :
  (forall (num : Type) (N : JsNumber num) (s : State num) (endTime : Z)
          (db : DbResult),
      isPracticing s = true -> truthy (startTime s) = true ->
      let seconds :=
        accumulatedSecondsToday s + (endTime - default 0 (startTime s)) / 1000 in
      exists e rest,
        (handleEndPractice s endTime db).2 = Upsert [e] :: rest
        /\ e ∈ dailyLog (handleEndPractice s endTime db).1
        /\ day e = currentDay s
        /\ practice e = true
        /\ minutes e = Z.max 1 (Math_round_div seconds 60)
        /\ Math_round_div seconds 60 = Qfloor (inject_Z seconds / 60 + (1 # 2))
        /\ 1 <= minutes e)
  /\ (calculateGrowthFactor (ofZ 1 : Qc) < ofZ 1)%Qc
  /\ (calculateGrowthFactor (ofZ 2 : Qc) < ofZ 1)%Qc
  /\ (ofZ 1 < calculateGrowthFactor (ofZ 3 : Qc))%Qc
  /\ PrimFloat.ltb (calculateGrowthFactor (ofZ 1 : float)) (ofZ 1) = true
  /\ PrimFloat.ltb (calculateGrowthFactor (ofZ 2 : float)) (ofZ 1) = true
  /\ PrimFloat.ltb (ofZ 1) (calculateGrowthFactor (ofZ 3 : float)) = true.
Proof.
  split; [|split_and!; vm_compute; reflexivity].
  intros num N s endTime db Hp Ht seconds.
  rewrite (handleEndPractice_running s endTime db Hp Ht). simpl.
  exists (logEntryData s endTime). eexists.
  split; [reflexivity|]. split_and!.
  - destruct (Array.findIndex _ (dailyLog s)) as [i|] eqn:Hi.
    + destruct (findIndex_Some _ _ _ Hi) as (x & Hx & _).
      apply list_elem_of_lookup. exists i.
      apply list_lookup_insert_eq. by eapply lookup_lt_Some.
    + apply elem_of_app. right. by left.
  - done.
  - done.
  - done.
  - apply Math_round_div_60.
  - simpl. unfold totalMinutesToday. lia.
Qed.

Lemma end_practice_records_at_least_one_minute_witness :
  isPracticing practising = true /\ truthy (startTime practising) = true
  /\ exists e rest,
       (handleEndPractice practising 1000 DbOk).2 = Upsert [e] :: rest
       /\ minutes e = 1.
Proof.
  split; [reflexivity|]. split; [reflexivity|].
  destruct (proj1 end_practice_records_at_least_one_minute
              float _ practising 1000 DbOk eq_refl eq_refl)
    as (e & rest & Heff & _ & _ & _ & Hmin & _).
  exists e, rest. split; [exact Heff|]. exact Hmin.
Defined.

(** *** Rejected edits *)

Section RejectedEdit.

Context {num : Type} `{JsNumber num}.
Implicit Types (s : State num) (e : DayEntry num).

(** X21 - An edit request is turned down at once when [parseInt] finds
    no number in the string or a negative one, when the log has no entry
    of the day, and when the entry of the day is a skipped day: no
    persistence call is made whatever the collaborator would answer, a
    warning or an error is logged, and the log, [currentEnergy] and
    [currentDay] are as before (only the editing mode is left). *)
Theorem rejected_edit_preserves_state s d str db :
  rejectedEdit s d str ->
  let r := handleEditMinutes s d str db in
  r.1 = (s |> setEditingDay None)
  /\ dailyLog r.1 = dailyLog s
  /\ currentEnergy r.1 = currentEnergy s
  /\ currentDay r.1 = currentDay s
  /\ existsb isPersistence r.2 = false
  /\ r.2 <> [].
Proof.
  intros Hrej r.
  assert (Hr : exists msg,
             r = (s |> setEditingDay None, [ConsoleWarn msg])
             \/ r = (s |> setEditingDay None, [ConsoleError msg])).
  { unfold r, handleEditMinutes.
    destruct (parseInt str) as [m|] eqn:Hparse; [|eexists; by left].
    destruct (Z.ltb_spec m 0) as [Hneg|Hpos]; [eexists; by left|].
    destruct Hrej as [?|[(m' & Hm' & ?)|[Hnone|(k & target & Hk & Ht & Hp)]]];
      [congruence|assert (m' = m) as -> by congruence; lia| |].
    - rewrite Hnone. eexists; by right.
    - rewrite Hk, Ht, Hp. simpl. eexists; by left. }
  destruct Hr as (msg & [-> | ->]); simpl; split_and!; done.
Qed.

(** What [parseInt] makes of a negative fraction above -1: it reads the
    sign and the digits before the point, that is -0, which is not below
    0.  On every practice day that has minutes such a request is an
    accepted edit to 0 minutes. *)
Lemma negative_fraction_is_an_accepted_edit s d k target :
  Array.findIndex (fun e => day e =? d) (dailyLog s) = Some k ->
  dailyLog s !! k = Some target ->
  practice target = true -> minutes target <> 0 ->
  acceptedEdit s d "-0.5" 0 k.
Proof.
  intros Hk Ht Hp Hmin. split; [done|]. split; [done|]. split; [done|].
  by exists target.
Qed.

End RejectedEdit.

Lemma rejected_edit_preserves_state_witness :
  rejectedEdit afterPracticeThenSkip 2 "15"
  /\ dailyLog (handleEditMinutes afterPracticeThenSkip 2 "15" DbOk).1
     = dailyLog afterPracticeThenSkip.
Proof.
  assert (Hrej : rejectedEdit afterPracticeThenSkip 2 "15").
  { right. right. right. exists 1%nat. eexists.
    split; [vm_compute; reflexivity|]. split; [vm_compute; reflexivity|].
    reflexivity. }
  split; [exact Hrej|].
  exact (proj1 (proj2
           (rejected_edit_preserves_state afterPracticeThenSkip 2 "15" DbOk Hrej))).
Defined.

(** C9 at a failing input - In the replayed session day 1 has 30
    minutes of practice.  The number input of its row delivers the
    request "-0.5", a negative number: [parseInt] reads -0 from it, the
    test for a negative number lets it pass, and the request is carried
    out as an edit to 0 minutes: the suffix is recomputed and upserted,
    and the log, the minutes and the running energy change. *)
Theorem negative_fraction_edit_is_carried_out :
  let s := afterPracticeThenSkip in
  let r := handleEditMinutes s 1 "-0.5" DbOk in
  parseInt "-0.5" = Some 0
  /\ minutes <$> dailyLog s = [30; 0]
  /\ minutes <$> dailyLog r.1 = [0; 0]
  /\ energy <$> dailyLog s = [decimal 104 2; decimal 93 2]
  /\ energy <$> dailyLog r.1 = [ofZ 1; decimal 9 1]
  /\ currentEnergy r.1 = decimal 9 1
  /\ currentDay r.1 = currentDay s
  /\ r.2 = [Upsert (dailyLog r.1)]
  /\ existsb isPersistence r.2 = true
  /\ editingDay r.1 = None.
Proof. vm_compute. repeat split. Qed.

(** *** The running energy and the log *)

Section Invariant.

Context {num : Type} `{JsNumber num}.
Implicit Types (s : State num) (log : list (DayEntry num)) (e : DayEntry num).







Lemma List_last_lookup {A : Type} (l : list A) (d : A) :
  l <> [] -> l !! pred (length l) = Some (List.last l d).
Proof.
  induction l as [|a l IH]; [done|]. intros _.
  destruct l as [|b l]; [done|].
  change (List.last (a :: b :: l) d) with (List.last (b :: l) d).
  rewrite <- IH by done. done.
Qed.






End Invariant.

Section InvariantEdit.

Context {num : Type} `{JsNumber num}.
Implicit Types (s : State num) (log : list (DayEntry num)) (e : DayEntry num).

Lemma recalculate_days startIndex log log' updates :
  recalculate startIndex log = Some (log', updates) ->
  day <$> log' = day <$> log.
Proof.
  destruct (previousDayEnergy startIndex log) as [prev|] eqn:Hprev;
    [|unfold recalculate; rewrite Hprev; discriminate].
  rewrite (recalculate_eq _ _ _ Hprev). intros [= <- _].
  rewrite fmap_app, fmap_day_recalcSuffix, <- fmap_app.
  by rewrite take_drop.
Qed.

Lemma logCopyWithEdit_days log k m :
  day <$> logCopyWithEdit log k m = day <$> log.
Proof.
  apply list_eq. intros i. unfold logCopyWithEdit.
  rewrite !list_lookup_fmap, imap_edit_lookup.
  destruct (log !! i) as [e|]; simpl; [|done].
  by destruct (i =? k)%nat.
Qed.










End InvariantEdit.



(** *** The current day *)

Section CurrentDay.

Context {num : Type} `{JsNumber num}.
Implicit Types (s : State num) (e : DayEntry num).

Lemma currentDay_recalculateEnergyFromDay s startIndex logData db :
  currentDay (recalculateEnergyFromDay s startIndex logData db).1
  = currentDay s.
Proof.
  unfold recalculateEnergyFromDay.
  destruct (recalculate startIndex logData) as [[rlog [|u updates]]|];
    [done| |done].
  by destruct db.
Qed.

Lemma currentDay_handleEditMinutes s d str db :
  currentDay (handleEditMinutes s d str db).1 = currentDay s.
Proof.
  unfold handleEditMinutes.
  destruct (parseInt str) as [m|]; [|done].
  destruct (m <? 0); [done|].
  destruct (Array.findIndex _ (dailyLog s)) as [k|]; [|done].
  destruct (dailyLog s !! k) as [target|]; [|done].
  destruct (practice target); simpl; [|done].
  destruct (minutes target =? m); [done|].
  pose proof (currentDay_recalculateEnergyFromDay s k
                (logCopyWithEdit (dailyLog s) k m) db) as Hrec.
  destruct (recalculateEnergyFromDay s k _ db) as [s' effects].
  by destruct (existsb isUncaught effects).
Qed.

Lemma currentDay_handleEndPractice s endTime db :
  currentDay (handleEndPractice s endTime db).1 = currentDay s.
Proof.
  unfold handleEndPractice.
  by destruct (negb (isPracticing s) || negb (truthy (startTime s))).
Qed.

(** C6, as amended - Ending a day when no practice is running raises
    [currentDay] by 1, after appending, if the log has no entry of
    [currentDay], an implicit skip entry made by the formula of the
    skip transition (and setting [currentEnergy] accordingly); with an
    entry of the day the log and the energy stay.  The end of a
    practice interval, the timer and an edit of a day's minutes leave
    [currentDay]; logging a skip day raises it by 1 as ending a day
    does, a reset sets it to 1 and the fetch of the log to the day after
    the last row. *)
Theorem currentDay_changes s :
  (isPracticing s = false ->
   let E := currentEnergy s in
   let skipLog :=
     {| day := currentDay s;
        energy := toFixed (E - E * decimal 1 1)%num 2;
        practice := false;
        minutes := 0;
        gain := None;
        growthFactor := None;
        loss := Some (toFixed (E * decimal 1 1)%num 2) |} in
   currentDay (advanceToNextDay s) = currentDay s + 1
   /\ ((forall e, e ∈ dailyLog s -> day e <> currentDay s) ->
       dailyLog (advanceToNextDay s) = dailyLog s ++ [skipLog]
       /\ currentEnergy (advanceToNextDay s) = (E - E * decimal 1 1)%num)
   /\ ((exists e, e ∈ dailyLog s /\ day e = currentDay s) ->
       dailyLog (advanceToNextDay s) = dailyLog s
       /\ currentEnergy (advanceToNextDay s) = currentEnergy s))
  /\ (forall op : Op num,
        currentDay (step s op)
        = match op with
          | OpAdvance =>
              if isPracticing s then currentDay s else currentDay s + 1
          | OpSkipDay _ =>
              if isPracticing s || (accumulatedSecondsToday s >? 0)
              then currentDay s else currentDay s + 1
          | OpResetSimulation true DbOk => 1
          | OpFetchLog (Fetched (item :: data)) =>
              day (List.last (item :: data) item) + 1
          | OpFetchLog _ => 1
          | _ => currentDay s
          end).
Proof.
  split.
  - intros Hp E skipLog. unfold advanceToNextDay. rewrite Hp.
    split_and!.
    + by destruct (negb _).
    + intros Hfresh.
      assert (Array.some (fun log => day log =? currentDay s) (dailyLog s)
              = false) as ->.
      { unfold Array.some. apply not_true_is_false.
        intros (x & Hx & Hday)%existsb_exists.
        apply (Hfresh x); [by apply list_elem_of_In|lia]. }
      simpl. split; done.
    + intros (e & He & Hday).
      assert (Array.some (fun log => day log =? currentDay s) (dailyLog s)
              = true) as ->.
      { unfold Array.some. apply existsb_exists. exists e.
        split; [by apply list_elem_of_In|lia]. }
      done.
  - intros op. destruct op as [r|confirmed db|now|now|endTime db|db| |d'|d' str db];
      simpl.
    + by destruct r as [[|item data]| |].
    + unfold resetSimulation. destruct confirmed; simpl; [|done].
      by destruct db.
    + unfold timerTick. by destruct (_ && _).
    + unfold handleStartPractice. by destruct (isPracticing s).
    + apply currentDay_handleEndPractice.
    + unfold logSkippedDay. destruct (isPracticing s); simpl; [done|].
      by destruct (accumulatedSecondsToday s >? 0).
    + unfold advanceToNextDay. destruct (isPracticing s); [done|].
      by destruct (negb _).
    + done.
    + apply currentDay_handleEditMinutes.
Qed.

End CurrentDay.

Lemma currentDay_changes_witness :
  isPracticing afterPractice = false
  /\ currentDay (advanceToNextDay afterPractice) = currentDay afterPractice + 1.
Proof.
  split; [reflexivity|].
  exact (proj1 (proj1 (currentDay_changes afterPractice) eq_refl)).
Defined.

(** C6, as stated, fails: logging a skip day on the first render moves
    [currentDay] from 1 to 2, so ending a day is not the only operation
    that changes it. *)
Lemma skip_day_changes_currentDay :
  ~ (forall (s : State float) (op : Op float),
        op <> OpAdvance -> currentDay (step s op) = currentDay s).
Proof.
  intros Hframe.
  specialize (Hframe initialState (OpSkipDay DbOk) ltac:(discriminate)).
  vm_compute in Hframe. discriminate Hframe.
Qed.

(** *** Recalculating twice *)

Section Idempotence.

Context {num : Type} `{JsNumber num}.
Implicit Types (s : State num) (log : list (DayEntry num)) (e : DayEntry num).

(** The loop body reads the day, the practice flag and the minutes of
    an entry, which it keeps. *)
Lemma recalcEntry_idem p q e :
  recalcEntry p (recalcEntry q e) = recalcEntry p e.
Proof.
  unfold recalcEntry. by destruct (practice e).
Qed.

Lemma recalculate_idem log k k' rlog updates :
  (k' <= k <= length log)%nat ->
  recalculate k' log = Some (rlog, updates) ->
  exists updates', recalculate k rlog = Some (rlog, updates').
Proof.
  intros Hk Hrec.
  destruct (recalculate_lookup _ _ _ _ Hrec) as (Hlen & Hbefore & Hfrom & _).
  destruct (previousDayEnergy_is_Some k rlog) as [prev Hprev]; [lia|].
  pose proof (recalculate_eq _ _ _ Hprev) as Hrec2.
  destruct (recalculate_lookup _ _ _ _ Hrec2) as (Hlen2 & Hbefore2 & Hfrom2 & _).
  set (rlog2 := take k rlog ++ recalcSuffix prev (drop k rlog)) in *.
  assert (Heq : rlog2 = rlog).
  { apply list_eq. intros i.
    induction i as [i IH] using lt_wf_ind.
    destruct (decide (i < k)%nat) as [Hi|Hi]; [by apply Hbefore2|].
    destruct (rlog !! i) as [old|] eqn:Hold.
    - assert (exists old0, log !! i = Some old0) as [old0 Hold0].
      { apply lookup_lt_is_Some. apply lookup_lt_Some in Hold. lia. }
      pose proof (Hfrom i old0 ltac:(lia) Hold0) as Hfresh.
      rewrite Hfresh in Hold. injection Hold as <-.
      rewrite (Hfrom2 i _ ltac:(lia) Hfresh).
      rewrite recalcEntry_idem. do 2 f_equal.
      destruct i as [|i]; simpl; [done|]. by rewrite IH by lia.
    - apply lookup_ge_None. apply lookup_ge_None in Hold. lia. }
  rewrite Heq in Hrec2. by eexists.
Qed.

(** Asking for the minutes a practice day has does nothing but leave
    the editing mode. *)
Lemma handleEditMinutes_same_minutes s d str db m k target :
  parseInt str = Some m -> 0 <= m ->
  Array.findIndex (fun e => day e =? d) (dailyLog s) = Some k ->
  dailyLog s !! k = Some target ->
  practice target = true -> minutes target = m ->
  handleEditMinutes s d str db = (s |> setEditingDay None, []).
Proof.
  intros Hparse Hm Hk Ht Hp Hmin.
  unfold handleEditMinutes. rewrite Hparse.
  destruct (Z.ltb_spec m 0); [lia|].
  rewrite Hk, Ht, Hp. simpl.
  destruct (Z.eqb_spec (minutes target) m); done.
Qed.

(** Where the handlers start a day from.  The entry of a practice is
    what the recalculation makes of it from the energy stored for the
    day before; the entry of a skipped day is what the recalculation
    makes of it from the running energy, which no entry stores. *)
Lemma logEntryData_recalcEntry s endTime :
  recalcEntry (startOfDayEnergy s) (logEntryData s endTime)
  = logEntryData s endTime.
Proof. reflexivity. Qed.

Lemma skipLogData_recalcEntry s :
  recalcEntry (currentEnergy s) (skipLogData s) = skipLogData s.
Proof. reflexivity. Qed.

(** X20 - Requesting an edit of a practice day's minutes to the value
    already stored is a no-op (no state change but leaving the editing
    mode, no persistence call); and recalculating a log that a
    recalculation from the same index or an earlier one produced gives
    back that log, every entry with the same energy, gain, loss and
    growth factor. *)
Theorem edit_same_minutes_noop_and_recalculate_idempotent :
  (forall s d str db m k target,
      parseInt str = Some m -> 0 <= m ->
      Array.findIndex (fun e => day e =? d) (dailyLog s) = Some k ->
      dailyLog s !! k = Some target ->
      practice target = true -> minutes target = m ->
      handleEditMinutes s d str db = (s |> setEditingDay None, []))
  /\ (forall log k k' rlog updates,
        (k' <= k <= length log)%nat ->
        recalculate k' log = Some (rlog, updates) ->
        exists updates', recalculate k rlog = Some (rlog, updates')).
Proof.
  split; [exact handleEditMinutes_same_minutes|exact recalculate_idem].
Qed.

End Idempotence.

Lemma edit_same_minutes_noop_and_recalculate_idempotent_witness :
  handleEditMinutes afterPracticeThenSkip 1 "30" DbOk
  = (afterPracticeThenSkip |> setEditingDay None, [])
  /\ exists rlog updates updates',
       recalculate 0 (dailyLog afterPracticeThenSkip) = Some (rlog, updates)
       /\ recalculate 0 rlog = Some (rlog, updates').
Proof.
  split.
  - destruct (dailyLog afterPracticeThenSkip !! 0%nat) as [target|] eqn:Ht;
      [|vm_compute in Ht; discriminate Ht].
    apply (proj1 edit_same_minutes_noop_and_recalculate_idempotent
             afterPracticeThenSkip 1 "30"%string DbOk 30 0%nat target);
      [reflexivity | lia | vm_compute; reflexivity | exact Ht | | ];
      vm_compute in Ht; injection Ht as <-; reflexivity.
  - destruct (recalculate 0 (dailyLog afterPracticeThenSkip))
      as [[rlog updates]|] eqn:Hrec; [|vm_compute in Hrec; discriminate Hrec].
    destruct (proj2 edit_same_minutes_noop_and_recalculate_idempotent
                (dailyLog afterPracticeThenSkip) 0%nat 0%nat rlog updates
                ltac:(simpl; lia) Hrec) as [updates' Hidem].
    by exists rlog, updates, updates'.
Defined.

(** C7 at a failing input - In the replayed session day 1 has 30
    minutes of practice and day 2 is skipped.  Setting the minutes of
    day 1 to 31 and back to 30, both edits saved, recomputes the suffix
    with the minute values it had: the days, the practice flags and the
    minutes are as before, but the energy of day 2 is 0.94 where it was
    0.93.  The skip handler made the entry of day 2 from the running
    energy 1.038316, which no entry stores; the recalculation, like the
    handler that ends a practice and like the fetch, starts the day
    from the 1.04 stored for day 1, and so does the skip handler itself
    once the page is loaded again. *)
Theorem recompute_does_not_restore_skipped_day :
  let s := afterPracticeThenSkip in
  let s' := run s [OpEditMinutes 1 "31" DbOk; OpEditMinutes 1 "30" DbOk] in
  let reloaded := (fetchLog beforeSkip (Fetched (dailyLog beforeSkip))).1 in
  dayPractice <$> dailyLog s' = dayPractice <$> dailyLog s
  /\ minutes <$> dailyLog s' = minutes <$> dailyLog s
  /\ minutes <$> dailyLog s = [30; 0]
  /\ energy <$> dailyLog s = [decimal 104 2; decimal 93 2]
  /\ energy <$> dailyLog s' = [decimal 104 2; decimal 94 2]
  /\ s = (logSkippedDay beforeSkip DbOk).1
  /\ currentEnergy beforeSkip = decimal 1038316 6
  /\ startOfDayEnergy beforeSkip = decimal 104 2
  /\ dailyLog reloaded = dailyLog beforeSkip
  /\ currentDay reloaded = currentDay beforeSkip
  /\ currentEnergy reloaded = decimal 104 2
  /\ energy (skipLogData beforeSkip) = decimal 93 2
  /\ energy (skipLogData reloaded) = decimal 94 2.
Proof. vm_compute. repeat split. Qed.

(** *** Failing persistence calls *)

Section Persistence.

Context {num : Type} `{JsNumber num}.
Implicit Types (s : State num) (e : DayEntry num).

(** The recalculation and the reset commit only after the collaborator
    has answered: when it fails, the log, the energy and the day are as
    before and the user is alerted. *)
Lemma failed_edit_keeps_state s d str m k db :
  acceptedEdit s d str m k -> db <> DbOk ->
  sameEngine s (handleEditMinutes s d str db).1
  /\ existsb isAlert (handleEditMinutes s d str db).2 = true.
Proof.
  intros Hacc Hdb.
  destruct (handleEditMinutes_accepted s d str m k db Hacc)
    as (rlog & updates & _ & _ & ->).
  by destruct db.
Qed.

Lemma failed_reset_keeps_state s db :
  db <> DbOk ->
  sameEngine s (resetSimulation s true db).1
  /\ existsb isAlert (resetSimulation s true db).2 = true.
Proof. intros Hdb. by destruct db. Qed.

(** The two appends update the state before the call and do not look at
    its answer beyond a console message. *)
Lemma handleEndPractice_ignores_answer s endTime db :
  (handleEndPractice s endTime db).1 = (handleEndPractice s endTime DbOk).1
  /\ existsb isAlert (handleEndPractice s endTime db).2 = false.
Proof.
  unfold handleEndPractice.
  destruct (negb (isPracticing s) || negb (truthy (startTime s))); [done|].
  by destruct db.
Qed.

Lemma logSkippedDay_ignores_answer s db :
  (logSkippedDay s db).1 = (logSkippedDay s DbOk).1
  /\ existsb isAlert (logSkippedDay s db).2 = false.
Proof.
  unfold logSkippedDay.
  destruct (isPracticing s); [done|].
  destruct (accumulatedSecondsToday s >? 0); [done|].
  by destruct db.
Qed.

End Persistence.

(** C8 at a failing input - The practice interval of the replayed
    session ends and the upsert answers with an error: the state is the
    one a successful save leaves (the log has the new entry, the energy
    has grown from 1 to 1.038316), and nothing but a console message
    tells of the failure.  Likewise for a skip day whose insert fails. *)
Theorem failed_save_is_not_rolled_back :
  let r := handleEndPractice practising 1801000 DbError in
  let r' := logSkippedDay (initialState : State float) DbThrow in
  r.1 = (handleEndPractice practising 1801000 DbOk).1
  /\ dailyLog practising = []
  /\ length (dailyLog r.1) = 1%nat
  /\ PrimFloat.ltb (currentEnergy practising) (currentEnergy r.1) = true
  /\ r.2 = [Upsert (dailyLog r.1);
            ConsoleError "Error saving practice log to Supabase:"]
  /\ length (dailyLog r'.1) = 1%nat
  /\ PrimFloat.ltb (currentEnergy r'.1) (currentEnergy (initialState : State float))
     = true
  /\ currentDay r'.1 = 2
  /\ r'.2 = [Insert (skipLogData initialState)].
Proof. vm_compute. repeat split. Qed.

(** ** Further properties *)

(** *** The current day and the last entry *)

Section DayFollowsLog.

Context {num : Type} `{JsNumber num}.
Implicit Types (s : State num) (log : list (DayEntry num)) (e : DayEntry num).








End DayFollowsLog.


(** *** Runs through the rendered buttons *)

Section RenderedRuns.

Context {num : Type} `{JsNumber num}.
Implicit Types (s : State num) (log : list (DayEntry num)) (e : DayEntry num).

Lemma some_impl {A : Type} (p q : A -> bool) (l : list A) :
  (forall x, p x = true -> q x = true) ->
  Array.some p l = true -> Array.some q l = true.
Proof.
  unfold Array.some. intros Himpl (x & Hx & Hp)%existsb_exists.
  apply existsb_exists. exists x. auto.
Qed.

Lemma hasPracticedToday_false s e :
  hasPracticedToday s = false -> e ∈ dailyLog s ->
  day e = currentDay s -> practice e = false.
Proof.
  intros Hnone He Hday.
  pose proof (some_false _ _ Hnone e He) as Hp. simpl in Hp.
  apply andb_false_iff in Hp as [Hp|Hp]; [lia|done].
Qed.

Lemma strictlyOrderedByDay_snoc log e :
  strictlyOrderedByDay log ->
  (forall x, x ∈ log -> day x < day e) ->
  strictlyOrderedByDay (log ++ [e]).
Proof.
  intros Hord Hlt i j a b Hij Hi Hj.
  apply lookup_snoc_Some in Hj as [[Hjlt Hj]|[-> <-]].
  - rewrite lookup_app_l in Hi by lia. by apply (Hord i j).
  - rewrite lookup_app_l in Hi by lia.
    apply Hlt, list_elem_of_lookup. by exists i.
Qed.

(** Appending an entry of the current day to a log without one. *)
Lemma renderInvariant_snoc s s' e :
  renderInvariant s ->
  (forall x, x ∈ dailyLog s -> day x <> currentDay s) ->
  dailyLog s' = dailyLog s ++ [e] ->
  day e = currentDay s ->
  (currentDay s' = currentDay s /\ practice e = true
   \/ currentDay s' = currentDay s + 1) ->
  renderInvariant s'.
Proof.
  intros [Hord Hle] Hfresh Hlog Hday Hcd. split.
  - rewrite Hlog. apply strictlyOrderedByDay_snoc; [done|].
    intros x Hx. destruct (Hle x Hx). specialize (Hfresh x Hx). lia.
  - intros x. rewrite Hlog. intros [Hx| ->%list_elem_of_singleton]%elem_of_app.
    + destruct (Hle x Hx). specialize (Hfresh x Hx).
      destruct Hcd as [[-> _]| ->]; split; lia.
    + destruct Hcd as [[-> Hp]| ->]; split; (done || lia).
Qed.

Lemma renderInvariant_later s s' :
  renderInvariant s -> dailyLog s' = dailyLog s ->
  currentDay s' = currentDay s + 1 ->
  renderInvariant s'.
Proof.
  intros [Hord Hle] Hlog Hcd. split; [by rewrite Hlog|].
  intros x. rewrite Hlog, Hcd. intros Hx. destruct (Hle x Hx). split; lia.
Qed.

Lemma renderInvariant_ext s s' :
  dayPractice <$> dailyLog s' = dayPractice <$> dailyLog s ->
  currentDay s' = currentDay s ->
  renderInvariant s -> renderInvariant s'.
Proof.
  intros Hdp Hcd [Hord Hle].
  assert (Hlook : forall i e', dailyLog s' !! i = Some e' ->
            exists e, dailyLog s !! i = Some e
                      /\ day e = day e' /\ practice e = practice e').
  { intros i e' Hi.
    assert (Hd : (dayPractice <$> dailyLog s) !! i = Some (dayPractice e'))
      by (rewrite <- Hdp, list_lookup_fmap, Hi; done).
    rewrite list_lookup_fmap in Hd.
    destruct (dailyLog s !! i) as [e|]; [|done].
    injection Hd as Hd Hp. by exists e. }
  split.
  - intros i j a b Hij Hi Hj.
    destruct (Hlook i a Hi) as (a0 & Ha0 & <- & _).
    destruct (Hlook j b Hj) as (b0 & Hb0 & <- & _).
    by apply (Hord i j).
  - intros e' [i Hi]%list_elem_of_lookup. rewrite Hcd.
    destruct (Hlook i e' Hi) as (e & He & <- & <-).
    apply Hle, list_elem_of_lookup. by exists i.
Qed.

Lemma renderInvariant_sameEngine s s' :
  sameEngine s s' -> renderInvariant s -> renderInvariant s'.
Proof.
  intros (Hlog & Hcd & _). apply renderInvariant_ext; by rewrite ?Hlog, ?Hcd.
Qed.

Lemma fmap_dayPractice_recalcSuffix prev entries :
  dayPractice <$> recalcSuffix prev entries = dayPractice <$> entries.
Proof.
  revert prev. induction entries as [|e entries IH]; intros prev; simpl; [done|].
  rewrite IH. unfold dayPractice.
  by rewrite recalcEntry_day, recalcEntry_practice.
Qed.

Lemma recalculate_dayPractice startIndex log log' updates :
  recalculate startIndex log = Some (log', updates) ->
  dayPractice <$> log' = dayPractice <$> log.
Proof.
  destruct (previousDayEnergy startIndex log) as [prev|] eqn:Hprev;
    [|unfold recalculate; rewrite Hprev; discriminate].
  rewrite (recalculate_eq _ _ _ Hprev). intros [= <- _].
  rewrite fmap_app, fmap_dayPractice_recalcSuffix, <- fmap_app.
  by rewrite take_drop.
Qed.

Lemma logCopyWithEdit_dayPractice log k m :
  dayPractice <$> logCopyWithEdit log k m = dayPractice <$> log.
Proof.
  apply list_eq. intros i. unfold logCopyWithEdit.
  rewrite !list_lookup_fmap, imap_edit_lookup.
  destruct (log !! i) as [e|]; simpl; [|done].
  by destruct (i =? k)%nat.
Qed.

Lemma renderInvariant_handleEndPractice s endTime db :
  renderInvariant s -> renderInvariant (handleEndPractice s endTime db).1.
Proof.
  intros Hinv. pose proof Hinv as [Hord Hle]. unfold handleEndPractice.
  destruct (negb (isPracticing s) || negb (truthy (startTime s))); [done|].
  simpl.
  destruct (Array.findIndex _ (dailyLog s)) as [i|] eqn:Hi.
  - destruct (findIndex_Some _ _ _ Hi) as (x & Hx & Hday & _).
    apply Z.eqb_eq in Hday.
    assert (Hlook : forall j e,
              <[i := logEntryData s endTime]> (dailyLog s) !! j = Some e ->
              exists e0, dailyLog s !! j = Some e0 /\ day e0 = day e
                         /\ (j = i -> practice e = true)
                         /\ (j <> i -> e0 = e)).
    { intros j e Hj. destruct (decide (i = j)) as [<-|Hne].
      - rewrite list_lookup_insert_eq in Hj by by eapply lookup_lt_Some.
        injection Hj as <-. by exists x.
      - rewrite list_lookup_insert_ne in Hj by done. exists e.
        split_and!; [done|done|lia|done]. }
    split.
    + intros j1 j2 a b Hj Ha Hb.
      destruct (Hlook j1 a Ha) as (a0 & Ha0 & <- & _).
      destruct (Hlook j2 b Hb) as (b0 & Hb0 & <- & _).
      by apply (Hord j1 j2).
    + intros e [j Hj]%list_elem_of_lookup. simpl.
      destruct (Hlook j e Hj) as (e0 & He0 & Hd & Hp & Hsame).
      assert (He0in : e0 ∈ dailyLog s) by (apply list_elem_of_lookup; by exists j).
      destruct (Hle e0 He0in) as [Hle0 Hp0]. rewrite <- Hd.
      split; [done|]. intros Htoday.
      destruct (decide (j = i)) as [->|Hne]; [by apply Hp|].
      rewrite <- (Hsame Hne). by apply Hp0.
  - eapply (renderInvariant_snoc s _ (logEntryData s endTime)); simpl;
      [done| |done|done|by left].
    intros x [j Hj]%list_elem_of_lookup.
    pose proof (findIndex_None _ _ Hi j x Hj) as Hne. simpl in Hne. lia.
Qed.

Lemma renderInvariant_advanceToNextDay s :
  renderInvariant s -> renderInvariant (advanceToNextDay s).
Proof.
  intros Hinv. unfold advanceToNextDay.
  destruct (isPracticing s); [done|].
  destruct (Array.some _ (dailyLog s)) eqn:Hsome; simpl.
  - by apply (renderInvariant_later s).
  - eapply (renderInvariant_snoc s _ (skipLogData s)); simpl;
      [done| |done|done|by right].
    intros x Hx. pose proof (some_false _ _ Hsome x Hx) as Hne.
    simpl in Hne. lia.
Qed.

Lemma renderInvariant_logSkippedDay s db :
  offered s (OpSkipDay db) = true ->
  renderInvariant s -> renderInvariant (logSkippedDay s db).1.
Proof.
  intros Hoff Hinv. pose proof Hinv as [_ Hle]. unfold logSkippedDay.
  destruct (isPracticing s); [done|].
  destruct (accumulatedSecondsToday s >? 0); [done|].
  simpl in Hoff.
  assert (Hnone : hasPracticedToday s = false).
  { destruct (hasPracticedToday s); [|done].
    by rewrite andb_false_r in Hoff. }
  eapply (renderInvariant_snoc s _ (skipLogData s)); simpl;
    [done| |done|done|by right].
  intros x Hx Hday. destruct (Hle x Hx) as [_ Hp].
  rewrite (hasPracticedToday_false s x Hnone Hx Hday) in Hp.
  specialize (Hp Hday). discriminate Hp.
Qed.

Lemma renderInvariant_fetchLog s r :
  uniqueOp (OpFetchLog r) -> renderInvariant (fetchLog s r).1.
Proof.
  destruct r as [[|item data]| |]; intros Hord;
    try (split; [by intros i j a b ? ?|by intros e ?%elem_of_nil]).
  pose proof (List_last_lookup (item :: data) item) as Hlast.
  specialize (Hlast ltac:(done)).
  unfold fetchLog. simpl in Hord.
  set (lastLog := List.last (item :: data) item) in *. clearbody lastLog.
  set (log := item :: data) in *.
  assert (Hlog : length log = S (length data)) by done.
  clearbody log. rewrite Hlog in Hlast. simpl in Hlast.
  split; [done|]. simpl.
  intros e [i Hi]%list_elem_of_lookup.
  assert (Hle : (i <= length data)%nat)
    by (apply lookup_lt_Some in Hi; lia).
  destruct (decide (i = length data)) as [->|Hne].
  - assert (e = lastLog) as -> by congruence. split; lia.
  - pose proof (Hord i (length data) e _ ltac:(lia) Hi Hlast). split; lia.
Qed.

Lemma renderInvariant_handleEditMinutes s d str db :
  renderInvariant s -> renderInvariant (handleEditMinutes s d str db).1.
Proof.
  intros Hinv.
  assert (Hsame : renderInvariant (s |> setEditingDay None))
    by by apply (renderInvariant_sameEngine s).
  unfold handleEditMinutes.
  destruct (parseInt str) as [m|]; [|done].
  destruct (m <? 0); [done|].
  destruct (Array.findIndex _ (dailyLog s)) as [k|]; [|done].
  destruct (dailyLog s !! k) as [target|]; [|done].
  destruct (practice target); simpl; [|done].
  destruct (minutes target =? m); [done|].
  unfold recalculateEnergyFromDay.
  destruct (recalculate k _) as [[rlog updates]|] eqn:Hrec; simpl;
    [|by apply (renderInvariant_sameEngine s)].
  assert (Hcommit : forall s', dailyLog s' = rlog ->
                               currentDay s' = currentDay s ->
                               renderInvariant s').
  { intros s' Hlog Hcd. apply (renderInvariant_ext s); [|done|done].
    by rewrite Hlog, (recalculate_dayPractice _ _ _ _ Hrec),
      logCopyWithEdit_dayPractice. }
  destruct updates; simpl; [by apply Hcommit|].
  destruct db; simpl; [by apply Hcommit| |];
    by apply (renderInvariant_sameEngine s).
Qed.

Lemma renderInvariant_step s op :
  uniqueOp op -> offered s op = true ->
  renderInvariant s -> renderInvariant (step s op).
Proof.
  intros Hop Hoff Hinv.
  destruct op as [r|confirmed db|now|now|endTime db|db| |d'|d' str db]; simpl.
  - by apply renderInvariant_fetchLog.
  - unfold resetSimulation. destruct confirmed; simpl; [|done].
    destruct db; simpl;
      [split; [by intros i j a b ? ?|by intros e ?%elem_of_nil]| |];
      by apply (renderInvariant_sameEngine s).
  - unfold timerTick. destruct (_ && _); [|done].
    by apply (renderInvariant_sameEngine s).
  - unfold handleStartPractice. destruct (isPracticing s); [done|].
    by apply (renderInvariant_sameEngine s).
  - by apply renderInvariant_handleEndPractice.
  - by apply renderInvariant_logSkippedDay.
  - by apply renderInvariant_advanceToNextDay.
  - by apply (renderInvariant_sameEngine s).
  - by apply renderInvariant_handleEditMinutes.
Qed.

(** X3 - The finish-day button is offered only when the day has a
    practice entry, so through the rendered buttons ending a day never
    writes an implicit skip entry: the log and the energy stay, the day
    advances, and the stopwatch is cleared. *)
Theorem offered_advance_only_advances s :
  offered s OpAdvance = true ->
  dailyLog (advanceToNextDay s) = dailyLog s
  /\ currentEnergy (advanceToNextDay s) = currentEnergy s
  /\ currentDay (advanceToNextDay s) = currentDay s + 1
  /\ accumulatedSecondsToday (advanceToNextDay s) = 0
  /\ elapsedTime (advanceToNextDay s) = 0.
Proof.
  simpl. intros Hoff.
  apply andb_true_iff in Hoff as [Hoff Hp].
  apply andb_true_iff in Hoff as [_ Htoday].
  apply negb_true_iff in Hp.
  unfold advanceToNextDay. rewrite Hp.
  assert (Array.some (fun x => day x =? currentDay s) (dailyLog s) = true)
    as ->; [|done].
  revert Htoday. apply some_impl. intros x Hx.
  by apply andb_true_iff in Hx as [Hx _].
Qed.

End RenderedRuns.

(** Outside the rendered buttons the handlers alone do not keep one
    entry per day: a practice interval of no full second leaves the
    seconds of the day at 0, and the skip handler then adds a second
    entry of day 1. *)
Example skip_handler_after_an_instant_practice :
  day <$> dailyLog (run (initialState : State float)
                      [OpFetchLog (Fetched []); OpStartPractice 1000;
                       OpEndPractice 1000 DbOk; OpSkipDay DbOk])
  = [1; 1].
Proof. vm_compute. reflexivity. Qed.

Lemma offered_advance_only_advances_witness :
  offered afterPractice OpAdvance = true
  /\ dailyLog (advanceToNextDay afterPractice) = dailyLog afterPractice.
Proof.
  split; [vm_compute; reflexivity|].
  apply (offered_advance_only_advances afterPractice). vm_compute. reflexivity.
Defined.

(** *** What an edit sends to the persistence collaborator *)

Section EditPayload.

Context {num : Type} `{JsNumber num}.
Implicit Types (s : State num) (e : DayEntry num).

(** X4 - An accepted edit upserts, whatever the collaborator then
    answers, exactly the entries from the edited one to the end of the
    log it commits on success: one row per entry of that suffix, with
    the days of the entries that were there, so the upsert never
    creates a row of a new day. *)
Theorem accepted_edit_upserts_recomputed_suffix s d str m k db :
  acceptedEdit s d str m k ->
  let committed := dailyLog (handleEditMinutes s d str DbOk).1 in
  (handleEditMinutes s d str DbOk).2 = [Upsert (drop k committed)]
  /\ (exists rest,
        (handleEditMinutes s d str db).2 = Upsert (drop k committed) :: rest
        /\ existsb isPersistence rest = false)
  /\ length (drop k committed) = (length (dailyLog s) - k)%nat
  /\ (0 < length (drop k committed))%nat
  /\ day <$> drop k committed = day <$> drop k (dailyLog s).
Proof.
  intros Hacc committed.
  destruct (handleEditMinutes_accepted s d str m k DbOk Hacc)
    as (rlog & updates & Hrec & Hne & Hok).
  destruct (handleEditMinutes_accepted s d str m k db Hacc)
    as (rlog' & updates' & Hrec' & _ & Hdb).
  rewrite Hrec in Hrec'. injection Hrec' as <- <-.
  assert (committed = rlog) as -> by (unfold committed; by rewrite Hok).
  destruct (recalculate_lookup _ _ _ _ Hrec) as (Hlen & _ & _ & Hupd).
  unfold logCopyWithEdit in Hlen. rewrite length_imap in Hlen.
  destruct Hacc as (_ & _ & _ & target & Htarget & _).
  apply lookup_lt_Some in Htarget.
  rewrite <- Hupd. split_and!.
  - by rewrite Hok.
  - rewrite Hdb. destruct db; by eexists.
  - rewrite Hupd, length_drop. lia.
  - rewrite Hupd, length_drop. lia.
  - rewrite Hupd, !fmap_drop.
    by rewrite (recalculate_days _ _ _ _ Hrec), logCopyWithEdit_days.
Qed.

End EditPayload.

Lemma accepted_edit_upserts_recomputed_suffix_witness :
  acceptedEdit afterPracticeThenSkip 1 "45" 45 0
  /\ (handleEditMinutes afterPracticeThenSkip 1 "45" DbOk).2
     = [Upsert (drop 0 (dailyLog
                          (handleEditMinutes afterPracticeThenSkip 1 "45" DbOk).1))].
Proof.
  assert (Hacc : acceptedEdit afterPracticeThenSkip 1 "45" 45 0).
  { split; [vm_compute; reflexivity|]. split; [lia|].
    split; [vm_compute; reflexivity|].
    eexists. split; [vm_compute; reflexivity|]. split; [reflexivity|].
    vm_compute. discriminate. }
  split; [exact Hacc|].
  exact (proj1 (accepted_edit_upserts_recomputed_suffix
                  afterPracticeThenSkip 1 "45" 45 0 DbOk Hacc)).
Defined.

(** *** The stopwatch *)

Section Stopwatch.

Context {num : Type} `{JsNumber num}.
Implicit Types (s : State num) (e : DayEntry num).

Lemma find_insert_same {A : Type} (p : A -> bool) (l : list A) i x y :
  l !! i = Some x -> p x = false -> p y = false ->
  Array.find p (<[i := y]> l) = Array.find p l.
Proof.
  revert i. induction l as [|a l IH]; intros i; [done|].
  destruct i as [|i]; simpl.
  - intros [= ->] -> ->. done.
  - intros Hi Hx Hy. by rewrite (IH i Hi Hx Hy).
Qed.

Lemma find_snoc_false {A : Type} (p : A -> bool) (l : list A) y :
  p y = false -> Array.find p (l ++ [y]) = Array.find p l.
Proof.
  intros Hy. rewrite find_app. simpl. rewrite Hy.
  by destruct (Array.find p l).
Qed.

(** X5 - Pausing and resuming within a day accumulates and does not
    compound: after a practice interval, a restart and a second
    interval, the seconds of the day are the sum of the two intervals,
    the log is as long as after the first interval, and the entry the
    first interval wrote is replaced by one computed from the energy the
    day started with and the minutes of the whole day; [currentEnergy]
    is that start energy times the growth factor of those minutes. *)
Theorem pause_and_resume_accumulate s st t1 t2 t3 db1 db3 :
  isPracticing s = true -> startTime s = Some st -> st <> 0 -> t2 <> 0 ->
  let s1 := (handleEndPractice s t1 db1).1 in
  let s3 := (handleEndPractice (handleStartPractice s1 t2) t3 db3).1 in
  let total :=
    accumulatedSecondsToday s + (t1 - st) / 1000 + (t3 - t2) / 1000 in
  let m := Z.max 1 (Math_round_div total 60) in
  let start := startOfDayEnergy s in
  let factor := calculateGrowthFactor (ofZ m) in
  let entry :=
    {| day := currentDay s;
       energy := toFixed (start * factor)%num 2;
       practice := true;
       minutes := m;
       gain := Some (toFixed (start * factor - start)%num 2);
       growthFactor := Some (toFixed factor 6);
       loss := None |} in
  accumulatedSecondsToday s3 = total
  /\ currentEnergy s3 = (start * factor)%num
  /\ currentDay s3 = currentDay s
  /\ isPracticing s3 = false
  /\ exists i,
       dailyLog s1 !! i = Some (logEntryData s t1)
       /\ dailyLog s3 = <[i := entry]> (dailyLog s1).
Proof.
  intros Hp Hst Hst0 Ht2 s1 s3 total m start factor entry.
  assert (Htruthy : truthy (startTime s) = true).
  { rewrite Hst. simpl. by destruct (Z.eqb_spec st 0). }
  assert (Hs1 : s1 = (handleEndPractice s t1 db1).1) by done.
  rewrite (handleEndPractice_running s t1 db1 Hp Htruthy) in Hs1.
  simpl in Hs1.
  set (log1 := match Array.findIndex _ (dailyLog s) with
               | Some logIndex => _ | None => _ end) in Hs1.
  (* where the entry of the day is in the log after the first interval *)
  assert (Hidx : exists i,
             log1 !! i = Some (logEntryData s t1)
             /\ Array.findIndex (fun x => day x =? currentDay s) log1 = Some i
             /\ Array.find (fun x => day x =? currentDay s - 1) log1
                = Array.find (fun x => day x =? currentDay s - 1) (dailyLog s)).
  { unfold log1.
    destruct (Array.findIndex _ (dailyLog s)) as [i|] eqn:Hi.
    - destruct (findIndex_Some _ _ _ Hi) as (x & Hx & Hday & Hfirst).
      simpl in Hday. exists i.
      assert (Hin : (i < length (dailyLog s))%nat) by by eapply lookup_lt_Some.
      split_and!.
      + by apply list_lookup_insert_eq.
      + eapply findIndex_first.
        * by apply list_lookup_insert_eq.
        * simpl. lia.
        * intros j y Hj Hy. rewrite list_lookup_insert_ne in Hy by lia.
          by apply (Hfirst j).
      + apply (find_insert_same _ _ _ x); [done| |]; simpl; lia.
    - exists (length (dailyLog s)). split_and!.
      + by rewrite list_lookup_middle.
      + eapply findIndex_first.
        * by rewrite list_lookup_middle.
        * simpl. lia.
        * intros j y Hj Hy. rewrite lookup_app_l in Hy by done.
          by apply (findIndex_None _ _ Hi j).
      + apply find_snoc_false. simpl. lia. }
  destruct Hidx as (i & Hi & Hfind & Hstart).
  set (s2 := handleStartPractice s1 t2).
  assert (Hs2 : s2 = (s1 |> setStartTime (Some (t2 - elapsedTime s1 * 1000))
                         |> setIsPracticing true)).
  { unfold s2, handleStartPractice. by rewrite Hs1. }
  assert (Hp2 : isPracticing s2 = true) by by rewrite Hs2.
  assert (Hst2 : startTime s2 = Some t2).
  { rewrite Hs2, Hs1. simpl. f_equal. lia. }
  assert (Ht2' : truthy (startTime s2) = true).
  { rewrite Hst2. simpl. by destruct (Z.eqb_spec t2 0). }
  assert (Hlog2 : dailyLog s2 = log1) by by rewrite Hs2, Hs1.
  assert (Hcd2 : currentDay s2 = currentDay s) by by rewrite Hs2, Hs1.
  assert (Hacc2 : accumulatedSecondsToday s2 = newAccumulatedSeconds s t1)
    by by rewrite Hs2, Hs1.
  assert (Htotal : newAccumulatedSeconds s2 t3 = total).
  { unfold newAccumulatedSeconds, total. rewrite Hacc2, Hst2.
    unfold newAccumulatedSeconds. rewrite Hst. simpl. lia. }
  assert (Hstart2 : startOfDayEnergy s2 = start).
  { unfold start, startOfDayEnergy. by rewrite Hlog2, Hcd2, Hstart. }
  assert (Hentry : logEntryData s2 t3 = entry).
  { unfold logEntryData, totalMinutesToday. by rewrite Htotal, Hstart2, Hcd2. }
  unfold s3. fold s2.
  rewrite (handleEndPractice_running s2 t3 db3 Hp2 Ht2'). simpl.
  rewrite Hlog2, Hcd2, Hfind, Hentry, Htotal, Hstart2.
  unfold totalMinutesToday. rewrite Htotal.
  split; [reflexivity|]. split; [reflexivity|]. split; [reflexivity|].
  split; [reflexivity|].
  exists i. rewrite Hs1. simpl. split; done.
Qed.

(** X6 - Starting the stopwatch at [now] with [elapsedTime] seconds on
    display sets the start time that many seconds back, so a tick at
    [now'] displays the seconds on display plus the whole seconds from
    [now] to [now']; while no practice is running a tick changes
    nothing, and starting twice is starting once. *)
Theorem start_then_tick_counts_from_display s now now' :
  (isPracticing s = false -> now - elapsedTime s * 1000 <> 0 ->
   elapsedTime (timerTick (handleStartPractice s now) now')
   = elapsedTime s + (now' - now) / 1000)
  /\ (isPracticing s = false -> timerTick s now' = s)
  /\ handleStartPractice (handleStartPractice s now) now'
     = handleStartPractice s now.
Proof.
  split_and!.
  - intros Hp Hnz. unfold handleStartPractice, timerTick. rewrite Hp. simpl.
    destruct (Z.eqb_spec (now - elapsedTime s * 1000) 0); [done|]. simpl.
    replace (now' - (now - elapsedTime s * 1000))
      with (now' - now + elapsedTime s * 1000) by lia.
    rewrite Z.div_add by lia. lia.
  - intros Hp. unfold timerTick. by rewrite Hp.
  - unfold handleStartPractice.
    destruct (isPracticing s) eqn:Hp; [by rewrite Hp|done].
Qed.

End Stopwatch.

Lemma pause_and_resume_accumulate_witness :
  isPracticing practising = true /\ startTime practising = Some 1000
  /\ accumulatedSecondsToday
       (handleEndPractice
          (handleStartPractice (handleEndPractice practising 601000 DbOk).1
             2000000) 3200000 DbOk).1
     = accumulatedSecondsToday practising + (601000 - 1000) / 1000
       + (3200000 - 2000000) / 1000.
Proof.
  split; [reflexivity|]. split; [reflexivity|].
  exact (proj1 (pause_and_resume_accumulate practising 1000 601000 2000000
                  3200000 DbOk DbOk eq_refl eq_refl
                  ltac:(discriminate) ltac:(discriminate))).
Defined.

Lemma start_then_tick_counts_from_display_witness :
  isPracticing afterPractice = false
  /\ 5000 - elapsedTime afterPractice * 1000 <> 0
  /\ elapsedTime (timerTick (handleStartPractice afterPractice 5000) 9500)
     = elapsedTime afterPractice + (9500 - 5000) / 1000.
Proof.
  split; [reflexivity|]. split; [vm_compute; discriminate|].
  exact (proj1 (start_then_tick_counts_from_display afterPractice 5000 9500)
           eq_refl ltac:(vm_compute; discriminate)).
Defined.

(** *** Reloading the page *)

Section Reload.

Context {num : Type} `{JsNumber num}.
Implicit Types (s : State num) (e : DayEntry num).


End Reload.


(** *** Flags, and a reset *)

Section Flags.

Context {num : Type} `{JsNumber num}.
Implicit Types (s : State num) (e : DayEntry num).

Lemma sameButFlags_step s1 s2 op :
  sameButFlags s1 s2 -> sameButFlags (step s1 op) (step s2 op).
Proof.
  destruct s1 as [log1 cd1 en1 p1 st1 el1 acc1 l1 ed1].
  destruct s2 as [log2 cd2 en2 p2 st2 el2 acc2 l2 ed2].
  unfold sameButFlags. simpl.
  intros (-> & -> & -> & -> & -> & -> & ->).
  destruct op as [r|confirmed db|now|now|endTime db|db| |d'|d' str db]; simpl.
  - by destruct r as [[|item data]| |].
  - unfold resetSimulation. destruct confirmed; simpl; [|done]. by destruct db.
  - unfold timerTick. simpl. by destruct (_ && _).
  - unfold handleStartPractice. simpl. by destruct p2.
  - unfold handleEndPractice. simpl. by destruct (_ || _).
  - unfold logSkippedDay. simpl. destruct p2; [done|].
    by destruct (acc2 >? 0).
  - unfold advanceToNextDay. simpl. destruct p2; [done|].
    by destruct (negb _).
  - done.
  - unfold handleEditMinutes. simpl.
    destruct (parseInt str) as [m|]; [|done].
    destruct (m <? 0); [done|].
    destruct (Array.findIndex _ log2) as [k|]; [|done].
    destruct (log2 !! k) as [target|]; [|done].
    destruct (practice target); simpl; [|done].
    destruct (minutes target =? m); [done|].
    unfold recalculateEnergyFromDay.
    destruct (recalculate k _) as [[rlog [|u updates]]|]; simpl; [done| |done].
    by destruct db.
Qed.

Lemma sameButFlags_run s1 s2 ops :
  sameButFlags s1 s2 -> sameButFlags (run s1 ops) (run s2 ops).
Proof.
  unfold run. revert s1 s2.
  induction ops as [|op ops IH]; intros s1 s2 Hsame; simpl; [done|].
  by apply IH, sameButFlags_step.
Qed.

(** X8 - The loading flag and the editing mode never influence the
    log, the energy, the day or the stopwatch: from two states that
    differ in them at most, the same operations lead to two states that
    differ in them at most.  And a reset that is confirmed and saved
    forgets everything else: whatever follows goes as from the first
    render. *)
Theorem flags_do_not_matter_and_reset_starts_over :
  (forall s1 s2 (ops : list (Op num)),
      sameButFlags s1 s2 -> sameButFlags (run s1 ops) (run s2 ops))
  /\ (forall s (ops : list (Op num)),
        sameButFlags (run (resetSimulation s true DbOk).1 ops)
                     (run initialState ops)).
Proof.
  split; [exact sameButFlags_run|].
  intros s ops. by apply sameButFlags_run.
Qed.

End Flags.

Lemma flags_do_not_matter_and_reset_starts_over_witness :
  sameButFlags (initialState : State float)
               (initialState |> setEditingDay (Some 3) |> setIsLoading false)
  /\ sameButFlags
       (run (initialState : State float) practiceThenSkip)
       (run (initialState |> setEditingDay (Some 3) |> setIsLoading false)
            practiceThenSkip).
Proof.
  assert (Hsame : sameButFlags (initialState : State float)
                    (initialState |> setEditingDay (Some 3)
                                  |> setIsLoading false))
    by (repeat split).
  split; [exact Hsame|].
  exact (proj1 flags_do_not_matter_and_reset_starts_over _ _
           practiceThenSkip Hsame).
Defined.

(** *** One edit after another *)

Section EditTwice.

Context {num : Type} `{JsNumber num}.
Implicit Types (s : State num) (log : list (DayEntry num)) (e : DayEntry num).

Lemma findIndex_day log d :
  Array.findIndex (fun e => day e =? d) log
  = Array.findIndex (fun z => z =? d) (day <$> log).
Proof.
  induction log as [|e log IH]; simpl; [done|]. by rewrite IH.
Qed.

Lemma recalcEntry_withMinutes_twice p q m1 m2 e :
  recalcEntry p (withMinutes m2 (recalcEntry q (withMinutes m1 e)))
  = recalcEntry p (withMinutes m2 e).
Proof. unfold recalcEntry, withMinutes. simpl. by destruct (practice e). Qed.

(** The log a saved edit commits. *)
Lemma accepted_edit_log s d str m k :
  acceptedEdit s d str m k ->
  exists updates,
    recalculate k (logCopyWithEdit (dailyLog s) k m)
    = Some (dailyLog (handleEditMinutes s d str DbOk).1, updates)
    /\ currentEnergy (handleEditMinutes s d str DbOk).1
       = energyAfterRecalculation s
           (dailyLog (handleEditMinutes s d str DbOk).1)
    /\ currentDay (handleEditMinutes s d str DbOk).1 = currentDay s.
Proof.
  intros Hacc.
  destruct (handleEditMinutes_accepted s d str m k DbOk Hacc)
    as (rlog & updates & Hrec & _ & ->).
  by exists updates.
Qed.

Lemma withMinutes_same e : withMinutes (minutes e) e = e.
Proof. by destruct e. Qed.

Lemma logCopyWithEdit_same log k target :
  log !! k = Some target ->
  logCopyWithEdit log k (minutes target) = log.
Proof.
  intros Htarget. apply list_eq. intros i.
  unfold logCopyWithEdit. rewrite imap_edit_lookup.
  destruct (Nat.eqb_spec i k) as [->|_]; [|by destruct (log !! i)].
  rewrite Htarget. simpl. by rewrite withMinutes_same.
Qed.

(** The log two saved edits of a day leave: the log before them,
    recomputed from the day on with the second minutes. *)
Lemma two_edits_log s d str1 m1 str2 m2 k :
  acceptedEdit s d str1 m1 k ->
  parseInt str2 = Some m2 -> 0 <= m2 -> m2 <> m1 ->
  let s1 := (handleEditMinutes s d str1 DbOk).1 in
  let s2 := (handleEditMinutes s1 d str2 DbOk).1 in
  exists rlog updates,
    recalculate k (logCopyWithEdit (dailyLog s) k m2) = Some (rlog, updates)
    /\ dailyLog s2 = rlog
    /\ currentEnergy s2 = energyAfterRecalculation s rlog
    /\ currentDay s2 = currentDay s.
Proof.
  intros Hacc1 Hparse2 Hm2 Hne s1 s2.
  destruct (accepted_edit_log s d str1 m1 k Hacc1) as (u1 & Hrec1 & _ & Hcd1).
  fold s1 in Hrec1, Hcd1.
  set (R1 := dailyLog s1) in *.
  destruct Hacc1 as (_ & _ & Hk & target & Htarget & Hp & _).
  assert (Hklt : (k < length (dailyLog s))%nat) by by eapply lookup_lt_Some.
  destruct (previousDayEnergy_is_Some k (logCopyWithEdit (dailyLog s) k m2))
    as [prev Hprev].
  { unfold logCopyWithEdit. rewrite length_imap. lia. }
  pose proof (recalculate_eq _ _ _ Hprev) as Hrec2.
  set (R2 := take k _ ++ _) in Hrec2. set (u2 := recalcSuffix _ _) in Hrec2.
  destruct (recalculate_lookup _ _ _ _ Hrec1) as (Hlen1 & Hbefore1 & Hfrom1 & _).
  destruct (recalculate_lookup _ _ _ _ Hrec2) as (Hlen2 & Hbefore2 & Hfrom2 & _).
  unfold logCopyWithEdit in Hlen1, Hlen2. rewrite length_imap in Hlen1, Hlen2.
  (* the second edit is accepted after the first *)
  assert (Hacc12 : acceptedEdit s1 d str2 m2 k).
  { split; [done|]. split; [done|]. split.
    - fold R1. rewrite findIndex_day, (recalculate_days _ _ _ _ Hrec1),
        logCopyWithEdit_days, <- findIndex_day. done.
    - assert (Hcopy : logCopyWithEdit (dailyLog s) k m1 !! k
                      = Some (withMinutes m1 target)).
      { unfold logCopyWithEdit. rewrite imap_edit_lookup, Htarget.
        by rewrite Nat.eqb_refl. }
      eexists. fold R1. split; [exact (Hfrom1 k _ ltac:(lia) Hcopy)|].
      rewrite recalcEntry_practice, recalcEntry_minutes. simpl. done. }
  destruct (accepted_edit_log s1 d str2 m2 k Hacc12)
    as (u12 & Hrec12 & Hen12 & Hcd12).
  fold s2 in Hrec12, Hen12, Hcd12.
  set (R12 := dailyLog s2) in *.
  fold R1 in Hrec12.
  destruct (recalculate_lookup _ _ _ _ Hrec12)
    as (Hlen12 & Hbefore12 & Hfrom12 & _).
  unfold logCopyWithEdit in Hlen12. rewrite length_imap in Hlen12.
  assert (Heq : R12 = R2).
  { apply list_eq. intros i.
    induction i as [i IH] using lt_wf_ind.
    destruct (decide (i < k)%nat) as [Hi|Hi].
    - rewrite (Hbefore12 i Hi), (Hbefore2 i Hi).
      unfold logCopyWithEdit. rewrite !imap_edit_lookup.
      destruct (Nat.eqb_spec i k); [lia|].
      rewrite (Hbefore1 i Hi). unfold logCopyWithEdit.
      rewrite imap_edit_lookup. destruct (Nat.eqb_spec i k); [lia|].
      by destruct (dailyLog s !! i).
    - destruct (dailyLog s !! i) as [e0|] eqn:He0.
      + assert (Hc1 : logCopyWithEdit (dailyLog s) k m1 !! i
                      = Some (if (i =? k)%nat then withMinutes m1 e0 else e0)).
        { unfold logCopyWithEdit. rewrite imap_edit_lookup, He0.
          by destruct (i =? k)%nat. }
        assert (Hc2 : logCopyWithEdit (dailyLog s) k m2 !! i
                      = Some (if (i =? k)%nat then withMinutes m2 e0 else e0)).
        { unfold logCopyWithEdit. rewrite imap_edit_lookup, He0.
          by destruct (i =? k)%nat. }
        pose proof (Hfrom1 i _ ltac:(lia) Hc1) as HR1.
        assert (Hc12 : logCopyWithEdit R1 k m2 !! i
                       = Some (if (i =? k)%nat
                               then withMinutes m2
                                      (recalcEntry (startEnergyAt R1 i)
                                         (withMinutes m1 e0))
                               else recalcEntry (startEnergyAt R1 i) e0)).
        { unfold logCopyWithEdit. rewrite imap_edit_lookup, HR1.
          by destruct (i =? k)%nat. }
        rewrite (Hfrom12 i _ ltac:(lia) Hc12), (Hfrom2 i _ ltac:(lia) Hc2).
        assert (Hstart : startEnergyAt R12 i = startEnergyAt R2 i).
        { destruct i as [|i]; simpl; [done|]. by rewrite IH by lia. }
        rewrite Hstart. f_equal.
        destruct (i =? k)%nat.
        * apply recalcEntry_withMinutes_twice.
        * apply recalcEntry_idem.
      + apply lookup_ge_None in He0.
        rewrite (proj2 (lookup_ge_None R12 i)) by lia.
        by rewrite (proj2 (lookup_ge_None R2 i)) by lia. }
  exists R2, u2. split_and!; [done|done| |by rewrite Hcd12].
  rewrite Hen12, Heq. unfold energyAfterRecalculation. by rewrite Hcd1.
Qed.

(** X9 - After two saved edits of the minutes of a practice day, the
    second value other than the first, the log is the log before the
    edits recomputed from that day on with the second minutes, and the
    running energy is the one read off that log.  The last edit wins
    where the second value is not the minutes the day had before the
    edits: the log and the running energy are those of making the
    second edit alone.  Where the second edit gives the day back the
    minutes it had, the second edit alone does nothing, and the two
    edits leave the log recomputed with the minutes it had. *)
Theorem last_edit_wins s d str1 m1 str2 m2 k target :
  acceptedEdit s d str1 m1 k ->
  dailyLog s !! k = Some target ->
  parseInt str2 = Some m2 -> 0 <= m2 -> m2 <> m1 ->
  let s1 := (handleEditMinutes s d str1 DbOk).1 in
  let s2 := (handleEditMinutes s1 d str2 DbOk).1 in
  (exists updates,
      recalculate k (logCopyWithEdit (dailyLog s) k m2)
      = Some (dailyLog s2, updates))
  /\ currentEnergy s2 = energyAfterRecalculation s (dailyLog s2)
  /\ currentDay s2 = currentDay s
  /\ (minutes target <> m2 ->
      dailyLog (handleEditMinutes s d str2 DbOk).1 = dailyLog s2
      /\ currentEnergy (handleEditMinutes s d str2 DbOk).1 = currentEnergy s2)
  /\ (minutes target = m2 ->
      handleEditMinutes s d str2 DbOk = (s |> setEditingDay None, [])
      /\ exists updates,
           recalculate k (dailyLog s) = Some (dailyLog s2, updates)).
Proof.
  intros Hacc1 Htarget Hparse2 Hm2 Hne s1 s2.
  destruct (two_edits_log s d str1 m1 str2 m2 k Hacc1 Hparse2 Hm2 Hne)
    as (rlog & updates & Hrec & Hlog & Hen & Hcd).
  fold s1 s2 in Hlog, Hen, Hcd. rewrite <- Hlog in Hrec, Hen.
  pose proof Hacc1 as (_ & _ & Hk & target' & Htarget' & Hp & _).
  assert (target' = target) as -> by congruence.
  split_and!; [by exists updates|done|done| |].
  - intros Hother.
    assert (Hacc2 : acceptedEdit s d str2 m2 k).
    { split; [done|]. split; [done|]. split; [done|]. by exists target. }
    destruct (accepted_edit_log s d str2 m2 k Hacc2) as (u2 & Hrec2 & Hen2 & _).
    rewrite Hrec in Hrec2. injection Hrec2 as Hlog2 _.
    rewrite Hen2, <- Hlog2. by rewrite Hen.
  - intros Hsame. split.
    + by apply (handleEditMinutes_same_minutes s d str2 DbOk m2 k target).
    + exists updates. rewrite <- Hsame in Hrec.
      by rewrite (logCopyWithEdit_same _ _ _ Htarget) in Hrec.
Qed.

End EditTwice.

Lemma last_edit_wins_witness :
  acceptedEdit afterPracticeThenSkip 1 "31" 31 0
  /\ parseInt "45" = Some 45 /\ 0 <= 45 /\ 45 <> 31
  /\ currentDay (handleEditMinutes
                   (handleEditMinutes afterPracticeThenSkip 1 "31" DbOk).1
                   1 "45" DbOk).1
     = currentDay afterPracticeThenSkip.
Proof.
  assert (H31 : acceptedEdit afterPracticeThenSkip 1 "31" 31 0).
  { split; [done|]. split; [done|]. split; [vm_compute; reflexivity|].
    eexists. split; [vm_compute; reflexivity|]. split; [reflexivity|].
    simpl. discriminate. }
  destruct (dailyLog afterPracticeThenSkip !! 0%nat) as [target|] eqn:Ht;
    [|vm_compute in Ht; discriminate Ht].
  assert (H45 : parseInt "45" = Some 45) by reflexivity.
  assert (Hpos : 0 <= 45) by lia.
  assert (Hne : 45 <> 31) by discriminate.
  split; [exact H31|]. split; [exact H45|]. split; [exact Hpos|].
  split; [exact Hne|].
  exact (proj1 (proj2 (proj2
           (last_edit_wins afterPracticeThenSkip 1 "31" 31 "45" 45 0 target
              H31 Ht H45 Hpos Hne)))).
Defined.

(** *** Exact arithmetic: the energy is never negative *)

Section NonNegative.

Implicit Types (s : State Qc) (e : DayEntry Qc) (x y : Qc).

Lemma exact_mul_nonneg x y :
  (0 <= x)%Qc -> (0 <= y)%Qc -> (0 <= (x * y)%num)%Qc.
Proof.
  intros Hx Hy. change (x * y)%num with (x * y)%Qc.
  pose proof (Qcmult_le_compat_r 0 x y Hx Hy) as Hle.
  by rewrite Qcmult_0_l in Hle.
Qed.

Lemma exact_mul_le_compat_l x y z :
  (0 <= x)%Qc -> (y <= z)%Qc -> ((x * y)%num <= (x * z)%num)%Qc.
Proof.
  intros Hx Hyz. change ((x * y)%Qc <= (x * z)%Qc)%Qc.
  rewrite !(Qcmult_comm x). by apply Qcmult_le_compat_r.
Qed.

Lemma scaled_nonneg (q : Q) (f : nat) :
  (0 <= q)%Q -> (0 <= q * inject_Z (10 ^ Z.of_nat f) + (1 # 2))%Q.
Proof.
  intros Hq.
  assert (Hs : (0 <= inject_Z (10 ^ Z.of_nat f))%Q).
  { change 0%Q with (inject_Z 0). rewrite <- Zle_Qle.
    apply Z.pow_nonneg. lia. }
  pose proof (Qmult_le_0_compat _ _ Hq Hs) as Hm.
  apply (Qle_trans _ (0 + 0)%Q); [done|]. by apply Qplus_le_compat.
Qed.

Lemma Q2Qc_le (q r : Q) : (q <= r)%Q -> (Q2Qc q <= Q2Qc r)%Qc.
Proof. intros Hqr. unfold Qcle. simpl. by rewrite !Qred_correct. Qed.

Lemma Qmake_le (a b : Z) (p : positive) : a <= b -> (a # p <= b # p)%Q.
Proof.
  intros Hab. unfold Qle. simpl. by apply Z.mul_le_mono_nonneg_r; [lia|].
Qed.

Lemma exact_toFixed_nonneg x f : (0 <= x)%Qc -> (0 <= toFixed x f)%Qc.
Proof.
  intros Hx. change (toFixed x f) with (Exact.toFixed x f).
  unfold Exact.toFixed.
  assert (Hb : Qle_bool 0 x = true) by by apply Qle_bool_iff.
  rewrite Hb.
  assert (Hn : 0 <= Qfloor (Qabs x * inject_Z (10 ^ Z.of_nat f) + (1 # 2))).
  { change 0 with (Qfloor 0). apply Qfloor_resp_le.
    apply scaled_nonneg, Qabs_nonneg. }
  apply (Qcle_trans _ (Q2Qc (0 # Z.to_pos (10 ^ Z.of_nat f)))).
  - unfold Qcle. simpl. by rewrite Qred_correct.
  - by apply Q2Qc_le, Qmake_le.
Qed.

Lemma exact_toFixed_mono x y f :
  (0 <= x)%Qc -> (x <= y)%Qc -> (toFixed x f <= toFixed y f)%Qc.
Proof.
  intros Hx Hxy.
  assert (Hy : (0 <= y)%Qc) by by apply (Qcle_trans _ x).
  change (Exact.toFixed x f <= Exact.toFixed y f)%Qc.
  unfold Exact.toFixed.
  assert (Hbx : Qle_bool 0 x = true) by by apply Qle_bool_iff.
  assert (Hby : Qle_bool 0 y = true) by by apply Qle_bool_iff.
  rewrite Hbx, Hby.
  apply Q2Qc_le, Qmake_le, Qfloor_resp_le.
  rewrite (Qabs_pos x) by exact Hx. rewrite (Qabs_pos y) by exact Hy.
  apply Qplus_le_compat; [|apply Qle_refl].
  apply Qmult_le_compat_r; [exact Hxy|].
  change 0%Q with (inject_Z 0). rewrite <- Zle_Qle.
  apply Z.pow_nonneg. lia.
Qed.

Lemma exact_decimal_le (a b : Z) (p : nat) :
  a <= b -> (decimal a p <= decimal b p)%Qc.
Proof.
  intros Hab. change (Exact.decimal a p <= Exact.decimal b p)%Qc.
  by apply Q2Qc_le, Qmake_le.
Qed.

Lemma exact_growthFactor_mono (m m' : Z) :
  m <= m' ->
  (calculateGrowthFactor (ofZ m : Qc) <= calculateGrowthFactor (ofZ m'))%Qc.
Proof.
  intros Hm. rewrite !exact_growthFactor_ofZ. apply exact_decimal_le. lia.
Qed.

Lemma exact_growthFactor_nonneg (m : Z) :
  0 <= m -> (0 <= calculateGrowthFactor (ofZ m : Qc))%Qc.
Proof.
  intros Hm. rewrite exact_growthFactor_ofZ.
  apply (Qcle_trans _ (decimal 0 6)); [done|]. apply exact_decimal_le. lia.
Qed.

Lemma exact_one_nonneg : (0 <= (ofZ 1 : Qc))%Qc.
Proof. done. Qed.

Lemma exact_skip_nonneg x :
  (0 <= x)%Qc -> (0 <= (x - x * dailyEnergyLoss)%num)%Qc.
Proof.
  intros Hx. rewrite exact_skip_factor. by apply exact_mul_nonneg.
Qed.

Lemma find_elem_of {A : Type} (p : A -> bool) (l : list A) (a : A) :
  Array.find p l = Some a -> a ∈ l.
Proof.
  induction l as [|b l IH]; simpl; [done|].
  destruct (p b); [intros [= ->]; left|right; by apply IH].
Qed.

Lemma findLast_elem_of {A : Type} (p : A -> bool) (l : list A) (a : A) :
  Array.findLast p l = Some a -> a ∈ l.
Proof.
  unfold Array.findLast. intros Hfind%find_elem_of.
  apply list_elem_of_In, in_rev. by apply list_elem_of_In.
Qed.

Lemma nonNegative_ext s s' :
  dailyLog s' = dailyLog s -> currentEnergy s' = currentEnergy s ->
  nonNegative s -> nonNegative s'.
Proof. unfold nonNegative. by intros -> ->. Qed.

Lemma startOfDayEnergy_nonneg s :
  nonNegative s -> (0 <= startOfDayEnergy s)%Qc.
Proof.
  intros [_ Hlog]. unfold startOfDayEnergy.
  destruct (Array.find _ (dailyLog s)) as [a|] eqn:Hfind; simpl.
  - apply find_elem_of in Hfind.
    by destruct (proj1 (Forall_forall _ _) Hlog a Hfind).
  - exact exact_one_nonneg.
Qed.

Lemma wholesomeRow_logEntryData s endTime :
  nonNegative s -> wholesomeRow (logEntryData s endTime).
Proof.
  intros Hs. split; simpl.
  - apply exact_toFixed_nonneg, exact_mul_nonneg.
    + by apply startOfDayEnergy_nonneg.
    + apply exact_growthFactor_nonneg. unfold totalMinutesToday. lia.
  - unfold totalMinutesToday. lia.
Qed.

Lemma wholesomeRow_skipLogData s :
  nonNegative s -> wholesomeRow (skipLogData s).
Proof.
  intros [Hen _]. split; simpl; [|done].
  by apply exact_toFixed_nonneg, exact_skip_nonneg.
Qed.

Lemma wholesomeRow_recalcEntry x e :
  (0 <= x)%Qc -> 0 <= minutes e -> wholesomeRow (recalcEntry x e).
Proof.
  intros Hx Hm. unfold recalcEntry.
  destruct (practice e); (split; simpl; [|done]).
  - apply exact_toFixed_nonneg, exact_mul_nonneg; [done|].
    by apply exact_growthFactor_nonneg.
  - by apply exact_toFixed_nonneg, exact_skip_nonneg.
Qed.

Lemma wholesomeRow_recalculate k (log rlog updates : list (DayEntry Qc)) :
  recalculate k log = Some (rlog, updates) ->
  Forall wholesomeRow log -> Forall wholesomeRow rlog.
Proof.
  intros Hrec Hlog.
  destruct (recalculate_lookup _ _ _ _ Hrec) as (Hlen & Hbefore & Hfrom & _).
  apply Forall_lookup. intros i.
  induction i as [i IH] using lt_wf_ind. intros a Ha.
  destruct (decide (i < k)%nat) as [Hi|Hi].
  - rewrite (Hbefore i Hi) in Ha.
    by apply (proj1 (Forall_lookup _ _) Hlog i).
  - assert (Hold : is_Some (log !! i)).
    { apply lookup_lt_is_Some. rewrite <- Hlen. by eapply lookup_lt_Some. }
    destruct Hold as [old Hold].
    rewrite (Hfrom i old ltac:(lia) Hold) in Ha. injection Ha as <-.
    destruct (proj1 (Forall_lookup _ _) Hlog i old Hold) as [_ Hm].
    apply wholesomeRow_recalcEntry; [|done].
    destruct i as [|j]; simpl; [exact exact_one_nonneg|].
    destruct (rlog !! j) as [b|] eqn:Hb; simpl; [|exact exact_one_nonneg].
    by destruct (IH j ltac:(lia) b Hb).
Qed.

Lemma energyAfterRecalculation_nonneg s (rlog : list (DayEntry Qc)) :
  Forall wholesomeRow rlog -> (0 <= energyAfterRecalculation s rlog)%Qc.
Proof.
  intros Hlog. unfold energyAfterRecalculation.
  destruct (Array.find _ rlog) as [a|] eqn:Hfind; simpl.
  - apply find_elem_of in Hfind.
    by destruct (proj1 (Forall_forall _ _) Hlog a Hfind).
  - destruct (Array.findLast _ rlog) as [a|] eqn:Hlast; simpl.
    + apply findLast_elem_of in Hlast.
      by destruct (proj1 (Forall_forall _ _) Hlog a Hlast).
    + exact exact_one_nonneg.
Qed.

Lemma wholesomeRow_logCopyWithEdit (log : list (DayEntry Qc)) k m :
  0 <= m -> Forall wholesomeRow log ->
  Forall wholesomeRow (logCopyWithEdit log k m).
Proof.
  intros Hm Hlog. apply Forall_lookup. intros i a.
  unfold logCopyWithEdit. rewrite imap_edit_lookup.
  destruct (log !! i) as [old|] eqn:Hold; simpl; [|done].
  destruct (proj1 (Forall_lookup _ _) Hlog i old Hold) as [Hen Hmin].
  intros [= <-]. by destruct (i =? k)%nat.
Qed.

Lemma nonNegative_handleEditMinutes s d str db :
  nonNegative s -> nonNegative (handleEditMinutes s d str db).1.
Proof.
  intros Hs. unfold handleEditMinutes.
  destruct (parseInt str) as [m|]; [|done].
  destruct (Z.ltb_spec m 0) as [|Hm]; [done|].
  destruct (Array.findIndex _ (dailyLog s)) as [k|]; [|done].
  destruct (dailyLog s !! k) as [target|]; [|done].
  destruct (practice target); simpl; [|done].
  destruct (minutes target =? m); [done|].
  unfold recalculateEnergyFromDay.
  destruct (recalculate k _) as [[rlog updates]|] eqn:Hrec; simpl; [|done].
  assert (Hrlog : Forall wholesomeRow rlog).
  { apply (wholesomeRow_recalculate _ _ _ _ Hrec).
    apply wholesomeRow_logCopyWithEdit; [done|]. by destruct Hs. }
  assert (Hcommit : forall s', dailyLog s' = rlog ->
                               currentEnergy s'
                               = energyAfterRecalculation s rlog ->
                               nonNegative s').
  { intros s' Hlog Hen. split; [|by rewrite Hlog].
    rewrite Hen. by apply energyAfterRecalculation_nonneg. }
  destruct updates; simpl; [by apply Hcommit|].
  destruct db; simpl; [by apply Hcommit|done|done].
Qed.

Lemma nonNegative_step s op :
  wholesomeOp op -> nonNegative s -> nonNegative (step s op).
Proof.
  intros Hop Hs.
  destruct op as [r|confirmed db|now|now|endTime db|db| |d'|d' str db]; simpl.
  - destruct r as [[|item data]| |]; try (split; [exact exact_one_nonneg|done]).
    simpl in Hop. split; [|done]. simpl.
    assert (Hin : List.last (item :: data) item ∈ item :: data).
    { apply (last_Some_elem_of (item :: data)).
      rewrite last_lookup. by apply List_last_lookup. }
    by destruct (proj1 (Forall_forall _ _) Hop _ Hin).
  - unfold resetSimulation. destruct confirmed; simpl; [|done].
    destruct db; simpl; [|done|done]. split; [exact exact_one_nonneg|done].
  - unfold timerTick. by destruct (_ && _).
  - unfold handleStartPractice. by destruct (isPracticing s).
  - unfold handleEndPractice. destruct (_ || _); [done|]. simpl. split; simpl.
    + apply exact_mul_nonneg; [by apply startOfDayEnergy_nonneg|].
      apply exact_growthFactor_nonneg. unfold totalMinutesToday. lia.
    + pose proof (wholesomeRow_logEntryData s endTime Hs) as Hentry.
      destruct Hs as [_ Hlog].
      destruct (Array.findIndex _ (dailyLog s)) as [i|].
      * by apply Forall_insert.
      * apply Forall_app. split; [done|]. by constructor.
  - unfold logSkippedDay. destruct (isPracticing s); [done|].
    destruct (accumulatedSecondsToday s >? 0); [done|]. simpl.
    pose proof (wholesomeRow_skipLogData s Hs) as Hentry.
    destruct Hs as [Hen Hlog]. split; simpl.
    + by apply exact_skip_nonneg.
    + apply Forall_app. split; [done|]. by constructor.
  - unfold advanceToNextDay. destruct (isPracticing s); [done|].
    pose proof (wholesomeRow_skipLogData s Hs) as Hentry.
    destruct Hs as [Hen Hlog].
    destruct (negb _); (split; simpl; [|]); try done.
    + by apply exact_skip_nonneg.
    + apply Forall_app. split; [done|]. by constructor.
  - done.
  - by apply nonNegative_handleEditMinutes.
Qed.

Lemma nonNegative_run (ops : list (Op Qc)) :
  Forall wholesomeOp ops -> nonNegative (run initialState ops).
Proof.
  intros Hops. unfold run.
  assert (Hinit : nonNegative initialState)
    by (split; [exact exact_one_nonneg|done]).
  revert Hinit. generalize (initialState (num := Qc)).
  induction Hops as [|op ops Hop _ IH]; intros s Hs; simpl; [done|].
  by apply IH, nonNegative_step.
Qed.

(** X10 - In exact arithmetic the energy is never negative: after any
    sequence of operations from the first render, the fetched rows
    having no negative energy and no negative minutes, the running
    energy is not negative, and no entry of the log has a negative
    energy or negative minutes. *)
Theorem energy_is_never_negative (ops : list (Op Qc)) :
  Forall wholesomeOp ops ->
  let s := run initialState ops in
  (0 <= currentEnergy s)%Qc
  /\ forall e, e ∈ dailyLog s -> (0 <= energy e)%Qc /\ 0 <= minutes e.
Proof.
  intros Hops s. destruct (nonNegative_run ops Hops) as [Hen Hlog].
  split; [done|]. intros e He.
  exact (proj1 (Forall_forall _ _) Hlog e He).
Qed.

(** X11 - In exact arithmetic a longer practice never gives less: in a
    state reached from the first render, the fetched rows having no
    negative energy and no negative minutes, ending the practice later
    gives a running energy, an energy stored in the entry of the day
    and minutes of the day that are not below those of ending it
    earlier. *)
Theorem longer_practice_never_gives_less (ops : list (Op Qc))
    (endTime endTime' : Z) (db db' : DbResult) :
  Forall wholesomeOp ops -> endTime <= endTime' ->
  let s := run initialState ops in
  (currentEnergy (handleEndPractice s endTime db).1
   <= currentEnergy (handleEndPractice s endTime' db').1)%Qc
  /\ (energy (logEntryData s endTime) <= energy (logEntryData s endTime'))%Qc
  /\ minutes (logEntryData s endTime) <= minutes (logEntryData s endTime').
Proof.
  intros Hops Hle s.
  pose proof (nonNegative_run ops Hops) as Hs. fold s in Hs.
  pose proof (startOfDayEnergy_nonneg s Hs) as Hstart.
  assert (Hmin : totalMinutesToday s endTime <= totalMinutesToday s endTime').
  { unfold totalMinutesToday, newAccumulatedSeconds, Math_round_div.
    apply Z.max_le_compat_l.
    apply Z.div_le_mono; [lia|].
    assert ((endTime - default 0 (startTime s)) / 1000
            <= (endTime' - default 0 (startTime s)) / 1000)
      by (apply Z.div_le_mono; lia).
    lia. }
  assert (Hmul : ((startOfDayEnergy s
                   * calculateGrowthFactor (ofZ (totalMinutesToday s endTime)))%num
                  <= (startOfDayEnergy s
                      * calculateGrowthFactor
                          (ofZ (totalMinutesToday s endTime')))%num)%Qc).
  { apply exact_mul_le_compat_l; [done|]. by apply exact_growthFactor_mono. }
  split_and!.
  - unfold handleEndPractice.
    destruct (_ || _); simpl; [apply Qcle_refl|done].
  - simpl. apply exact_toFixed_mono; [|done].
    apply exact_mul_nonneg; [done|].
    apply exact_growthFactor_nonneg. unfold totalMinutesToday. lia.
  - done.
Qed.

End NonNegative.

Lemma energy_is_never_negative_witness :
  Forall wholesomeOp exactPractice
  /\ (0 <= currentEnergy (run initialState exactPractice))%Qc.
Proof.
  assert (Hops : Forall wholesomeOp exactPractice)
    by (repeat constructor).
  split; [exact Hops|].
  exact (proj1 (energy_is_never_negative exactPractice Hops)).
Defined.

Lemma longer_practice_never_gives_less_witness :
  Forall wholesomeOp (take 2 exactPractice)
  /\ 1801000 <= 3601000
  /\ (currentEnergy
        (handleEndPractice (run initialState (take 2 exactPractice))
           1801000 DbOk).1
      <= currentEnergy
           (handleEndPractice (run initialState (take 2 exactPractice))
              3601000 DbOk).1)%Qc.
Proof.
  assert (Hops : Forall wholesomeOp (take 2 exactPractice))
    by (repeat constructor).
  assert (Hle : 1801000 <= 3601000) by lia.
  split; [exact Hops|]. split; [exact Hle|].
  exact (proj1 (longer_practice_never_gives_less (take 2 exactPractice)
                  1801000 3601000 DbOk DbOk Hops Hle)).
Defined.

(** *** What is displayed *)

Section Progress.

Lemma binary64_ge_150_100 (p : float) :
  numGe p (ofZ 150) = true -> numGe p (ofZ 100) = true.
Proof.
  change (PrimFloat.leb 150 p = true -> PrimFloat.leb 100 p = true).
  rewrite !leb_spec. unfold SFleb, SFcompare.
  change (Prim2SF 150) with (S754_finite false 5277655813324800 (-45)).
  change (Prim2SF 100) with (S754_finite false 7036874417766400 (-46)).
  destruct (Prim2SF p) as [[|]|[|]| |[|] m e]; try done.
  destruct (Z.compare_spec (-45) e) as [<-|Hlt|Hgt]; [done| |done].
  intros _. destruct (Z.compare_spec (-46) e); [lia|done|lia].
Qed.

(** X12 - The colour of the progress bar and the message under it go
    together, whatever the running energy is (not a number included):
    the full green goes with the two messages of a goal reached, the red
    with the two messages of less than a quarter, and each colour in
    between with one message. *)
Theorem progress_message_goes_with_colour (s : State float) :
  let colour := getProgressColor s in
  let message := getProgressMessage s in
  (colour = "bg-green-500"%string
   <-> message = "Extraordinary Mastery!"%string
       \/ message = "Goal Achieved!"%string)
  /\ (colour = "bg-green-400"%string <-> message = "Excellent Progress"%string)
  /\ (colour = "bg-yellow-400"%string <-> message = "Good Progress"%string)
  /\ (colour = "bg-yellow-500"%string
      <-> message = "Building Foundation"%string)
  /\ (colour = "bg-red-500"%string
      <-> message = "Beginning Journey"%string
          \/ message = "Start Your Practice"%string).
Proof.
  unfold getProgressColor, getProgressMessage.
  pose proof (binary64_ge_150_100 (percentComplete s)) as Hdown.
  destruct (numGe (percentComplete s) (ofZ 150)) eqn:H150.
  { rewrite (Hdown eq_refl).
    split_and!; split; try discriminate; try (intros [?|?]; discriminate);
      auto. }
  clear Hdown.
  destruct (numGe (percentComplete s) (ofZ 100));
    [|destruct (numGe (percentComplete s) (ofZ 75));
      [|destruct (numGe (percentComplete s) (ofZ 50));
        [|destruct (numGe (percentComplete s) (ofZ 25));
          [|destruct (numGt (percentComplete s) (ofZ 0))]]]];
    split_and!; split; try discriminate; try (intros [?|?]; discriminate);
      auto.
Qed.

End Progress.

Section Clock.

Lemma padStart_two_digits (n : Z) :
  0 <= n < 100 ->
  exists a b,
    padStart 2 "0" (toStringZ n) = String a (String b EmptyString)
    /\ parseInt (String a (String b EmptyString)) = Some n.
Proof.
  intros Hn.
  set (check := fun n : Z =>
         match padStart 2 "0" (toStringZ n) with
         | String a (String b EmptyString) =>
             match parseInt (String a (String b EmptyString)) with
             | Some k => k =? n
             | None => false
             end
         | _ => false
         end).
  assert (Hall : forallb check (map Z.of_nat (seq 0 100)) = true)
    by (vm_compute; reflexivity).
  assert (Hcheck : check n = true).
  { apply (proj1 (forallb_forall _ _) Hall).
    apply in_map_iff. exists (Z.to_nat n). split; [lia|].
    apply in_seq. lia. }
  unfold check in Hcheck.
  destruct (padStart 2 "0" (toStringZ n)) as [|a [|b [|c rest]]]; try done.
  exists a, b. split; [done|].
  destruct (parseInt (String a (String b EmptyString))) as [k|]; [|done].
  f_equal. lia.
Qed.

(** X13 - Under a hundred hours the stopwatch shows eight characters,
    two digits for the hours, the minutes and the seconds with a colon
    between them, and they read back as the seconds displayed: the
    minutes and the seconds are below sixty, and hours, minutes and
    seconds add up to the seconds. *)
Theorem formatTime_reads_back (totalSeconds : Z) :
  0 <= totalSeconds < 360000 ->
  let shown := formatTime totalSeconds in
  String.length shown = 8%nat
  /\ String.get 2 shown = Some ":"%char
  /\ String.get 5 shown = Some ":"%char
  /\ exists hours minutes seconds,
       parseInt (substring 0 2 shown) = Some hours
       /\ parseInt (substring 3 2 shown) = Some minutes
       /\ parseInt (substring 6 2 shown) = Some seconds
       /\ 0 <= minutes < 60 /\ 0 <= seconds < 60
       /\ 3600 * hours + 60 * minutes + seconds = totalSeconds.
Proof.
  intros Ht shown. unfold shown, formatTime.
  set (hours := totalSeconds / 3600).
  set (minutes := Z.rem totalSeconds 3600 / 60).
  set (seconds := Z.rem totalSeconds 60).
  assert (Hrem : Z.rem totalSeconds 3600 = totalSeconds mod 3600)
    by (apply Z.rem_mod_nonneg; lia).
  assert (Hrem' : Z.rem totalSeconds 60 = totalSeconds mod 60)
    by (apply Z.rem_mod_nonneg; lia).
  assert (Hh : 0 <= hours < 100).
  { unfold hours. split; [apply Z.div_pos; lia|].
    apply Z.div_lt_upper_bound; lia. }
  assert (Hm : 0 <= minutes < 60).
  { unfold minutes. rewrite Hrem.
    pose proof (Z.mod_pos_bound totalSeconds 3600 ltac:(lia)).
    split; [apply Z.div_pos; lia|apply Z.div_lt_upper_bound; lia]. }
  assert (Hs : 0 <= seconds < 60).
  { unfold seconds. rewrite Hrem'. apply Z.mod_pos_bound. lia. }
  assert (Hsum : 3600 * hours + 60 * minutes + seconds = totalSeconds).
  { unfold hours, minutes, seconds. rewrite Hrem, Hrem'.
    Z.div_mod_to_equations. lia. }
  destruct (padStart_two_digits hours ltac:(lia)) as (h1 & h0 & -> & Hph).
  destruct (padStart_two_digits minutes ltac:(lia)) as (m1 & m0 & -> & Hpm).
  destruct (padStart_two_digits seconds ltac:(lia)) as (s1 & s0 & -> & Hps).
  simpl. split_and!; [done..|].
  by exists hours, minutes, seconds.
Qed.

End Clock.

Lemma formatTime_reads_back_witness :
  0 <= 3725 < 360000 /\ String.length (formatTime 3725) = 8%nat.
Proof.
  assert (Ht : 0 <= 3725 < 360000) by lia.
  split; [exact Ht|].
  exact (proj1 (formatTime_reads_back 3725 Ht)).
Defined.

(** *** The simulator of the first version *)

Section SimulatorRuns.

Context {num : Type} `{JsNumber num}.
Implicit Types (s : Simulator.State num) (e : DayEntry num).

Lemma consecutiveDays_snoc s s' e :
  Simulator.dailyLog s' = Simulator.dailyLog s ++ [e] ->
  Simulator.currentDay s' = Simulator.currentDay s + 1 ->
  day e = Simulator.currentDay s ->
  Simulator.consecutiveDays s -> Simulator.consecutiveDays s'.
Proof.
  intros Hlog Hcd Hday [Hlen Hdays]. unfold Simulator.consecutiveDays.
  rewrite Hlog, Hcd, length_app. simpl. split; [lia|].
  intros i x Hi.
  destruct (decide (i < length (Simulator.dailyLog s))%nat) as [Hlt|Hge].
  - rewrite lookup_app_l in Hi by done. by apply Hdays.
  - pose proof (lookup_lt_Some _ _ _ Hi) as Hbound.
    rewrite length_app in Hbound. simpl in Hbound.
    assert (i = length (Simulator.dailyLog s)) as -> by lia.
    rewrite list_lookup_middle in Hi by done. injection Hi as <-. lia.
Qed.

Lemma replay_snoc (log : list (DayEntry num)) e :
  Simulator.replay (log ++ [e])
  = Simulator.replayDay (Simulator.replay log) e.
Proof. unfold Simulator.replay. by rewrite fold_left_app. Qed.

Lemma energyReplaysLog_snoc s s' e :
  Simulator.dailyLog s' = Simulator.dailyLog s ++ [e] ->
  Simulator.currentEnergy s'
  = Simulator.replayDay (Simulator.currentEnergy s) e ->
  energy e = toFixed (Simulator.replayDay (Simulator.currentEnergy s) e) 2 ->
  Simulator.energyReplaysLog s -> Simulator.energyReplaysLog s'.
Proof.
  intros Hlog Hen Hstored [Hrun Hentries]. unfold Simulator.energyReplaysLog.
  rewrite Hlog, Hen, replay_snoc, <- Hrun. split; [done|].
  intros i x Hi.
  destruct (decide (i < length (Simulator.dailyLog s))%nat) as [Hlt|Hge].
  - rewrite lookup_app_l in Hi by done.
    rewrite take_app_le by lia. by apply Hentries.
  - pose proof (lookup_lt_Some _ _ _ Hi) as Hbound.
    rewrite length_app in Hbound. simpl in Hbound.
    assert (i = length (Simulator.dailyLog s)) as -> by lia.
    rewrite list_lookup_middle in Hi by done. injection Hi as <-.
    rewrite take_ge by (rewrite length_app; simpl; lia).
    by rewrite replay_snoc, <- Hrun.
Qed.

Lemma simulator_step_keeps s op :
  Simulator.consecutiveDays s /\ Simulator.energyReplaysLog s ->
  Simulator.consecutiveDays (Simulator.step s op)
  /\ Simulator.energyReplaysLog (Simulator.step s op).
Proof.
  intros [Hdays Hen]. destruct op; simpl; try done.
  - unfold Simulator.logPracticeDay.
    destruct (Simulator.didPracticeToday s); [done|]. split.
    + by apply (consecutiveDays_snoc s _ (Simulator.practiceLog s)).
    + by apply (energyReplaysLog_snoc s _ (Simulator.practiceLog s)).
  - unfold Simulator.logSkippedDay.
    destruct (Simulator.didPracticeToday s); [done|]. split.
    + by apply (consecutiveDays_snoc s _ (Simulator.skipLog s)).
    + by apply (energyReplaysLog_snoc s _ (Simulator.skipLog s)).
Qed.

Lemma simulator_run_keeps s (ops : list Simulator.Op) :
  Simulator.consecutiveDays s /\ Simulator.energyReplaysLog s ->
  Simulator.consecutiveDays (Simulator.run s ops)
  /\ Simulator.energyReplaysLog (Simulator.run s ops).
Proof.
  unfold Simulator.run. revert s.
  induction ops as [|op ops IH]; intros s Hs; simpl; [done|].
  by apply IH, simulator_step_keeps.
Qed.

Lemma simulator_initialState_keeps :
  Simulator.consecutiveDays (Simulator.initialState (num := num))
  /\ Simulator.energyReplaysLog (Simulator.initialState (num := num)).
Proof. split; (split; [done|]); by intros i e ?. Qed.

(** X14 - In the simulator the days are logged one after another:
    after any sequence of inputs and buttons from the first render, the
    log holds the days 1, 2, ... in order, one entry each, and the
    current day is the one after the last; [nextDay] only brings the
    buttons back. *)
Theorem simulator_days_count_up (ops : list Simulator.Op) :
  let s := Simulator.run Simulator.initialState ops in
  Simulator.currentDay s = Z.of_nat (length (Simulator.dailyLog s)) + 1
  /\ (forall i e,
        Simulator.dailyLog s !! i = Some e -> day e = Z.of_nat i + 1)
  /\ Simulator.dailyLog (Simulator.nextDay s) = Simulator.dailyLog s
  /\ Simulator.currentDay (Simulator.nextDay s) = Simulator.currentDay s
  /\ Simulator.currentEnergy (Simulator.nextDay s) = Simulator.currentEnergy s.
Proof.
  intros s.
  destruct (simulator_run_keeps _ ops simulator_initialState_keeps)
    as [[Hcd Hdays] _].
  by split_and!.
Qed.

(** X15 - In the simulator the running energy is a pure compounding of
    the log: after any sequence of inputs and buttons from the first
    render it is what replaying the log from the energy 1 gives, a
    practice day multiplying by the growth factor of its minutes and a
    skipped day taking a tenth away; and each entry stores the rounding
    to two decimals of the replay up to it, the rounding never entering
    the running energy. *)
Theorem simulator_energy_replays_log (ops : list Simulator.Op) :
  let s := Simulator.run Simulator.initialState ops in
  Simulator.currentEnergy s = Simulator.replay (Simulator.dailyLog s)
  /\ forall i e,
       Simulator.dailyLog s !! i = Some e ->
       energy e
       = toFixed (Simulator.replay (take (S i) (Simulator.dailyLog s))) 2.
Proof.
  intros s.
  by destruct (simulator_run_keeps _ ops simulator_initialState_keeps)
    as [_ Hen].
Qed.

End SimulatorRuns.

(** *** The simulator in exact arithmetic *)

Section SimulatorExact.

Implicit Types (s : Simulator.State Qc) (x y : Qc).

Lemma exact_mul_pos x y : (0 < x)%Qc -> (0 < y)%Qc -> (0 < (x * y)%num)%Qc.
Proof.
  intros Hx Hy. change (x * y)%num with (x * y)%Qc.
  pose proof (Qcmult_lt_compat_r 0 x y Hy Hx) as Hlt.
  by rewrite Qcmult_0_l in Hlt.
Qed.

Lemma exact_mul_pos_neg x y : (0 < x)%Qc -> (y < 0)%Qc -> ((x * y)%num < 0)%Qc.
Proof.
  intros Hx Hy. change (x * y)%num with (x * y)%Qc.
  pose proof (Qcmult_lt_compat_r y 0 x Hx Hy) as Hlt.
  by rewrite Qcmult_0_l, Qcmult_comm in Hlt.
Qed.

Lemma simulator_growthFactor (m : Z) :
  Simulator.calculateGrowthFactor (ofZ m : Qc)
  = decimal (995776 + 1418 * m) 6.
Proof. exact (exact_growthFactor_ofZ m). Qed.

Lemma simulator_skip_pos x :
  (0 < x)%Qc -> (0 < (x - x * Simulator.dailyEnergyLoss)%num)%Qc.
Proof.
  intros Hx.
  change (0 < (x - x * dailyEnergyLoss (num := Qc))%num)%Qc.
  rewrite exact_skip_factor. by apply exact_mul_pos.
Qed.

Lemma commonDurations_nonneg (duration : Z) :
  duration ∈ Simulator.commonDurations -> 0 <= duration.
Proof.
  unfold Simulator.commonDurations. intros Hin.
  repeat (apply elem_of_cons in Hin as [->|Hin]; [lia|]).
  by apply elem_of_nil in Hin.
Qed.

Lemma simulator_positive_step s (op : Simulator.Op) :
  Simulator.offeredOp op ->
  (0 < Simulator.currentEnergy s)%Qc /\ 0 <= Simulator.practiceMinutes s ->
  (0 < Simulator.currentEnergy (Simulator.step s op))%Qc
  /\ 0 <= Simulator.practiceMinutes (Simulator.step s op).
Proof.
  intros Hop [Hen Hmin]. destruct op; simpl in *; try done.
  - split; [done|]. by apply commonDurations_nonneg.
  - unfold Simulator.logPracticeDay.
    destruct (Simulator.didPracticeToday s); [done|].
    cbn [Simulator.currentEnergy Simulator.practiceMinutes].
    split; [|done]. apply exact_mul_pos; [done|].
    rewrite simulator_growthFactor.
    apply (Qclt_le_trans _ (decimal 1 6)); [done|].
    apply exact_decimal_le. lia.
  - unfold Simulator.logSkippedDay.
    destruct (Simulator.didPracticeToday s); [done|].
    cbn [Simulator.currentEnergy Simulator.practiceMinutes].
    split; [|done]. by apply simulator_skip_pos.
Qed.

(** X16 - In exact arithmetic the energy of the simulator stays above
    zero: after any sequence of inputs and buttons from the first
    render, no negative minutes being typed and the quick-select buttons
    being those of [commonDurations], the running energy is positive:
    it is never rounded, so that no number of skipped days brings it to
    zero. *)
Theorem simulator_energy_stays_positive (ops : list Simulator.Op) :
  Forall Simulator.offeredOp ops ->
  let s := Simulator.run (Simulator.initialState (num := Qc)) ops in
  (0 < Simulator.currentEnergy s)%Qc /\ 0 <= Simulator.practiceMinutes s.
Proof.
  intros Hops. unfold Simulator.run. simpl.
  assert (Hinit : (0 < Simulator.currentEnergy
                         (Simulator.initialState (num := Qc)))%Qc
                  /\ 0 <= Simulator.practiceMinutes
                            (Simulator.initialState (num := Qc)))
    by (split; [done|simpl; lia]).
  revert Hinit. generalize (Simulator.initialState (num := Qc)).
  induction Hops as [|op ops Hop _ IH]; intros s Hs; simpl; [done|].
  by apply IH, simulator_positive_step.
Qed.

Lemma parseUnsigned_decimal (digits : string) (m : Z) :
  parseDigits None digits = Some m -> m <> 0 ->
  Simulator.parseUnsigned digits = Some m.
Proof.
  intros Hparse Hm. unfold Simulator.parseUnsigned.
  destruct digits as [|c [|x digits]]; [done..|].
  destruct (Ascii.eqb c "0" && (Ascii.eqb x "x" || Ascii.eqb x "X"))
    eqn:Hhex; [|done].
  apply andb_true_iff in Hhex as [->%Ascii.eqb_eq Hx].
  apply orb_true_iff in Hx as [->%Ascii.eqb_eq| ->%Ascii.eqb_eq];
    simpl in Hparse; injection Hparse as <-; done.
Qed.

(** Without a radix [parseInt] reads what follows [0x] as hexadecimal;
    everything else it reads as with the radix 10, and so every string
    whose decimal reading is not zero. *)
Lemma parseInt_without_radix (value : string) (n : Z) :
  parseInt value = Some n -> n <> 0 -> Simulator.parseInt value = Some n.
Proof.
  unfold parseInt, Simulator.parseInt. intros Hparse Hn.
  destruct (skipWhiteSpace value) as [|c rest];
    [exact (parseUnsigned_decimal _ _ Hparse Hn)|].
  destruct c as [[] [] [] [] [] [] [] []];
    try exact (parseUnsigned_decimal _ _ Hparse Hn).
  destruct (parseDigits None rest) as [m|] eqn:Hdigits; [|done].
  injection Hparse as <-.
  by rewrite (parseUnsigned_decimal rest m Hdigits ltac:(lia)).
Qed.

(** X17 - The number input of the simulator takes what is typed:
    [parseInt(value) || 1] replaces only what is not a number, and zero.
    When minutes of -703 or less are typed and the day is logged as
    practised, the growth factor is negative, and in exact arithmetic a
    positive energy becomes a negative one. *)
Theorem typed_negative_minutes_give_negative_energy s (value : string)
    (n : Z) :
  Simulator.parseInt value = Some n -> n <= -703 ->
  Simulator.didPracticeToday s = false ->
  (0 < Simulator.currentEnergy s)%Qc ->
  let s' :=
    Simulator.logPracticeDay (Simulator.step s (Simulator.OpInput value)) in
  Simulator.practiceMinutes s' = n
  /\ (Simulator.currentEnergy s' < 0)%Qc
  /\ exists e, last (Simulator.dailyLog s') = Some e /\ minutes e = n.
Proof.
  intros Hparse Hn Hp Hen s'.
  assert (Hinput : Simulator.inputMinutes value = n).
  { unfold Simulator.inputMinutes. rewrite Hparse.
    by destruct (Z.eqb_spec n 0) as [|_]; [lia|]. }
  set (s1 := Simulator.step s (Simulator.OpInput value)).
  assert (Hp1 : Simulator.didPracticeToday s1 = false) by done.
  assert (Hm1 : Simulator.practiceMinutes s1 = n) by done.
  assert (Hen1 : Simulator.currentEnergy s1 = Simulator.currentEnergy s)
    by done.
  unfold s', Simulator.logPracticeDay. fold s1. rewrite Hp1.
  cbn [Simulator.currentEnergy Simulator.practiceMinutes Simulator.dailyLog].
  rewrite Hm1, Hen1. split_and!; [done| |].
  - apply exact_mul_pos_neg; [done|].
    rewrite simulator_growthFactor.
    apply (Qcle_lt_trans _ (decimal (-1) 6)); [|done].
    apply exact_decimal_le. lia.
  - eexists. rewrite last_snoc. split; [done|]. done.
Qed.

End SimulatorExact.

Lemma simulator_energy_stays_positive_witness :
  Forall Simulator.offeredOp
    [Simulator.OpQuickSelect 30; Simulator.OpLogPracticeDay;
     Simulator.OpNextDay; Simulator.OpLogSkippedDay]
  /\ (0 < Simulator.currentEnergy
            (Simulator.run (Simulator.initialState (num := Qc))
               [Simulator.OpQuickSelect 30; Simulator.OpLogPracticeDay;
                Simulator.OpNextDay; Simulator.OpLogSkippedDay]))%Qc.
Proof.
  assert (Hops : Forall Simulator.offeredOp
                   [Simulator.OpQuickSelect 30; Simulator.OpLogPracticeDay;
                    Simulator.OpNextDay; Simulator.OpLogSkippedDay]).
  { repeat constructor. }
  split; [exact Hops|].
  exact (proj1 (simulator_energy_stays_positive _ Hops)).
Defined.

Lemma typed_negative_minutes_give_negative_energy_witness :
  Simulator.parseInt "-1000" = Some (-1000) /\ -1000 <= -703
  /\ (Simulator.currentEnergy
        (Simulator.logPracticeDay
           (Simulator.step (Simulator.initialState (num := Qc))
              (Simulator.OpInput "-1000"))) < 0)%Qc.
Proof.
  assert (Hparse : Simulator.parseInt "-1000" = Some (-1000)) by reflexivity.
  assert (Hn : -1000 <= -703) by lia.
  split; [exact Hparse|]. split; [exact Hn|].
  exact (proj1 (proj2 (typed_negative_minutes_give_negative_energy
                         Simulator.initialState "-1000"%string (-1000)
                         Hparse Hn eq_refl eq_refl))).
Defined.

(** *** The page while a save is waited for *)

Section PageRuns.

Context {num : Type} `{JsNumber num}.
Implicit Types (s : State num) (p : Page num) (e : DayEntry num).

(** The handlers in one step are their halves one after the other. *)
Lemma handleEndPractice_halves s endTime db :
  handleEndPractice s endTime db
  = match handleEndPracticeBeforeAwait s endTime with
    | Some (s', effects) =>
        ((handleEndPracticeAfterAwait s' db).1,
         effects ++ (handleEndPracticeAfterAwait s' db).2)
    | None => (s, [])
    end.
Proof.
  unfold handleEndPractice, handleEndPracticeBeforeAwait.
  by destruct (negb (isPracticing s) || negb (truthy (startTime s))).
Qed.

Lemma logSkippedDay_halves s db :
  logSkippedDay s db
  = match logSkippedDayBeforeAwait s with
    | Some (s', effects) =>
        ((logSkippedDayAfterAwait (currentDay s) s' db).1,
         effects ++ (logSkippedDayAfterAwait (currentDay s) s' db).2)
    | None => (s, [])
    end.
Proof.
  unfold logSkippedDay, logSkippedDayBeforeAwait.
  destruct (isPracticing s); [done|].
  by destruct (accumulatedSecondsToday s >? 0).
Qed.

Lemma renderInvariant_handleEndPracticeAfterAwait s db :
  renderInvariant s -> renderInvariant (handleEndPracticeAfterAwait s db).1.
Proof. by apply renderInvariant_sameEngine. Qed.

Lemma renderInvariant_handleEndPracticeBeforeAwait s s' effects endTime :
  handleEndPracticeBeforeAwait s endTime = Some (s', effects) ->
  renderInvariant s -> renderInvariant s'.
Proof.
  intros Hbefore Hinv.
  pose proof (renderInvariant_handleEndPractice s endTime DbOk Hinv) as Hend.
  rewrite handleEndPractice_halves, Hbefore in Hend.
  by apply (renderInvariant_sameEngine (handleEndPracticeAfterAwait s' DbOk).1).
Qed.

(** The first half of a skip that the page offers: the entry of the
    day is appended to a log that has none of the day. *)
Lemma logSkippedDayBeforeAwait_offered s s' effects :
  renderInvariant s -> offered s (OpSkipDay DbOk) = true ->
  logSkippedDayBeforeAwait s = Some (s', effects) ->
  dailyLog s' = dailyLog s ++ [skipLogData s]
  /\ currentDay s' = currentDay s
  /\ isLoading s' = isLoading s
  /\ isPracticing s' = false
  /\ accumulatedSecondsToday s' <= 0
  /\ currentEnergy s'
     = (currentEnergy s - currentEnergy s * dailyEnergyLoss)%num
  /\ strictlyOrderedByDay (dailyLog s')
  /\ forall e, e ∈ dailyLog s' -> day e <= currentDay s.
Proof.
  intros Hinv Hoff Hbefore.
  pose proof (renderInvariant_logSkippedDay s DbOk Hoff Hinv) as [Hord _].
  rewrite logSkippedDay_halves, Hbefore in Hord. simpl in Hord.
  unfold logSkippedDayBeforeAwait in Hbefore.
  destruct (isPracticing s) eqn:Hp; [done|].
  destruct (Z.gtb_spec (accumulatedSecondsToday s) 0) as [|Hacc]; [done|].
  injection Hbefore as <- _. simpl. split_and!; [done..|].
  intros e [He| ->%list_elem_of_singleton]%elem_of_app; [|done].
  by destruct (proj2 Hinv e He).
Qed.

Lemma logSkippedDayBeforeAwait_idle s :
  isPracticing s = false -> (accumulatedSecondsToday s >? 0) = false ->
  logSkippedDayBeforeAwait s
  = Some (s |> setDailyLog (dailyLog s ++ [skipLogData s])
            |> setCurrentEnergy
                 (currentEnergy s - currentEnergy s * dailyEnergyLoss)%num,
          [Insert (skipLogData s)]).
Proof. unfold logSkippedDayBeforeAwait. by intros -> ->. Qed.

Lemma handleEndPracticeBeforeAwait_running s endTime :
  isPracticing s = true -> truthy (startTime s) = true ->
  handleEndPracticeBeforeAwait s endTime
  = Some (s |> setCurrentEnergy
                 (startOfDayEnergy s
                  * calculateGrowthFactor
                      (ofZ (totalMinutesToday s endTime)))%num
            |> setAccumulatedSecondsToday (newAccumulatedSeconds s endTime)
            |> setDailyLog
                 match Array.findIndex (fun x => day x =? currentDay s)
                         (dailyLog s) with
                 | Some logIndex =>
                     <[logIndex := logEntryData s endTime]> (dailyLog s)
                 | None => dailyLog s ++ [logEntryData s endTime]
                 end,
          [Upsert [logEntryData s endTime]]).
Proof. unfold handleEndPracticeBeforeAwait. by intros -> ->. Qed.

Lemma pageInvariant_step p (ev : Event num) :
  uniqueEvent ev -> offeredEvent p ev = true -> patient p ev = true ->
  pageInvariant p -> pageInvariant (pageStep p ev).
Proof.
  destruct p as [s waits]. unfold pageInvariant. simpl.
  intros Hunique Hoff Hpatient Hinv.
  destruct waits as [|[|currentDay'] [|pending waits]]; try done.
  - (* nothing is waited for *)
    destruct ev as [op|endTime| |i db]; simpl in *.
    + by apply renderInvariant_step.
    + destruct (handleEndPracticeBeforeAwait s endTime) as [[s' effects]|]
        eqn:Hbefore; simpl; [|done].
      by apply (renderInvariant_handleEndPracticeBeforeAwait s s' effects endTime).
    + destruct (logSkippedDayBeforeAwait s) as [[s' effects]|] eqn:Hbefore;
        simpl; [|done].
      by exists s, effects.
    + done.
  - (* the upsert of a practice is waited for *)
    destruct ev as [op|endTime| |[|i] db]; simpl in *; try done;
      by apply renderInvariant_handleEndPracticeAfterAwait.
  - (* the insert of a skipped day is waited for *)
    destruct ev as [op|endTime| |[|i] db]; simpl in *; try done.
    destruct Hinv as (s0 & effects & Hinv0 & Hoff0 & Hbefore & ->).
    pose proof (renderInvariant_logSkippedDay s0 db Hoff0 Hinv0) as Hskip.
    by rewrite logSkippedDay_halves, Hbefore in Hskip.
Qed.

Lemma pageInvariant_run p (evs : list (Event num)) :
  Forall uniqueEvent evs -> patientRun p evs ->
  pageInvariant p -> pageInvariant (pageRun p evs).
Proof.
  intros Hevs. revert p. unfold pageRun.
  induction Hevs as [|ev evs Hev _ IH]; intros p Hrun Hinv; simpl; [done|].
  destruct Hrun as (Hoff & Hpatient & Hrest).
  apply IH; [done|]. by apply pageInvariant_step.
Qed.

(** The operations run to their end one after the other are a run of
    the page in which nothing is ever waited for. *)
Lemma pageRun_atomic p (ops : list (Op num)) :
  pageRun p (EvOp <$> ops)
  = {| rendered := run (rendered p) ops; awaited := awaited p |}.
Proof.
  unfold pageRun, run. revert p.
  induction ops as [|op ops IH]; intros p; simpl; [by destruct p|].
  by rewrite IH.
Qed.

Lemma patientRun_atomic p (ops : list (Op num)) :
  awaited p = [] -> offeredRun (rendered p) ops ->
  patientRun p (EvOp <$> ops).
Proof.
  revert p. induction ops as [|op ops IH]; intros p Hwait Hrun; simpl; [done|].
  destruct Hrun as [Hoff Hrest]. rewrite Hwait. split_and!; [done|done|].
  by apply IH.
Qed.

(** X2 - In every run of the page from the first render in which each
    event is one the page offers at that moment (a button that is shown
    and not disabled, an input that is shown, an answer that is waited
    for), in which nothing but the answer happens while the save of a
    practice or of a skipped day is waited for, and in which the rows
    of a fetch hold one row per day in day order, the log has one entry
    per day, in the order of the days; no entry is of a later day than
    the current one, and, when no save is waited for, an entry of the
    current day is a practice entry. *)
Theorem rendered_runs_keep_one_entry_per_day (evs : list (Event num)) :
  Forall uniqueEvent evs ->
  patientRun initialPage evs ->
  let p := pageRun initialPage evs in
  let s := rendered p in
  (forall i j a b,
      (i < j)%nat -> dailyLog s !! i = Some a -> dailyLog s !! j = Some b ->
      day a < day b)
  /\ (forall e, e ∈ dailyLog s ->
        day e <= currentDay s
        /\ (awaited p = [] -> day e = currentDay s -> practice e = true)).
Proof.
  intros Hevs Hrun p s.
  assert (Hinit : pageInvariant (initialPage (num := num)))
    by (split; [by intros i j a b ? ?|by intros e ?%elem_of_nil]).
  pose proof (pageInvariant_run _ evs Hevs Hrun Hinit) as Hinv.
  fold p in Hinv. unfold pageInvariant in Hinv. fold s in Hinv.
  destruct (awaited p) as [|[|currentDay'] [|pending waits]]; try done.
  - destruct Hinv as [Hord Hle]. split; [done|].
    intros e He. destruct (Hle e He). by split.
  - destruct Hinv as [Hord Hle]. split; [done|].
    intros e He. destruct (Hle e He). by split.
  - destruct Hinv as (s0 & effects & Hinv0 & Hoff0 & Hbefore & _).
    destruct (logSkippedDayBeforeAwait_offered s0 s effects Hinv0 Hoff0 Hbefore)
      as (_ & Hcd & _ & _ & _ & _ & Hord & Hle).
    split; [done|]. intros e He. rewrite Hcd. split; [by apply Hle|done].
Qed.

Lemma existsb_snoc_false {A : Type} (f : A -> bool) (l : list A) (x : A) :
  f x = false -> existsb f (l ++ [x]) = existsb f l.
Proof. intros Hx. rewrite existsb_app. simpl. rewrite Hx. by rewrite !orb_false_r. Qed.

(** X18 - While the insert of a skipped day is waited for, the page
    still offers the skip button: the log has the skip entry of the day
    but the day has not advanced.  A second click appends a second skip
    entry of the same day, taking a tenth of the energy once more; when
    both inserts have answered, in either order and whatever they
    answer, the day has advanced once, and the log holds two entries of
    one day. *)
Theorem second_skip_click_logs_the_day_twice s (i : nat) (db db' : DbResult) :
  offered s (OpSkipDay DbOk) = true ->
  (i < 2)%nat ->
  let p1 := pageStep {| rendered := s; awaited := [] |} EvSkipDay in
  let p :=
    pageRun {| rendered := s; awaited := [] |}
      [EvSkipDay; EvSkipDay; EvAnswer i db; EvAnswer 0 db'] in
  offeredEvent p1 EvSkipDay = true
  /\ dailyLog (rendered p)
     = dailyLog s ++ [skipLogData s; skipLogData (rendered p1)]
  /\ day (skipLogData s) = currentDay s
  /\ day (skipLogData (rendered p1)) = currentDay s
  /\ currentDay (rendered p) = currentDay s + 1
  /\ currentEnergy (rendered p1)
     = (currentEnergy s - currentEnergy s * dailyEnergyLoss)%num
  /\ currentEnergy (rendered p)
     = (currentEnergy (rendered p1)
        - currentEnergy (rendered p1) * dailyEnergyLoss)%num
  /\ awaited p = [].
Proof.
  intros Hoff Hi p1 p. pose proof Hoff as Hoff'. simpl in Hoff'.
  apply andb_true_iff in Hoff' as [Hoff' Hidle].
  apply andb_true_iff in Hoff' as [Hload Hnone].
  apply negb_true_iff in Hidle, Hnone.
  apply orb_false_iff in Hidle as [Hp Hacc].
  set (s1 := s |> setDailyLog (dailyLog s ++ [skipLogData s])
               |> setCurrentEnergy
                    (currentEnergy s - currentEnergy s * dailyEnergyLoss)%num).
  set (s2 := s1 |> setDailyLog (dailyLog s1 ++ [skipLogData s1])
                |> setCurrentEnergy
                     (currentEnergy s1 - currentEnergy s1 * dailyEnergyLoss)%num).
  assert (Hp1 : p1 = {| rendered := s1;
                        awaited := [PendingInsert (currentDay s)] |}).
  { unfold p1, pageStep. cbn [rendered awaited].
    by rewrite (logSkippedDayBeforeAwait_idle s Hp Hacc). }
  assert (Hp2 : pageStep p1 EvSkipDay
                = {| rendered := s2;
                     awaited := [PendingInsert (currentDay s);
                                 PendingInsert (currentDay s)] |}).
  { rewrite Hp1. unfold pageStep. cbn [rendered awaited].
    by rewrite (logSkippedDayBeforeAwait_idle s1 Hp Hacc). }
  assert (Hoff1 : offeredEvent p1 EvSkipDay = true).
  { rewrite Hp1. cbn [offeredEvent rendered offered].
    change (isLoading s1) with (isLoading s).
    change (isPracticing s1) with (isPracticing s).
    change (accumulatedSecondsToday s1) with (accumulatedSecondsToday s).
    rewrite Hload, Hp, Hacc.
    assert (hasPracticedToday s1 = false) as ->; [|done].
    unfold hasPracticedToday, Array.some in *.
    change (dailyLog s1) with (dailyLog s ++ [skipLogData s]).
    change (currentDay s1) with (currentDay s).
    rewrite existsb_snoc_false; [done|]. apply andb_false_r. }
  assert (Hp4 : p = {| rendered :=
                         (logSkippedDayAfterAwait (currentDay s)
                            (logSkippedDayAfterAwait (currentDay s) s2 db).1
                            db').1;
                       awaited := [] |}).
  { unfold p, pageRun. cbn [fold_left]. fold p1. rewrite Hp2.
    unfold pageStep. cbn [rendered awaited].
    destruct i as [|[|i]]; [| |lia]; simpl; reflexivity. }
  split; [exact Hoff1|].
  rewrite Hp4, Hp1. cbn [rendered awaited].
  split.
  { change (dailyLog s2 = dailyLog s ++ [skipLogData s; skipLogData s1]).
    change (dailyLog s2) with ((dailyLog s ++ [skipLogData s]) ++ [skipLogData s1]).
    by rewrite <- app_assoc. }
  by split_and!.
Qed.

(** X19 - While the upsert of a practice is waited for, the page still
    shows the pause button, and the seconds of the interval are already
    added to those of the day.  A second click adds the seconds since
    the start once more: the interval up to the first click is counted
    twice, in the seconds of the day and in the minutes of the entry
    of the day. *)
Theorem second_pause_click_counts_the_interval_twice s (st endTime endTime' : Z)
    (db db' : DbResult) :
  isLoading s = false -> isPracticing s = true ->
  startTime s = Some st -> st <> 0 ->
  let p1 := pageStep {| rendered := s; awaited := [] |} (EvEndPractice endTime) in
  let p :=
    pageRun {| rendered := s; awaited := [] |}
      [EvEndPractice endTime; EvEndPractice endTime';
       EvAnswer 0 db; EvAnswer 0 db'] in
  let seconds :=
    accumulatedSecondsToday s
    + (endTime - st) / 1000 + (endTime' - st) / 1000 in
  offeredEvent p1 (EvEndPractice endTime') = true
  /\ accumulatedSecondsToday (rendered p) = seconds
  /\ accumulatedSecondsToday
       (handleEndPractice s endTime' db').1
     = accumulatedSecondsToday s + (endTime' - st) / 1000
  /\ (exists e,
        e ∈ dailyLog (rendered p)
        /\ day e = currentDay s
        /\ minutes e = Z.max 1 (Math_round_div seconds 60))
  /\ isPracticing (rendered p) = false
  /\ awaited p = [].
Proof.
  intros Hload Hp Hst Hst0 p1 p seconds.
  assert (Htruthy : truthy (startTime s) = true).
  { rewrite Hst. simpl. by destruct (Z.eqb_spec st 0). }
  pose proof (handleEndPracticeBeforeAwait_running s endTime Hp Htruthy)
    as Hbefore.
  set (s1 := s |> setCurrentEnergy _ |> setAccumulatedSecondsToday _
               |> setDailyLog _) in Hbefore.
  assert (Hp1 : p1 = {| rendered := s1; awaited := [PendingUpsert] |}).
  { unfold p1, pageStep. cbn [rendered awaited]. by rewrite Hbefore. }
  assert (Hload1 : isLoading s1 = false) by done.
  assert (Hpr1 : isPracticing s1 = true) by done.
  assert (Hst1 : startTime s1 = Some st) by done.
  assert (Hacc1 : accumulatedSecondsToday s1
                  = accumulatedSecondsToday s + (endTime - st) / 1000).
  { change (accumulatedSecondsToday s1) with (newAccumulatedSeconds s endTime).
    unfold newAccumulatedSeconds. by rewrite Hst. }
  assert (Htruthy1 : truthy (startTime s1) = true) by done.
  pose proof (handleEndPracticeBeforeAwait_running s1 endTime' Hpr1 Htruthy1)
    as Hbefore1.
  set (s2 := s1 |> setCurrentEnergy _ |> setAccumulatedSecondsToday _
                |> setDailyLog _) in Hbefore1.
  assert (Hoff1 : offeredEvent p1 (EvEndPractice endTime') = true).
  { rewrite Hp1. cbn [offeredEvent rendered offered]. by rewrite Hload1, Hpr1. }
  assert (Hfinal : p = {| rendered :=
                            (handleEndPracticeAfterAwait
                               (handleEndPracticeAfterAwait s2 db).1 db').1;
                          awaited := [] |}).
  { unfold p, pageRun. cbn [fold_left]. fold p1. rewrite Hp1.
    unfold pageStep. cbn [rendered awaited]. by rewrite Hbefore1. }
  assert (Hseconds : newAccumulatedSeconds s1 endTime' = seconds).
  { unfold newAccumulatedSeconds, seconds. rewrite Hacc1, Hst1. simpl. lia. }
  rewrite Hfinal. cbn [rendered awaited].
  split_and!; [done| | | |done|done].
  - exact Hseconds.
  - rewrite (handleEndPractice_running s endTime' db' Hp Htruthy).
    change (newAccumulatedSeconds s endTime'
            = accumulatedSecondsToday s + (endTime' - st) / 1000).
    unfold newAccumulatedSeconds. by rewrite Hst.
  - exists (logEntryData s1 endTime'). split_and!.
    + change (logEntryData s1 endTime'
              ∈ match Array.findIndex (fun x => day x =? currentDay s1)
                        (dailyLog s1) with
                | Some logIndex =>
                    <[logIndex := logEntryData s1 endTime']> (dailyLog s1)
                | None => dailyLog s1 ++ [logEntryData s1 endTime']
                end).
      destruct (Array.findIndex _ (dailyLog s1)) as [k|] eqn:Hk.
      * destruct (findIndex_Some _ _ _ Hk) as (x & Hx & _).
        apply list_elem_of_lookup. exists k.
        apply list_lookup_insert_eq. by eapply lookup_lt_Some.
      * apply elem_of_app. right. by apply list_elem_of_singleton.
    + done.
    + change (totalMinutesToday s1 endTime'
              = Z.max 1 (Math_round_div seconds 60)).
      unfold totalMinutesToday. by rewrite Hseconds.
Qed.

End PageRuns.

Lemma rendered_runs_keep_one_entry_per_day_witness :
  Forall uniqueEvent patientSession
  /\ patientRun initialPage patientSession
  /\ forall e, e ∈ dailyLog (rendered (pageRun initialPage patientSession)) ->
       day e <= currentDay (rendered (pageRun initialPage patientSession)).
Proof.
  assert (Hunique : Forall uniqueEvent patientSession).
  { repeat constructor. intros i j a b _ Hi. destruct i; discriminate Hi. }
  assert (Hrun : patientRun initialPage patientSession).
  { repeat split; vm_compute; reflexivity. }
  split; [exact Hunique|]. split; [exact Hrun|].
  intros e He.
  exact (proj1 (proj2 (rendered_runs_keep_one_entry_per_day
                         patientSession Hunique Hrun) e He)).
Defined.

Lemma second_skip_click_logs_the_day_twice_witness :
  offered afterEmptyFetch (OpSkipDay DbOk) = true /\ (1 < 2)%nat
  /\ offeredEvent
       (pageStep {| rendered := afterEmptyFetch; awaited := [] |} EvSkipDay)
       EvSkipDay
     = true.
Proof.
  assert (Hoff : offered afterEmptyFetch (OpSkipDay DbOk) = true)
    by (vm_compute; reflexivity).
  assert (Hi : (1 < 2)%nat) by lia.
  split; [exact Hoff|]. split; [exact Hi|].
  exact (proj1 (second_skip_click_logs_the_day_twice
                  afterEmptyFetch 1 DbOk DbError Hoff Hi)).
Defined.

Lemma second_pause_click_counts_the_interval_twice_witness :
  isLoading practising = false /\ isPracticing practising = true
  /\ startTime practising = Some 1000
  /\ accumulatedSecondsToday
       (rendered
          (pageRun {| rendered := practising; awaited := [] |}
             [EvEndPractice 1801000; EvEndPractice 1802000;
              EvAnswer 0 DbOk; EvAnswer 0 DbOk]))
     = accumulatedSecondsToday practising
       + (1801000 - 1000) / 1000 + (1802000 - 1000) / 1000.
Proof.
  split; [reflexivity|]. split; [reflexivity|]. split; [reflexivity|].
  exact (proj1 (proj2 (second_pause_click_counts_the_interval_twice
                         practising 1000 1801000 1802000 DbOk DbOk
                         eq_refl eq_refl eq_refl ltac:(discriminate)))).
Defined.
